(** * Invoice PDF generator (src/app/utils/generateInvoice.ts)

    A shallow embedding of the invoice document generator and the
    properties its specification states about it.

    - JavaScript strings are [string]s whose characters are code units of
      the Latin-1 range (0..255).
    - JavaScript numbers are IEEE-754 binary64 values: the kernel's
      primitive [float]s, so arithmetic on literals computes exactly as the
      runtime does.
    - Values of type [unknown] (the entry point's arguments, the parsed
      company profile) are [JsVal]s; a property read on [undefined] or
      [null], or a method call on a value that has no such method, is a
      thrown [TypeError] in the [Result] monad.  Values the source declares
      a type for ([InvoicePdfCompany], the catalog record) are records and
      options.
    - The jsPDF document is the chronological list of the calls made on it.
    - Everything the generator gets from its environment (window, fetch,
      local storage, the product catalog, the PDF library's text metrics
      and pagination, the clock, number and date formatting) is a field of
      [Platform].
    - The two pages around the generator are modelled as far as they meet
      it: the settings page, which writes the company profile the generator
      loads (module [Settings]), and the invoices page, which keeps the
      list of invoices and calls the generator (module [InvoicesPage]). *)

From Stdlib Require Import PrimFloat FloatOps SpecFloat Uint63 ZArith Ascii String DecimalString.
From Stdlib Require Import FloatAxioms.
From stdpp Require Import base option list strings gmap.

Set Warnings "-inexact-float,-register-all".

Local Open Scope string_scope.

(* ================================================================== *)
(** ** Strings *)

Module JsString.

(** WhiteSpace and LineTerminator code units below 256: TAB, LF, VT, FF,
    CR, SP and NBSP. *)
Definition isWhiteSpace (c : ascii) : bool :=
  let n := nat_of_ascii c in
  (Nat.leb 9 n && Nat.leb n 13) || Nat.eqb n 32 || Nat.eqb n 160.

Definition isEmpty (s : string) : bool :=
  match s with EmptyString => true | String _ _ => false end.

Fixpoint trimStart (s : string) : string :=
  match s with
  | EmptyString => EmptyString
  | String c r => if isWhiteSpace c then trimStart r else s
  end.

Fixpoint trimEnd (s : string) : string :=
  match s with
  | EmptyString => EmptyString
  | String c r =>
      let r' := trimEnd r in
      if isWhiteSpace c && isEmpty r' then EmptyString else String c r'
  end.

(** [String.prototype.trim] *)
Definition trim (s : string) : string := trimEnd (trimStart s).

Definition lowerChar (c : ascii) : ascii :=
  let n := nat_of_ascii c in
  if (Nat.leb 65 n && Nat.leb n 90)
     || (Nat.leb 192 n && Nat.leb n 222 && negb (Nat.eqb n 215))
  then ascii_of_nat (n + 32) else c.

(** [String.prototype.toLowerCase] *)
Fixpoint toLowerCase (s : string) : string :=
  match s with
  | EmptyString => EmptyString
  | String c r => String (lowerChar c) (toLowerCase r)
  end.

(** [Array.prototype.join] on an array of strings *)
Fixpoint join (sep : string) (l : list string) : string :=
  match l with
  | [] => ""
  | [x] => x
  | x :: r => x ++ sep ++ join sep r
  end.

End JsString.

(* ================================================================== *)
(** ** Numbers *)

Module JsNumber.

Local Open Scope float_scope.

(** An array length or a count, as a number (exact below 2^53, which
    every length is). *)
Definition of_nat (n : nat) : float := of_uint63 (Uint63.of_Z (Z.of_nat n)).

(** ToBoolean on a number: false for +0, -0 and NaN. *)
Definition truthy (x : float) : bool := negb (PrimFloat.is_nan x || PrimFloat.is_zero x).

(** [Math.max] and [Math.min] of two numbers. *)
Definition max (a b : float) : float :=
  if is_nan a || is_nan b then nan
  else if a <? b then b
  else if b <? a then a
  else if get_sign a then b else a.

Definition min (a b : float) : float :=
  if is_nan a || is_nan b then nan
  else if a <? b then a
  else if b <? a then b
  else if get_sign a then a else b.

(** The decimal digits of a natural number, ["0"] for zero. *)
Definition digits (n : Z) : string := NilZero.string_of_uint (N.to_uint (Z.to_N n)).

Fixpoint zeros (k : nat) : string :=
  match k with O => "" | S k' => String "0" (zeros k') end.

(** Steps 9-10 of Number.prototype.toFixed: the digits of [n], padded on
    the left to [f + 1] digits, with a point before the last [f]. *)
Definition fixedDigits (n : Z) (f : nat) : string :=
  let m := digits n in
  match f with
  | O => m
  | _ =>
      let k := String.length m in
      let m := if Nat.leb k f then (zeros (f + 1 - k) ++ m)%string else m in
      let k := String.length m in
      (substring 0 (k - f) m ++ "." ++ substring (k - f) f m)%string
  end.

(** [Number.prototype.toFixed(f)] for [0 <= f <= 100].  The value of a
    finite float is [m * 2^e]; [n] is the integer nearest to
    [m * 2^e * 10^f], the larger one on a tie.  Values of magnitude
    [10^21] and above print as [Number::toString] does, which the runtime
    supplies. *)
Definition toFixed (numberToString : float -> string) (x : float) (f : nat) : string :=
  match Prim2SF x with
  | S754_nan => "NaN"
  | S754_infinity false => "Infinity"
  | S754_infinity true => "-Infinity"
  | S754_zero _ => fixedDigits 0 f
  | S754_finite s m e =>
      let num := if (0 <=? e)%Z then (Z.pos m * 2 ^ e)%Z else Z.pos m in
      let den := if (0 <=? e)%Z then 1%Z else (2 ^ (- e))%Z in
      let sign := if s then "-" else "" in
      if (10 ^ 21 * den <=? num)%Z
      then (sign ++ numberToString (abs x))%string
      else
        let n := ((2 * num * 10 ^ Z.of_nat f + den) / (2 * den))%Z in
        (sign ++ fixedDigits n f)%string
  end.

End JsNumber.

(* ================================================================== *)
(** ** Values, exceptions *)

(** A JavaScript value: the primitives, [Date] objects (by their time
    value, NaN for an invalid date), arrays, and plain objects as the list
    of their own properties. *)
Inductive JsVal : Type :=
| VUndef
| VNull
| VBool (b : bool)
| VNum (x : float)
| VStr (s : string)
| VDate (t : float)
| VArr (items : list JsVal)
| VObj (fields : list (string * JsVal)).

Inductive Exn : Type :=
| TypeError
| SyntaxError
| SecurityError.

Inductive Result (A : Type) : Type :=
| Ok (a : A)
| Throw (e : Exn).
Arguments Ok {A} a.
Arguments Throw {A} e.

#[global] Instance Result_ret : MRet Result := fun A a => Ok a.
#[global] Instance Result_bind : MBind Result := fun A B f m =>
  match m with
  | Ok a => f a
  | Throw e => Throw e
  end.

(** [try { body } catch { return fallback }] *)
Definition tryCatch {A} (body : Result A) (fallback : A) : A :=
  match body with
  | Ok a => a
  | Throw _ => fallback
  end.

Definition isNullish (v : JsVal) : bool :=
  match v with
  | VUndef | VNull => true
  | _ => false
  end.

(** [a ?? b] *)
Definition nullish (a b : JsVal) : JsVal := if isNullish a then b else a.

(** [typeof v] *)
Definition typeof (v : JsVal) : string :=
  match v with
  | VUndef => "undefined"
  | VBool _ => "boolean"
  | VNum _ => "number"
  | VStr _ => "string"
  | VNull | VDate _ | VArr _ | VObj _ => "object"
  end.

(** ToBoolean *)
Definition ToBoolean (v : JsVal) : bool :=
  match v with
  | VUndef | VNull => false
  | VBool b => b
  | VNum x => JsNumber.truthy x
  | VStr s => negb (JsString.isEmpty s)
  | VDate _ | VArr _ | VObj _ => true
  end.

Fixpoint lookupField (fields : list (string * JsVal)) (p : string) : JsVal :=
  match fields with
  | [] => VUndef
  | (k, v) :: rest => if String.eqb k p then v else lookupField rest p
  end.

(** [v.p] for a [v] that is neither [undefined] nor [null].  The program
    reads data properties only: own properties of plain objects and the
    [length] of arrays and strings. *)
Definition prop (v : JsVal) (p : string) : JsVal :=
  match v with
  | VObj fields => lookupField fields p
  | VArr l => if String.eqb p "length" then VNum (JsNumber.of_nat (length l)) else VUndef
  | VStr s => if String.eqb p "length" then VNum (JsNumber.of_nat (String.length s)) else VUndef
  | _ => VUndef
  end.

(** [v.p] *)
Definition getProp (v : JsVal) (p : string) : Result JsVal :=
  if isNullish v then Throw TypeError else Ok (prop v p).

(** [v?.p] *)
Definition optProp (v : JsVal) (p : string) : JsVal :=
  if isNullish v then VUndef else prop v p.

(** The receiver of an array method call ([.map], [.filter]): anything
    but an array has no such method. *)
Definition asArray (v : JsVal) : Result (list JsVal) :=
  match v with
  | VArr l => Ok l
  | _ => Throw TypeError
  end.

(** The receiver of a string method call ([.replace]). *)
Definition asString (v : JsVal) : Result string :=
  match v with
  | VStr s => Ok s
  | _ => Throw TypeError
  end.

(* ================================================================== *)
(** ** The environment *)

Definition Blob := string.

Record Response := {
  response_ok : bool;
  response_blob : option Blob;       (* [None]: [response.blob()] rejects *)
}.

Record ImageSize := {
  naturalWidth : float;
  width : float;
  naturalHeight : float;
  height : float;
}.

(** The outcome of [getDoc(doc(db, "products", id))]: an error, a snapshot
    of a missing document, or a snapshot with its data (declared as
    [{ reference?: string }]) and its id. *)
Inductive DocOutcome : Type :=
| DocError
| DocMissing
| DocFound (reference : option string) (snap_id : string).

(** A cell of a row of the items table: a text, or the member of
    [Object.prototype] found under [key] (a function, or the prototype
    itself under ["__proto__"]), which is what a read of the reference table
    gives for a key the table only inherits.  A text stands for its cell
    wherever a cell is expected. *)
Inductive Cell : Type :=
| CellText (text : string)
| CellMember (key : string).

Coercion CellText : string >-> Cell.

Record Font := {
  font_family : string;
  font_style : string;
  font_size : float;
}.

Record Platform := {
  hasWindow : bool;                              (* typeof window !== "undefined" *)
  (* the language runtime *)
  numberToString : float -> string;              (* Number::toString *)
  stringToNumber : string -> float;              (* StringToNumber *)
  dateToString : float -> string;                (* Date.prototype.toString *)
  newDate : JsVal -> float;                      (* time value of new Date(v), v not a Date *)
  now : float;                                   (* time value of new Date() *)
  toLocaleDateString : float -> string;
  jsonParse : string -> Result JsVal;            (* JSON.parse *)
  (* the browser *)
  localStorage_getItem : string -> Result (option string);
  fetch : string -> option Response;             (* [None]: the promise rejects *)
  readAsDataURL : Blob -> option string;         (* [None]: reader.onerror *)
  loadImage : string -> option ImageSize;        (* [None]: img.onerror *)
  (* the product catalog *)
  importFirestore : bool;                        (* import("firebase/firestore") resolves *)
  getDoc : string -> DocOutcome;
  (* the PDF library *)
  pageWidth : float;
  pageHeight : float;
  splitTextToSize : Font -> string -> float -> list string;
  addImageAccepts : string -> bool;              (* [false]: doc.addImage throws *)
  lastAutoTable_finalY : float -> list (list Cell) -> option float;
  numberOfPages : float -> list (list Cell) -> nat;
}.

Definition DEFAULT_LOGO_URL : string := "/company/company_logo.png".
Definition CURRENCY : string := "Dt".

(** [Array.from(new Set(l))]: the first occurrence of every element, in
    order. *)
Fixpoint uniqueFrom (seen : list string) (l : list string) : list string :=
  match l with
  | [] => []
  | x :: rest =>
      if bool_decide (x ∈ seen) then uniqueFrom seen rest
      else x :: uniqueFrom (x :: seen) rest
  end.

Definition unique (l : list string) : list string := uniqueFrom [] l.

(** [Object.fromEntries(entries)]: a later entry overwrites an earlier one. *)
Definition fromEntries (entries : list (string * string)) : gmap string string :=
  foldl (fun m kv => <[kv.1 := kv.2]> m) ∅ entries.

Definition nonEmpty (s : string) : bool := negb (JsString.isEmpty s).

(** [InvoicePdfCompany]: every field is optional. *)
Record InvoicePdfCompany := {
  company_name : option string;
  company_email : option string;
  company_phoneNumbers : option (list string);
  company_addresses : option (list string);
}.

(** [s] for an optional string: defined and not empty. *)
Definition hasText (s : option string) : bool :=
  match s with
  | Some s => nonEmpty s
  | None => false
  end.

(** [l?.length] for an optional array: defined and not empty. *)
Definition hasLength (l : option (list string)) : bool :=
  match l with
  | Some (_ :: _) => true
  | _ => false
  end.

(** A company record as the value the document assembler reads. *)
Definition companyValue (company : option InvoicePdfCompany) : JsVal :=
  match company with
  | None => VUndef
  | Some c =>
      VObj [("name", from_option VStr VUndef (company_name c));
            ("email", from_option VStr VUndef (company_email c));
            ("phoneNumbers",
             from_option (fun l => VArr (map VStr l)) VUndef (company_phoneNumbers c));
            ("addresses",
             from_option (fun l => VArr (map VStr l)) VUndef (company_addresses c))]
  end.

Section Runtime.

Context (P : Platform).

(** ToString, as [String(v)] applies it. *)
Fixpoint ToString (v : JsVal) : string :=
  match v with
  | VUndef => "undefined"
  | VNull => "null"
  | VBool true => "true"
  | VBool false => "false"
  | VNum x => numberToString P x
  | VStr s => s
  | VDate t => dateToString P t
  | VArr l =>
      JsString.join ","
        (map (fun x => match x with
                       | VUndef | VNull => ""
                       | _ => ToString x
                       end) l)
  | VObj _ => "[object Object]"
  end.

(** ToNumber, as [Number(v)] applies it. *)
Definition ToNumber (v : JsVal) : float :=
  match v with
  | VUndef => nan
  | VNull => 0%float
  | VBool true => 1%float
  | VBool false => 0%float
  | VNum x => x
  | VStr s => stringToNumber P s
  | VDate t => t
  | VArr _ | VObj _ => stringToNumber P (ToString v)
  end.

(** [String(v ?? "").trim()] *)
Definition trimmed (v : JsVal) : string :=
  JsString.trim (ToString (nullish v (VStr ""))).

(** [formatMoneyDt] *)
Definition formatMoneyDt (value : float) : string :=
  JsNumber.toFixed (numberToString P)
    (if JsNumber.truthy value then value else 0%float) 2
  ++ " " ++ CURRENCY.

(** [toDateSafe]: the date's time value, or [None] for [null]. *)
Definition toDateSafe (value : JsVal) : option float :=
  if negb (ToBoolean value) then None
  else
    let date := match value with
                | VDate t => t
                | _ => newDate P value
                end in
    if PrimFloat.is_nan date then None else Some date.

(** [arr.map((p) => String(p ?? "").trim()).filter(Boolean)] *)
Definition trimmedEntries (arr : list JsVal) : list string :=
  List.filter nonEmpty (map trimmed arr).

(** The body of the [try] block of [loadCompanyProfileFromStorage]. *)
Definition loadCompanyProfile_body : Result (option InvoicePdfCompany) :=
  raw ← localStorage_getItem P "companyProfile";
  match raw with
  | None => Ok None
  | Some raw =>
      if JsString.isEmpty raw then Ok None
      else
        parsed ← jsonParse P raw;
        parsed_phoneNumbers ← getProp parsed "phoneNumbers";
        let phoneNumbers :=
          match parsed_phoneNumbers with
          | VArr l => Some (trimmedEntries l)
          | _ => None
          end in
        parsed_addresses ← getProp parsed "addresses";
        let addresses :=
          match parsed_addresses with
          | VArr l => Some (trimmedEntries l)
          | _ => None
          end in
        parsed_name ← getProp parsed "name";
        parsed_email ← getProp parsed "email";
        let company :=
          {| company_name :=
               match parsed_name with
               | VStr s => Some (JsString.trim s)
               | _ => None
               end;
             company_email :=
               match parsed_email with
               | VStr s => Some (JsString.trim s)
               | _ => None
               end;
             company_phoneNumbers := if hasLength phoneNumbers then phoneNumbers else None;
             company_addresses := if hasLength addresses then addresses else None |} in
        if negb (hasText (company_name company))
           && negb (hasText (company_email company))
           && negb (hasLength (company_phoneNumbers company))
           && negb (hasLength (company_addresses company))
        then Ok None
        else Ok (Some company)
  end.

(** [loadCompanyProfileFromStorage]: [None] is [undefined]. *)
Definition loadCompanyProfileFromStorage : option InvoicePdfCompany :=
  if negb (hasWindow P) then None
  else tryCatch loadCompanyProfile_body None.

(** [loadImageAsDataUrl]: [None] is [null]. *)
Definition loadImageAsDataUrl (url : string) : option string :=
  if negb (hasWindow P) then None
  else
    match fetch P url with
    | None => None                             (* fetch rejects: caught *)
    | Some response =>
        if negb (response_ok response) then None
        else
          match response_blob response with
          | None => None                       (* blob() rejects: caught *)
          | Some blob =>
              match readAsDataURL P blob with
              | None => None                   (* reader.onerror: caught *)
              | Some dataUrl => Some dataUrl
              end
          end
    end.

(** [a || b] on numbers *)
Definition orNum (a b : float) : float := if JsNumber.truthy a then a else b.

(** [getImageAspectRatio] *)
Definition getImageAspectRatio (dataUrl : string) : option float :=
  if negb (hasWindow P) then None
  else
    match loadImage P dataUrl with
    | None => None
    | Some img =>
        let w := orNum (orNum (naturalWidth img) (width img)) 0%float in
        let h := orNum (orNum (naturalHeight img) (height img)) 0%float in
        if negb (JsNumber.truthy w) || negb (JsNumber.truthy h) then None
        else
          let ratio := (w / h)%float in
          if PrimFloat.is_nan ratio || PrimFloat.is_infinity ratio
             || (ratio <=? 0)%float
          then None
          else Some ratio
    end.

(** One catalog lookup of [loadProductReferenceMap]: the entry
    [[productId, reference]]. *)
Definition lookupEntry (productId : string) : string * string :=
  match getDoc P productId with
  | DocError => (productId, productId)
  | DocMissing => (productId, productId)
  | DocFound reference snap_id => (productId, default snap_id reference)
  end.

(** The result of [loadProductReferenceMap], together with the ids for
    which a catalog lookup was issued. *)
Record ReferenceLookup := {
  lookups : list string;
  references : gmap string string;
}.

(** [loadProductReferenceMap] *)
Definition loadProductReferenceMap (productIds : list string) : ReferenceLookup :=
  if negb (hasWindow P) then {| lookups := []; references := ∅ |}
  else
    let uniqueIds := unique (List.filter nonEmpty productIds) in
    match uniqueIds with
    | [] => {| lookups := []; references := ∅ |}
    | _ =>
        if negb (importFirestore P) then {| lookups := []; references := ∅ |}
        else {| lookups := uniqueIds;
                references := fromEntries (map lookupEntry uniqueIds) |}
    end.

End Runtime.

(* ================================================================== *)
(** ** The document *)

(** A call on the jsPDF document.  [AutoTable] keeps the options of the
    [autoTable] call that depend on the invoice; its style options are
    constants of the source. *)
Inductive DocOp : Type :=
| SetFillColor (r g b : float)
| SetDrawColor (r g b : float)
| SetTextColor (r g b : float)
| SetLineWidth (w : float)
| SetFont (family style : string)
| SetFontSize (size : float)
| Rect (x y w h : float) (style : string)
| RoundedRect (x y w h rx ry : float)
| Line (x1 y1 x2 y2 : float)
| Text (text : string) (x y : float) (align : option string)
| AddImage (data format : string) (x y w h : float)
| AutoTable (startY : float) (head : list (list string)) (body : list (list Cell))
    (marginLeft marginRight : float)
| SetPage (page : nat)
| Save (filename : string).

Definition Doc := list DocOp.

(** The document after further calls. *)
Definition emit (doc : Doc) (ops : list DocOp) : Doc := (doc ++ ops)%list.

Definition BRAND_GRAY : float * float * float := (75, 85, 99)%float.
Definition BRAND_GRAY_DARK : float * float * float := (31, 41, 55)%float.
Definition BORDER_GRAY : float * float * float := (220, 220, 220)%float.
Definition BG_SOFT : float * float * float := (245, 247, 250)%float.
Definition TEXT_MUTED : float * float * float := (107, 114, 128)%float.

Definition setFillColor (c : float * float * float) : DocOp := SetFillColor c.1.1 c.1.2 c.2.
Definition setDrawColor (c : float * float * float) : DocOp := SetDrawColor c.1.1 c.1.2 c.2.
Definition setTextColor (c : float * float * float) : DocOp := SetTextColor c.1.1 c.1.2 c.2.

(** The font a fresh jsPDF document starts with. *)
Definition initialFont : Font :=
  {| font_family := "helvetica"; font_style := "normal"; font_size := 16 |}.

Definition applyFont (f : Font) (op : DocOp) : Font :=
  match op with
  | SetFont family style =>
      {| font_family := family; font_style := style; font_size := font_size f |}
  | SetFontSize size =>
      {| font_family := font_family f; font_style := font_style f; font_size := size |}
  | _ => f
  end.

(** The font in force after the calls of [doc]: what [doc.splitTextToSize]
    measures with. *)
Definition currentFont (doc : Doc) : Font := foldl applyFont initialFont doc.

Definition isSafeChar (c : ascii) : bool :=
  let n := nat_of_ascii c in
  (Nat.leb 97 n && Nat.leb n 122) || (Nat.leb 65 n && Nat.leb n 90)
  || (Nat.leb 48 n && Nat.leb n 57) || Nat.eqb n 45 || Nat.eqb n 95.

(** [s.replace(/[^a-z0-9-_]+/gi, "-")]: every maximal run of characters
    outside the class becomes one hyphen.  [inRun] says that the previous
    character was outside the class. *)
Fixpoint replaceUnsafeRuns (inRun : bool) (s : string) : string :=
  match s with
  | EmptyString => EmptyString
  | String c r =>
      if isSafeChar c then String c (replaceUnsafeRuns false r)
      else if inRun then replaceUnsafeRuns true r
      else String "-" (replaceUnsafeRuns true r)
  end.

(** [safeFile], from the string [invoiceNumber || "invoice"]. *)
Definition safeFile (name : string) : string :=
  JsString.toLowerCase (replaceUnsafeRuns false name).

(** A row of a section box: [{ label, value }]. *)
Definition KeyValueRow : Type := string * JsVal.

Section Layout.

Context (P : Platform).
Local Open Scope float_scope.

(** [drawSectionBox]: the height [h] it returns and the document after
    its calls. *)
Definition drawSectionBox (doc : Doc) (x y w : float) (title : string)
    (rows : list KeyValueRow) : float * Doc :=
  let padX := 4 in
  let padY := 4 in
  let headerH := 9 in
  let rowGap := 4.8 in
  let labelW := 24 in
  let valueW := w - padX * 2 - labelW in
  let wrappedValues : list (string * list string) :=
    map (fun r : KeyValueRow =>
           (r.1,
            splitTextToSize P (currentFont doc)
              (let s := trimmed P r.2 in if JsString.isEmpty s then "-" else s)%string
              valueW)) rows in
  let contentLines :=
    foldl (fun sum (r : string * list string) =>
             sum + orNum (JsNumber.of_nat (length r.2)) 1) 0 wrappedValues in
  let h := padY + headerH + padY + contentLines * rowGap + padY in
  let doc :=
    emit doc [setDrawColor BORDER_GRAY; SetLineWidth 0.2;
              RoundedRect x y w h 2 2;
              setFillColor BG_SOFT; Rect x y w headerH "F";
              SetFont "helvetica" "bold"; SetFontSize 10; SetTextColor 40 40 40;
              Text title (x + padX) (y + 6.3) None] in
  let cursorY := y + headerH + padY + 2 in
  let drawRow (st : Doc * float) (r : string * list string) : Doc * float :=
    let (doc, cursorY) := st in
    (emit
       (emit doc [SetFont "helvetica" "bold"; SetFontSize 8.8; setTextColor TEXT_MUTED;
                  Text r.1 (x + padX) cursorY None;
                  SetFont "times" "normal"; SetFontSize 9.2; SetTextColor 20 20 20])
       (imap (fun idx line =>
                Text line (x + padX + labelW)
                     (cursorY + JsNumber.of_nat idx * rowGap) None) r.2),
     cursorY + JsNumber.of_nat (length r.2) * rowGap) in
  let doc := (foldl drawRow (doc, cursorY) wrappedValues).1 in
  (h, emit doc [SetTextColor 0 0 0]).

(** The logo block of [generateInvoicePDF]. *)
Definition drawLogo (doc : Doc) (marginX : float) (logoDataUrl : option string) : Doc :=
  match logoDataUrl with
  | None => doc
  | Some data =>
      if JsString.isEmpty data then doc
      else
        let logoMaxH := 20 in
        let logoMaxW := 34 in
        let aspectRatio := getImageAspectRatio P data in
        let '(logoW, logoH) :=
          match aspectRatio with
          | Some ratio =>
              if JsNumber.truthy ratio then
                let logoW := logoMaxH * ratio in
                if logoMaxW <? logoW then (logoMaxW, logoMaxW / ratio)
                else (logoW, logoMaxH)
              else (logoMaxH, logoMaxH)
          | None => (logoMaxH, logoMaxH)
          end in
        if addImageAccepts P data
        then emit doc [AddImage data "PNG" (pageWidth P - marginX - logoW) 5 logoW logoH]
        else doc                                 (* ignore logo failures *)
  end.

(** The guard of the company block. *)
Definition companyPresent (company : JsVal) : bool :=
  ToBoolean company
  && (ToBoolean (prop company "name")
      || ToBoolean (prop company "email")
      || (0 <? ToNumber P (nullish (optProp (prop company "phoneNumbers") "length") (VNum 0)))
      || (0 <? ToNumber P (nullish (optProp (prop company "addresses") "length") (VNum 0)))).

(** [lines.slice(0, 2).forEach(...)] of the company block. *)
Definition drawCompanyLines (textX lineGap : float) (st : Doc * float)
    (lines : list string) : Doc * float :=
  foldl (fun (st : Doc * float) line =>
           (emit st.1 [Text line textX st.2 (Some "left")], st.2 + lineGap))
        st (take 2 lines).

(** " · ": the separator of the addresses. *)
Definition middleDotSep : string :=
  String " " (String (ascii_of_nat 183) (String " " EmptyString)).

(** The company block (top-left). *)
Definition drawCompany (doc : Doc) (marginX : float) (company : JsVal) : Result Doc :=
  if negb (companyPresent company) then Ok doc
  else
    let centerGap := 12 in
    let maxLeftHalfW := pageWidth P / 2 - marginX - centerGap in
    let blockW := JsNumber.max 40 (JsNumber.min 70 maxLeftHalfW) in
    let textX := marginX in
    let maxW := blockW in
    let lineGap := 4.2 in
    let y := 8 in
    phoneNumbers ← asArray (nullish (prop company "phoneNumbers") (VArr []));
    let phones := trimmedEntries P phoneNumbers in
    addrs ← asArray (nullish (prop company "addresses") (VArr []));
    let addresses := trimmedEntries P addrs in
    let doc := emit doc [SetTextColor 255 255 255] in
    let st :=
      if ToBoolean (prop company "name") then
        let doc := emit doc [SetFont "helvetica" "bold"; SetFontSize 9.6] in
        drawCompanyLines textX lineGap (doc, y)
          (splitTextToSize P (currentFont doc)
             (JsString.trim (ToString P (prop company "name"))) maxW)
      else (doc, y) in
    let st := (emit st.1 [SetFont "helvetica" "normal"; SetFontSize 8.2], st.2) in
    let st :=
      if ToBoolean (prop company "email") then
        drawCompanyLines textX lineGap st
          (splitTextToSize P (currentFont st.1)
             (JsString.trim (ToString P (prop company "email"))) maxW)
      else st in
    let st :=
      match phones with
      | [] => st
      | _ =>
          drawCompanyLines textX lineGap st
            (splitTextToSize P (currentFont st.1) (JsString.join " / " phones) maxW)
      end in
    let st :=
      match addresses with
      | [] => st
      | _ =>
          drawCompanyLines textX lineGap st
            (splitTextToSize P (currentFont st.1)
               (JsString.join middleDotSep addresses) maxW)
      end in
    Ok (emit st.1 [SetTextColor 0 0 0]).

End Layout.

(* ================================================================== *)
(** ** The document assembler *)

(** [l.map(f)] and [l.filter(f)] for a callback that may throw. *)
Fixpoint mapR {A B} (f : A -> Result B) (l : list A) : Result (list B) :=
  match l with
  | [] => Ok []
  | x :: rest => y ← f x; ys ← mapR f rest; Ok (y :: ys)
  end.

Fixpoint filterR {A} (f : A -> Result bool) (l : list A) : Result (list A) :=
  match l with
  | [] => Ok []
  | x :: rest =>
      keep ← f x; ys ← filterR f rest; Ok (if keep : bool then x :: ys else ys)
  end.

Section Assembler.

Context (P : Platform).
Local Open Scope float_scope.

(** [Boolean(v) && typeof v === "object"] *)
Definition isTruthyObject (v : JsVal) : bool :=
  ToBoolean v && String.eqb (typeof v) "object".

(** The item of the legacy normalization:
    [(item) => ({ id, productId, description, quantity, unitPrice, totalPrice })]. *)
Definition normalizeItem (item : JsVal) : Result JsVal :=
  id ← getProp item "id";
  productId ← getProp item "productId";
  description ← getProp item "description";
  quantity ← getProp item "quantity";
  unitPrice ← getProp item "unitPrice";
  totalPrice ← getProp item "totalPrice";
  Ok (VObj [("id", id);
            ("productId", productId);
            ("description", description);
            ("quantity", VNum (ToNumber P (nullish quantity (VNum 0))));
            ("unitPrice", VNum (ToNumber P (nullish unitPrice (VNum 0))));
            ("totalPrice", VNum (ToNumber P (nullish totalPrice (VNum 0))))]).

(** The unified record a [(client, order)] call is normalized to. *)
Definition normalizeClientOrder (client order : JsVal) : Result JsVal :=
  orderNumber ← getProp order "orderNumber";
  createdAt ← getProp order "createdAt";
  cin ← getProp client "cin";
  name ← getProp client "name";
  email ← getProp client "email";
  phone ← getProp client "phone";
  location ← getProp client "location";
  order_items ← getProp order "items";
  itemList ← asArray (nullish order_items (VArr []));
  items ← mapR normalizeItem itemList;
  subtotal ← getProp order "subtotal";
  taxRate ← getProp order "taxRate";
  taxAmount ← getProp order "taxAmount";
  totalAmount ← getProp order "totalAmount";
  Ok (VObj [("invoiceNumber", orderNumber);
            ("createdAt", createdAt);
            ("clientCIN", cin);
            ("client", VObj [("name", name); ("email", email);
                             ("phone", phone); ("location", location)]);
            ("items", VArr items);
            ("subtotal", subtotal);
            ("taxRate", taxRate);
            ("taxAmount", taxAmount);
            ("totalAmount", VNum (ToNumber P (nullish totalAmount (VNum 0))));
            ("notes", VUndef)]).

(** [String(item.reference ?? "").trim()] *)
Definition inlineReference (item : JsVal) : Result string :=
  reference ← getProp item "reference";
  Ok (trimmed P reference).

(** [String(item.productId ?? item.id ?? "").trim()] *)
Definition productIdOf (item : JsVal) : Result string :=
  productId ← getProp item "productId";
  id ← getProp item "id";
  Ok (trimmed P (nullish productId id)).

(** [unresolvedProductIds] *)
Definition unresolvedProductIds (items : list JsVal) : Result (list string) :=
  lacking ← filterR (fun item => r ← inlineReference item; Ok (JsString.isEmpty r)) items;
  ids ← mapR productIdOf lacking;
  Ok (List.filter nonEmpty ids).

(** The names of the properties of [Object.prototype], which every plain
    object inherits: those of the language standard and of its annex for
    browsers. *)
Definition objectPrototypeKeys : list string :=
  ["constructor"; "hasOwnProperty"; "isPrototypeOf"; "propertyIsEnumerable";
   "toLocaleString"; "toString"; "valueOf"; "__proto__";
   "__defineGetter__"; "__defineSetter__"; "__lookupGetter__"; "__lookupSetter__"].

Definition inheritedKey (key : string) : bool :=
  existsb (String.eqb key) objectPrototypeKeys.

(** The value of [table[key]] for the reference table, a plain object with
    the own entries [table] (the result of [Object.fromEntries], or the
    literal [{}]): the own entry, else the inherited member, else
    [undefined]. *)
Inductive TableRead : Type :=
| ReadOwn (value : string)
| ReadInherited (key : string)
| ReadUndefined.

Definition readTable (table : gmap string string) (key : string) : TableRead :=
  match table !! key with
  | Some value => ReadOwn value
  | None => if inheritedKey key then ReadInherited key else ReadUndefined
  end.

(** The reference cell:
    [inlineReference || resolvedReference || (productId ? productId : "-")],
    where [resolvedReference] is
    [productId ? productReferenceMap[productId] : ""].  An inherited
    member is truthy, so it comes before the identifier. *)
Definition referenceCell (productReferenceMap : gmap string string)
    (inlineReference productId : string) : Cell :=
  let resolvedReference : TableRead :=
    if nonEmpty productId then readTable productReferenceMap productId else ReadOwn "" in
  if nonEmpty inlineReference then CellText inlineReference
  else
    match resolvedReference with
    | ReadOwn r =>
        if nonEmpty r then CellText r
        else if nonEmpty productId then CellText productId else CellText "-"
    | ReadInherited key => CellMember key
    | ReadUndefined => if nonEmpty productId then CellText productId else CellText "-"
    end.

(** One row of the table body. *)
Definition tableRow (productReferenceMap : gmap string string) (item : JsVal)
    : Result (list Cell) :=
  inlineRef ← inlineReference item;
  productId ← productIdOf item;
  let reference := referenceCell productReferenceMap inlineRef productId in
  quantity ← getProp item "quantity";
  let qty := ToNumber P (nullish quantity (VNum 0)) in
  unitPrice ← getProp item "unitPrice";
  let unit := ToNumber P (nullish unitPrice (VNum 0)) in
  totalPrice ← getProp item "totalPrice";
  let total := ToNumber P (nullish totalPrice (VNum (qty * unit))) in
  description ← getProp item "description";
  Ok [reference;
      CellText (let d := trimmed P description in if JsString.isEmpty d then "-" else d)%string;
      CellText (numberToString P qty);
      CellText (formatMoneyDt P unit);
      CellText (formatMoneyDt P total)].

(** [issueDate]: the time value of the date printed as the issue date. *)
Definition issueDateOf (invoice : JsVal) : float :=
  match toDateSafe P (prop invoice "issueDate") with
  | Some d => d
  | None =>
      match toDateSafe P (prop invoice "createdAt") with
      | Some d => d
      | None => now P
      end
  end.

(** [x ? [{ label, value: x }] : []] *)
Definition optionalRow (label : string) (value : JsVal) : list KeyValueRow :=
  if ToBoolean value then [(label, value)] else [].

(** [a || b] *)
Definition orVal (a b : JsVal) : JsVal := if ToBoolean a then a else b.

Definition leftRows (invoice : JsVal) : list KeyValueRow :=
  let dueDate := toDateSafe P (prop invoice "dueDate") in
  let invoiceNumber := nullish (prop invoice "invoiceNumber") (VStr "") in
  let status := nullish (prop invoice "status") (VStr "") in
  [("Invoice :", orVal invoiceNumber (VStr "-"));
   ("Issue :", VStr (toLocaleDateString P (issueDateOf invoice)))]
  ++ match dueDate with
     | Some d => [("Due :", VStr (toLocaleDateString P d))]
     | None => []
     end
  ++ optionalRow "Status :" status.

Definition rightRows (invoice : JsVal) : list KeyValueRow :=
  let client := prop invoice "client" in
  [("Name :", nullish (optProp client "name") (VStr "-"))]
  ++ optionalRow "CIN :" (prop invoice "clientCIN")
  ++ optionalRow "Email :" (optProp client "email")
  ++ optionalRow "Phone :" (optProp client "phone")
  ++ optionalRow "Addr :" (optProp client "location").

(** [typeof v === "number" ? v : 0] *)
Definition numberOrZero (v : JsVal) : float :=
  match v with
  | VNum x => x
  | _ => 0
  end.

Definition marginX : float := 20.
Definition headerBandH : float := 26.
Definition contentTop : float := headerBandH + 10.

(** The resolved [options]: [optionsCandidate] when it is a truthy object. *)
Definition resolveOptions (optionsCandidate : JsVal) : JsVal :=
  if isTruthyObject optionsCandidate then optionsCandidate else VUndef.

(** [options?.logoUrl ?? DEFAULT_LOGO_URL], as [fetch] reads it. *)
Definition logoUrlOf (options : JsVal) : string :=
  ToString P (nullish (optProp options "logoUrl") (VStr DEFAULT_LOGO_URL)).

(** [options?.company ?? loadCompanyProfileFromStorage()] *)
Definition companyOf (options : JsVal) : JsVal :=
  nullish (optProp options "company") (companyValue (loadCompanyProfileFromStorage P)).

(** Header band: fill, logo, company block and title. *)
Definition drawHeader (options : JsVal) : Result Doc :=
  let doc : Doc := [] in
  let logoDataUrl := loadImageAsDataUrl P (logoUrlOf options) in
  let company := companyOf options in
  let headerTop := 0 in
  let doc := emit doc [setFillColor BRAND_GRAY_DARK;
                       Rect 0 headerTop (pageWidth P) headerBandH "F"] in
  let doc := drawLogo P doc marginX logoDataUrl in
  doc ← drawCompany P doc marginX company;
  Ok (emit doc [SetFont "helvetica" "bold"; SetFontSize 20;
                SetTextColor 255 255 255;
                Text "INVOICE" (pageWidth P / 2) 16 (Some "center");
                SetTextColor 0 0 0;
                SetFont "times" "normal"; SetFontSize 10]).

(** Details + Bill To (boxed, aligned): the two heights and the document. *)
Definition drawBoxes (doc : Doc) (invoice : JsVal) : float * float * Doc :=
  let boxGap := 8 in
  let halfWidth := (pageWidth P - marginX * 2 - boxGap) / 2 in
  let leftBoxX := marginX in
  let rightBoxX := marginX + halfWidth + boxGap in
  let leftBox :=
    drawSectionBox P doc leftBoxX contentTop halfWidth "Invoice Details" (leftRows invoice) in
  let rightBox :=
    drawSectionBox P leftBox.2 rightBoxX contentTop halfWidth "Bill To" (rightRows invoice) in
  (leftBox.1, rightBox.1, rightBox.2).

(** [tableStartY], from the heights of the two boxes. *)
Definition tableStartY (leftH rightH : float) : float :=
  let boxHeight := JsNumber.max leftH rightH in
  contentTop + boxHeight + 12.

(** [rows]: the body of the items table, with the catalog lookups
    issued for it. *)
Definition tableBody (items : list JsVal) : Result (list string * list (list Cell)) :=
  unresolved ← unresolvedProductIds items;
  let resolution := loadProductReferenceMap P unresolved in
  rows ← mapR (tableRow (references resolution)) items;
  Ok (lookups resolution, rows).

(** Items table and totals area. *)
Definition drawTableAndTotals (doc : Doc) (startY : float) (rows : list (list Cell))
    (invoice : JsVal) : Doc :=
  let doc := emit doc [AutoTable startY
                         [["Reference"; "Description"; "Qty"; "Unit Price"; "Total"]]
                         rows marginX marginX] in
  let afterTableY := default startY (lastAutoTable_finalY P startY rows) in
  let totalsY := afterTableY + 10 in
  let boxWidth := 70 in
  let boxX := pageWidth P - marginX - boxWidth in
  let doc := emit doc [SetFontSize 9.6; SetFont "times" "normal"] in
  let subtotal := numberOrZero (prop invoice "subtotal") in
  let taxAmount := numberOrZero (prop invoice "taxAmount") in
  let totalAmount := ToNumber P (nullish (prop invoice "totalAmount") (VNum 0)) in
  let labelX := boxX + 4 in
  let valueX := boxX + boxWidth - 4 in
  let rowY := totalsY + 6.6 in
  let doc := emit doc [SetFont "helvetica" "bold"; SetTextColor 55 65 81;
                       Text "Subtotal :" labelX rowY None;
                       SetFont "times" "normal"; SetTextColor 17 24 39;
                       Text (formatMoneyDt P subtotal) valueX rowY (Some "right")] in
  let rowY := rowY + 6 in
  let doc := emit doc [SetFont "helvetica" "bold"; SetTextColor 55 65 81;
                       Text "Tax :" labelX rowY None;
                       SetFont "times" "normal"; SetTextColor 17 24 39;
                       Text (formatMoneyDt P taxAmount) valueX rowY (Some "right")] in
  let rowY := rowY + 6 in
  (* emphasize total row *)
  emit doc [setDrawColor BRAND_GRAY; SetLineWidth 0.35;
            Line boxX (rowY - 3.4) (boxX + boxWidth) (rowY - 3.4);
            SetFont "helvetica" "bold"; SetTextColor 17 24 39;
            SetFontSize 10.8;
            Text "Total :" labelX rowY None;
            Text (formatMoneyDt P totalAmount) valueX rowY (Some "right");
            SetFont "times" "normal"; SetTextColor 0 0 0;
            SetFontSize 9.6].

(** Footer (all pages). *)
Definition footer (totalPages : nat) : list DocOp :=
  let footerY := pageHeight P - 10 in
  flat_map
    (fun page =>
       [SetPage page;
        setDrawColor BORDER_GRAY; SetLineWidth 0.2;
        Line marginX (footerY - 6) (pageWidth P - marginX) (footerY - 6);
        SetFontSize 8; SetFont "times" "normal"; setTextColor TEXT_MUTED;
        Text "Thank you for your business!" (pageWidth P / 2) footerY (Some "center")])
    (seq 1 totalPages).

(** The name of the saved file: [`${safeFile}.pdf`]. *)
Definition fileName (invoice : JsVal) : Result string :=
  let invoiceNumber := nullish (prop invoice "invoiceNumber") (VStr "") in
  name ← asString (orVal invoiceNumber (VStr "invoice"));
  Ok (safeFile name ++ ".pdf")%string.

(** The body of [generateInvoicePDF] from the creation of the document
    on, for the resolved [options] and the unified [invoice] record. *)
Definition renderInvoice (options invoice : JsVal) : Result Doc :=
  doc ← drawHeader options;
  (* invoice.issueDate is the first property read of the record *)
  _ ← getProp invoice "issueDate";
  let boxes := drawBoxes doc invoice in
  let startY := tableStartY boxes.1.1 boxes.1.2 in
  items ← asArray (nullish (prop invoice "items") (VArr []));
  body ← tableBody items;
  let rows := body.2 in
  let doc := drawTableAndTotals boxes.2 startY rows invoice in
  let totalPages := numberOfPages P startY rows in
  let doc := emit doc (footer totalPages) in
  file ← fileName invoice;
  Ok (emit doc [Save file]).

(** [generateInvoicePDF(arg1, arg2, arg3)]: [Ok None] when it returns
    without a document (no window), [Ok (Some doc)] with the document it
    saved, [Throw] when the promise rejects. *)
Definition generateInvoicePDF (arg1 arg2 arg3 : JsVal) : Result (option Doc) :=
  if negb (hasWindow P) then Ok None
  else
    let isClientOrderCall := isTruthyObject arg2 in
    let optionsCandidate := if isClientOrderCall then arg3 else arg2 in
    let options := resolveOptions optionsCandidate in
    invoice ← (if isClientOrderCall then normalizeClientOrder arg1 arg2 else Ok arg1);
    doc ← renderInvoice options invoice;
    Ok (Some doc).

End Assembler.

(* ================================================================== *)
(** ** The two declared call shapes *)

(** [generateInvoicePDF(client, order, options?)], the first overload. *)
Definition clientOrderCall (P : Platform) (client order options : JsVal)
    : Result (option Doc) :=
  if negb (hasWindow P) then Ok None
  else
    invoice ← normalizeClientOrder P client order;
    doc ← renderInvoice P (resolveOptions options) invoice;
    Ok (Some doc).

(** [generateInvoicePDF(invoice, options?)], the second overload. *)
Definition invoiceCall (P : Platform) (invoice options : JsVal) : Result (option Doc) :=
  if negb (hasWindow P) then Ok None
  else
    doc ← renderInvoice P (resolveOptions options) invoice;
    Ok (Some doc).

(* ================================================================== *)
(** ** Well-formed arguments

    The shapes under which no property read or method call of the
    generator throws. *)









(* ================================================================== *)
(** ** Observations on documents and on the environment *)

Definition isAddImage (op : DocOp) : bool :=
  match op with
  | AddImage _ _ _ _ _ _ => true
  | _ => false
  end.

(** A plain drawing call: neither an image, nor the items table, nor the
    save. *)
Definition plain (op : DocOp) : bool :=
  match op with
  | AddImage _ _ _ _ _ _ | AutoTable _ _ _ _ _ | Save _ => false
  | _ => true
  end.

(** No image was added to the document. *)
Definition noLogo (doc : Doc) : bool := forallb (fun op => negb (isAddImage op)) doc.


(** The item's inline reference and product identifier, for an item that
    is an object. *)
Definition inlineRefOf (P : Platform) (item : JsVal) : string :=
  trimmed P (prop item "reference").

Definition productIdentifier (P : Platform) (item : JsVal) : string :=
  trimmed P (nullish (prop item "productId") (prop item "id")).

(** The ids handed to the resolver: the non-empty product identifiers of
    the items without an inline reference. *)
Definition unresolvedOf (P : Platform) (items : list JsVal) : list string :=
  List.filter nonEmpty
    (map (productIdentifier P)
       (List.filter (fun item => JsString.isEmpty (inlineRefOf P item)) items)).

(** The cells [tableRow] returns for an item that is an object. *)
Definition rowCells (P : Platform) (productReferenceMap : gmap string string)
    (item : JsVal) : list Cell :=
  let qty := ToNumber P (nullish (prop item "quantity") (VNum 0)) in
  let unit := ToNumber P (nullish (prop item "unitPrice") (VNum 0)) in
  let total := ToNumber P (nullish (prop item "totalPrice") (VNum (qty * unit)%float)) in
  [referenceCell productReferenceMap (inlineRefOf P item) (productIdentifier P item);
   CellText (let d := trimmed P (prop item "description") in
             if JsString.isEmpty d then "-" else d);
   CellText (numberToString P qty);
   CellText (formatMoneyDt P unit);
   CellText (formatMoneyDt P total)].

(** The body of the items table of a document. *)
Definition tableRowsOf (doc : Doc) : list (list Cell) :=
  flat_map (fun op => match op with
                      | AutoTable _ _ body _ _ => body
                      | _ => []
                      end) doc.

(** The texts written on a document, and the start of its items table. *)
Definition textsOf (doc : Doc) : list string :=
  flat_map (fun op => match op with
                      | Text text _ _ _ => [text]
                      | _ => []
                      end) doc.

(** [text] is written on the document. *)
Definition printed (text : string) (doc : Doc) : bool :=
  existsb (String.eqb text) (textsOf doc).

Definition tableStartsOf (doc : Doc) : list float :=
  flat_map (fun op => match op with
                      | AutoTable startY _ _ _ _ => [startY]
                      | _ => []
                      end) doc.

(** The name under which a document was saved. *)
Definition savedAs (doc : Doc) : option string :=
  match last doc with
  | Some (Save file) => Some file
  | _ => None
  end.

(** The printed reference and line total of a table row. *)
(** A row whose cells are all texts. *)
Definition textRow (cells : list string) : list Cell := map CellText cells.

Definition printedReference (row : list Cell) : Cell := nth 0 row (CellText "").
Definition printedTotal (row : list Cell) : Cell := nth 4 row (CellText "").

(** A stored company profile has content: a name or an email that is a
    string and not blank, or a list of phone numbers or addresses with an
    entry that is not blank. *)
Definition isText (v : JsVal) : bool :=
  match v with
  | VStr s => nonEmpty (JsString.trim s)
  | _ => false
  end.

Definition hasEntries (P : Platform) (v : JsVal) : bool :=
  match v with
  | VArr l => existsb (fun p => nonEmpty (trimmed P p)) l
  | _ => false
  end.

Definition profileHasContent (P : Platform) (parsed : JsVal) : bool :=
  isText (prop parsed "name")
  || isText (prop parsed "email")
  || hasEntries P (prop parsed "phoneNumbers")
  || hasEntries P (prop parsed "addresses").

(** The company record made from a parsed profile. *)
Definition companyFromParsed (P : Platform) (parsed : JsVal) : InvoicePdfCompany :=
  let entries (v : JsVal) :=
    match v with
    | VArr l => match trimmedEntries P l with
                | [] => None
                | x :: r => Some (x :: r)
                end
    | _ => None
    end in
  let text (v : JsVal) :=
    match v with
    | VStr s => Some (JsString.trim s)
    | _ => None
    end in
  {| company_name := text (prop parsed "name");
     company_email := text (prop parsed "email");
     company_phoneNumbers := entries (prop parsed "phoneNumbers");
     company_addresses := entries (prop parsed "addresses") |}.

(** The number of lines each row of a section box wraps to. *)
Definition lineCounts (P : Platform) (font : Font) (w : float) (rows : list KeyValueRow)
    : list nat :=
  map (fun r : KeyValueRow =>
         length (splitTextToSize P font
                   (let s := trimmed P r.2 in if JsString.isEmpty s then "-" else s)
                   (w - 4 * 2 - 24)%float)) rows.

(* ================================================================== *)
(** ** The specification's own definitions *)

(** The reference the specification prints for a line item: the inline
    reference if it has one, else the resolved catalog reference, else the
    raw product identifier, else the placeholder dash. *)
Definition spec_reference (inlineRef : string) (catalogRef : option string)
    (productId : string) : string :=
  if nonEmpty inlineRef then inlineRef
  else
    match catalogRef with
    | Some r => if nonEmpty r then r else if nonEmpty productId then productId else "-"
    | None => if nonEmpty productId then productId else "-"
    end.

(** The reference cell of the code for a line item, [catalogRef] being
    the table's own entry for its product identifier: the text the
    specification prints, except that, with no inline reference and no own
    entry, an identifier that names a member of [Object.prototype] gives
    that member. *)
Definition printedCell (inlineRef : string) (catalogRef : option string)
    (productId : string) : Cell :=
  match catalogRef with
  | None =>
      if JsString.isEmpty inlineRef && inheritedKey productId then CellMember productId
      else CellText (spec_reference inlineRef None productId)
  | Some _ => CellText (spec_reference inlineRef catalogRef productId)
  end.

(** The catalog's display reference for a product id: the record's
    reference, the record's id when it has none, and the id itself for a
    missing record or a failed lookup. *)
Definition catalogReference (P : Platform) (productId : string) : string :=
  match getDoc P productId with
  | DocFound (Some r) _ => r
  | DocFound None snap_id => snap_id
  | DocMissing | DocError => productId
  end.

(** A character of a file name: a lowercase letter, a digit, a hyphen or
    an underscore. *)
Definition isFileChar (c : ascii) : bool :=
  let n := nat_of_ascii c in
  (Nat.leb 97 n && Nat.leb n 122) || (Nat.leb 48 n && Nat.leb n 57)
  || Nat.eqb n 45 || Nat.eqb n 95.

Fixpoint allChars (p : ascii -> bool) (s : string) : bool :=
  match s with
  | EmptyString => true
  | String c r => p c && allChars p r
  end.

(** The text a maximal run is replaced by. *)
Definition replacement (r : bool * string) : string := if r.1 then r.2 else "-".

(** The invoice number the file is named after: the record's, unless it is
    absent or empty. *)
Definition nameSource (invoice : JsVal) : string :=
  match prop invoice "invoiceNumber" with
  | VStr (String c s) => String c s
  | _ => "invoice"
  end.

(** The maximal runs of a string: consecutive characters on the same side
    of [isSafeChar], with the side. *)
Fixpoint runs (s : string) : list (bool * string) :=
  match s with
  | EmptyString => []
  | String c r =>
      match runs r with
      | (safe, run) :: rest =>
          if Bool.eqb safe (isSafeChar c) then (safe, String c run) :: rest
          else (isSafeChar c, String c EmptyString) :: (safe, run) :: rest
      | [] => [(isSafeChar c, String c EmptyString)]
      end
  end.

(** The file name of the specification: every run of characters other than
    alphanumerics, hyphen and underscore replaced by a hyphen, and the
    result lowercased. *)
Definition spec_safeFile (s : string) : string :=
  JsString.toLowerCase
    (fold_right (fun r acc => (replacement r ++ acc)%string) EmptyString (runs s)).

(** The height the specification gives a section box whose rows wrap to
    [counts] lines: header band, paddings, and the fixed line height per
    wrapped line (a row counts for one line at least). *)
Definition spec_boxHeight (counts : list nat) : float :=
  let lines := foldl (fun sum n => sum + orNum (JsNumber.of_nat n) 1)%float 0%float counts in
  (4 + 9 + 4 + lines * 4.8 + 4)%float.

(* ================================================================== *)
(** ** Further observations on documents *)

(** A call that sets a colour, a line width or a font, or draws a shape, a
    line or a text: anything but an image, the items table, a page switch
    and the save. *)
Definition basic (op : DocOp) : bool :=
  match op with
  | AddImage _ _ _ _ _ _ | AutoTable _ _ _ _ _ | Save _ | SetPage _ => false
  | _ => true
  end.

(** A call that leaves the font as it is. *)
Definition keepsFont (op : DocOp) : bool :=
  match op with
  | SetFont _ _ | SetFontSize _ => false
  | _ => true
  end.

(** The pages switched to, the images added and the names saved under, in
    order. *)
Definition pagesOf (doc : Doc) : list nat :=
  flat_map (fun op => match op with
                      | SetPage page => [page]
                      | _ => []
                      end) doc.

Definition imagesOf (doc : Doc) : list string :=
  flat_map (fun op => match op with
                      | AddImage data _ _ _ _ _ => [data]
                      | _ => []
                      end) doc.

Definition savesOf (doc : Doc) : list string :=
  flat_map (fun op => match op with
                      | Save file => [file]
                      | _ => []
                      end) doc.

(** [String(value ?? "").trim() || "-"]: what a section box shows for a
    value. *)
Definition displayValue (P : Platform) (value : JsVal) : string :=
  let s := trimmed P value in if JsString.isEmpty s then "-" else s.

(** The texts of a section box: its title, then every row's label followed
    by the lines its value wraps to. *)
Definition boxTexts (P : Platform) (font : Font) (w : float) (title : string)
    (rows : list KeyValueRow) : list string :=
  title :: flat_map (fun r : KeyValueRow =>
                       r.1 :: splitTextToSize P font (displayValue P r.2)
                                (w - 4 * 2 - 24)%float) rows.

Definition timesNormal (size : float) : Font :=
  {| font_family := "times"; font_style := "normal"; font_size := size |}.

(** The width of each of the two section boxes. *)
Definition halfWidth (P : Platform) : float := ((pageWidth P - marginX * 2 - 8) / 2)%float.

(** The texts of the totals area. *)
Definition totalsTexts (P : Platform) (invoice : JsVal) : list string :=
  ["Subtotal :"; formatMoneyDt P (numberOrZero (prop invoice "subtotal"));
   "Tax :"; formatMoneyDt P (numberOrZero (prop invoice "taxAmount"));
   "Total :"; formatMoneyDt P (ToNumber P (nullish (prop invoice "totalAmount") (VNum 0)))].

(** The texts of the company block: the name, the e-mail address, the
    phone numbers and the addresses, each cut after its second line. *)
Definition companyTexts (P : Platform) (margin : float) (company : JsVal)
    (phones addresses : list string) : list string :=
  let maxW := JsNumber.max 40 (JsNumber.min 70 (pageWidth P / 2 - margin - 12)%float) in
  let nameFont :=
    {| font_family := "helvetica"; font_style := "bold"; font_size := 9.6 |} in
  let infoFont :=
    {| font_family := "helvetica"; font_style := "normal"; font_size := 8.2 |} in
  ((if ToBoolean (prop company "name")
    then take 2 (splitTextToSize P nameFont
                   (JsString.trim (ToString P (prop company "name"))) maxW)
    else [])
   ++ (if ToBoolean (prop company "email")
       then take 2 (splitTextToSize P infoFont
                      (JsString.trim (ToString P (prop company "email"))) maxW)
       else [])
   ++ match phones with
      | [] => []
      | _ => take 2 (splitTextToSize P infoFont (JsString.join " / " phones) maxW)
      end
   ++ match addresses with
      | [] => []
      | _ => take 2 (splitTextToSize P infoFont
                       (JsString.join middleDotSep addresses) maxW)
      end)%list.

(** The texts of the company block of the header for [company]: none when
    there is nothing to show. *)
Definition companyLinesOf (P : Platform) (company : JsVal) : list string :=
  if companyPresent P company then
    match asArray (nullish (prop company "phoneNumbers") (VArr [])),
          asArray (nullish (prop company "addresses") (VArr [])) with
    | Ok phoneNumbers, Ok addrs =>
        companyTexts P marginX company
          (trimmedEntries P phoneNumbers) (trimmedEntries P addrs)
    | _, _ => []
    end
  else [].

(** The calls of the header band and of the title. *)
Definition bandOps (P : Platform) : list DocOp :=
  [setFillColor BRAND_GRAY_DARK; Rect 0 0 (pageWidth P) headerBandH "F"].

Definition titleOps (P : Platform) : list DocOp :=
  [SetFont "helvetica" "bold"; SetFontSize 20;
   SetTextColor 255 255 255;
   Text "INVOICE" (pageWidth P / 2)%float 16 (Some "center");
   SetTextColor 0 0 0;
   SetFont "times" "normal"; SetFontSize 10].

(** The head row of the items table. *)
Definition tableHead : list (list string) :=
  [["Reference"; "Description"; "Qty"; "Unit Price"; "Total"]].

(** Where the items table starts for [invoice]: below the higher of the
    two section boxes, the left one wrapped in Times 10 and the right one
    in Times 9.2. *)
Definition tableStartOf (P : Platform) (invoice : JsVal) : float :=
  tableStartY
    (spec_boxHeight (lineCounts P (timesNormal 10) (halfWidth P) (leftRows P invoice)))
    (spec_boxHeight (lineCounts P (timesNormal 9.2) (halfWidth P) (rightRows invoice))).

Definition FOOTER_TEXT : string := "Thank you for your business!".

(* ================================================================== *)
(** ** The legacy call, observed *)

(** The item and the record of the legacy normalization, for an item, a
    client and an order that are objects. *)
Definition normalizedItem (P : Platform) (item : JsVal) : JsVal :=
  VObj [("id", prop item "id");
        ("productId", prop item "productId");
        ("description", prop item "description");
        ("quantity", VNum (ToNumber P (nullish (prop item "quantity") (VNum 0))));
        ("unitPrice", VNum (ToNumber P (nullish (prop item "unitPrice") (VNum 0))));
        ("totalPrice", VNum (ToNumber P (nullish (prop item "totalPrice") (VNum 0))))].

Definition normalizedInvoice (P : Platform) (client order : JsVal) (items : list JsVal)
    : JsVal :=
  VObj [("invoiceNumber", prop order "orderNumber");
        ("createdAt", prop order "createdAt");
        ("clientCIN", prop client "cin");
        ("client", VObj [("name", prop client "name"); ("email", prop client "email");
                         ("phone", prop client "phone");
                         ("location", prop client "location")]);
        ("items", VArr (map (normalizedItem P) items));
        ("subtotal", prop order "subtotal");
        ("taxRate", prop order "taxRate");
        ("taxAmount", prop order "taxAmount");
        ("totalAmount", VNum (ToNumber P (nullish (prop order "totalAmount") (VNum 0))));
        ("notes", VUndef)].

(** The reference a legacy call prints for a product identifier.  When
    the catalog can be reached: its reference for the identifier, or the
    identifier when that is empty.  When it cannot: the identifier, unless
    it names a member of [Object.prototype], which is then what the empty
    reference table answers.  The dash for no identifier. *)
Definition legacyReference (P : Platform) (productId : string) : Cell :=
  if nonEmpty productId then
    if importFirestore P then
      let r := catalogReference P productId in
      if nonEmpty r then CellText r else CellText productId
    else if inheritedKey productId then CellMember productId
    else CellText productId
  else CellText "-".

(** The table row a legacy call prints for an order item. *)
Definition legacyRow (P : Platform) (item : JsVal) : list Cell :=
  [legacyReference P (productIdentifier P item);
   CellText (let d := trimmed P (prop item "description") in
             if JsString.isEmpty d then "-" else d);
   CellText (numberToString P (ToNumber P (nullish (prop item "quantity") (VNum 0))));
   CellText (formatMoneyDt P (ToNumber P (nullish (prop item "unitPrice") (VNum 0))));
   CellText (formatMoneyDt P (ToNumber P (nullish (prop item "totalPrice") (VNum 0))))].

(* ================================================================== *)
(** ** The settings page (company profile form)

    The page that writes the company profile the generator reads from
    local storage. *)

(** A decimal digit. *)
Definition isDecimalDigit (c : ascii) : bool :=
  let n := nat_of_ascii c in Nat.leb 48 n && Nat.leb n 57.

(** The properties of the unified record the generator reads. *)
Definition usedFields : list string :=
  ["invoiceNumber"; "issueDate"; "createdAt"; "dueDate"; "status"; "client"; "clientCIN";
   "items"; "subtotal"; "taxAmount"; "totalAmount"].

(** A finite number of magnitude below 10^21: the range in which
    [toFixed] writes plain digits. *)
Definition belowFixedLimit (x : float) : bool :=
  match Prim2SF x with
  | S754_zero _ => true
  | S754_finite _ m e =>
      let num := if (0 <=? e)%Z then (Z.pos m * 2 ^ e)%Z else Z.pos m in
      let den := if (0 <=? e)%Z then 1%Z else (2 ^ (- e))%Z in
      negb (10 ^ 21 * den <=? num)%Z
  | _ => false
  end.

Module Settings.

(** The state of the form. *)
Record Form := {
  companyName : string;
  companyEmail : string;
  phoneNumbers : list string;
  addresses : list string;
  companyDescription : string;
  isLocked : bool;
}.

(** The state a fresh page starts with. *)
Definition initialForm : Form :=
  {| companyName := ""; companyEmail := ""; phoneNumbers := [""]; addresses := [""];
     companyDescription := ""; isLocked := false |}.

(** [value.replace(/\D/g, "")] *)
Fixpoint digitsOnly (value : string) : string :=
  match value with
  | EmptyString => EmptyString
  | String c r => if isDecimalDigit c then String c (digitsOnly r) else digitsOnly r
  end.

(** [validatePhoneNumbers]: the validation error it sets, [None] when it
    returns [true]. *)
Fixpoint firstShort (phones : list string) : option string :=
  match phones with
  | [] => None
  | phone :: rest =>
      if Nat.ltb (String.length phone) 8
      then Some "Phone numbers must be at least 8 digits"
      else firstShort rest
  end.

Definition validatePhoneNumbers (form : Form) : option string :=
  let nonEmptyPhones :=
    List.filter (fun p => nonEmpty (JsString.trim p)) (phoneNumbers form) in
  firstShort nonEmptyPhones.

(** [list.map((p) => p.trim()).filter(Boolean)] *)
Definition trimmedStrings (l : list string) : list string :=
  List.filter nonEmpty (map JsString.trim l).

(** The object [handleConfirmSave] serializes. *)
Definition profileOf (form : Form) : JsVal :=
  VObj [("name", VStr (JsString.trim (companyName form)));
        ("email", VStr (JsString.trim (companyEmail form)));
        ("phoneNumbers", VArr (map VStr (trimmedStrings (phoneNumbers form))));
        ("addresses", VArr (map VStr (trimmedStrings (addresses form))));
        ("description", VStr (JsString.trim (companyDescription form)));
        ("locked", VBool true)].

(** The browser after [localStorage.setItem(key, value)]. *)
Definition setItem (P : Platform) (key value : string) : Platform := {|
  hasWindow := hasWindow P;
  numberToString := numberToString P;
  stringToNumber := stringToNumber P;
  dateToString := dateToString P;
  newDate := newDate P;
  now := now P;
  toLocaleDateString := toLocaleDateString P;
  jsonParse := jsonParse P;
  localStorage_getItem := fun k =>
    if String.eqb k key then Ok (Some value) else localStorage_getItem P k;
  fetch := fetch P;
  readAsDataURL := readAsDataURL P;
  loadImage := loadImage P;
  importFirestore := importFirestore P;
  getDoc := getDoc P;
  pageWidth := pageWidth P;
  pageHeight := pageHeight P;
  splitTextToSize := splitTextToSize P;
  addImageAccepts := addImageAccepts P;
  lastAutoTable_finalY := lastAutoTable_finalY P;
  numberOfPages := numberOfPages P;
|}.

(** [handleConfirmSave]: the browser and the form after it.  [stringify] is
    [JSON.stringify]; [stored] says whether [setItem] succeeds (else it
    throws, which is ignored). *)
Definition handleConfirmSave (stringify : JsVal -> string) (stored : bool)
    (P : Platform) (form : Form) : Platform * Form :=
  let P' :=
    if hasWindow P && stored
    then setItem P "companyProfile" (stringify (profileOf form))
    else P in
  (P',
   {| companyName := companyName form; companyEmail := companyEmail form;
      phoneNumbers := phoneNumbers form; addresses := addresses form;
      companyDescription := companyDescription form; isLocked := true |}).

(** The browser after [localStorage.removeItem(key)]. *)
Definition removeItem (P : Platform) (key : string) : Platform := {|
  hasWindow := hasWindow P;
  numberToString := numberToString P;
  stringToNumber := stringToNumber P;
  dateToString := dateToString P;
  newDate := newDate P;
  now := now P;
  toLocaleDateString := toLocaleDateString P;
  jsonParse := jsonParse P;
  localStorage_getItem := fun k =>
    if String.eqb k key then Ok None else localStorage_getItem P k;
  fetch := fetch P;
  readAsDataURL := readAsDataURL P;
  loadImage := loadImage P;
  importFirestore := importFirestore P;
  getDoc := getDoc P;
  pageWidth := pageWidth P;
  pageHeight := pageHeight P;
  splitTextToSize := splitTextToSize P;
  addImageAccepts := addImageAccepts P;
  lastAutoTable_finalY := lastAutoTable_finalY P;
  numberOfPages := numberOfPages P;
|}.

(** [handleReset]: the browser and the form after it; [removed] says
    whether [removeItem] succeeds (else it throws, which is ignored). *)
Definition handleReset (removed : bool) (P : Platform) : Platform * Form :=
  ((if hasWindow P && removed then removeItem P "companyProfile" else P), initialForm).

End Settings.

(* ================================================================== *)
(** ** The invoices page (src/app/invoices/page.tsx)

    The list the page keeps in its state and hands, invoice by invoice, to
    the generator. *)

Module InvoicesPage.

Inductive Status : Type := Paid | Pending | Overdue.

Inductive StatusFilter : Type := All | Only (status : Status).

Definition status_eqb (a b : Status) : bool :=
  match a, b with
  | Paid, Paid | Pending, Pending | Overdue, Overdue => true
  | _, _ => false
  end.

(** An invoice of the list: the fields the page's list operations read or
    write, and the record with all the others. *)
Record Invoice := {
  id : string;
  clientCIN : string;
  status : Status;
  totalAmount : float;
  updatedAt : float;
  others : JsVal;
}.

(** [s.includes(search)] *)
Fixpoint includes (s search : string) : bool :=
  String.prefix search s
  || match s with
     | EmptyString => false
     | String _ r => includes r search
     end.

Definition statusMatches (statusFilter : StatusFilter) (inv : Invoice) : bool :=
  match statusFilter with
  | All => true
  | Only s => status_eqb (status inv) s
  end.

(** [filteredInvoices] *)
Definition filteredInvoices (statusFilter : StatusFilter) (cinSearch : string)
    (invoices : list Invoice) : list Invoice :=
  List.filter
    (fun inv =>
       includes (JsString.toLowerCase (clientCIN inv)) (JsString.toLowerCase cinSearch)
       || JsString.isEmpty cinSearch)
    (List.filter (statusMatches statusFilter) invoices).

(** [totalInvoices], [paidInvoices] and [totalRevenue] *)
Definition totalInvoices (invoices : list Invoice) : nat := length invoices.

Definition paidInvoices (invoices : list Invoice) : nat :=
  length (List.filter (fun i => status_eqb (status i) Paid) invoices).

Definition totalRevenue (invoices : list Invoice) : float :=
  foldl (fun sum i => (sum + totalAmount i)%float) 0%float
    (List.filter (fun i => status_eqb (status i) Paid) invoices).

(** The list after [handleUpdateStatus(invoiceId, newStatus)] at the time
    [time]; [updated] says whether the catalog update succeeds (else the
    page alerts and keeps its list). *)
Definition handleUpdateStatus (updated : bool) (time : float) (invoiceId : string)
    (newStatus : Status) (invoices : list Invoice) : list Invoice :=
  if updated then
    map (fun inv =>
           if String.eqb (id inv) invoiceId
           then {| id := id inv; clientCIN := clientCIN inv; status := newStatus;
                   totalAmount := totalAmount inv; updatedAt := time;
                   others := others inv |}
           else inv) invoices
  else invoices.

(** The list after [confirmDeleteInvoice] for the invoice of the dialog;
    [deleted] says whether the catalog deletion succeeds. *)
Definition confirmDeleteInvoice (deleted : bool) (invoiceId : string)
    (invoices : list Invoice) : list Invoice :=
  if deleted then List.filter (fun inv => negb (String.eqb (id inv) invoiceId)) invoices
  else invoices.


(** The condition under which the page shows "Showing n of m invoices". *)
Definition showsCount (statusFilter : StatusFilter) (cinSearch : string) : bool :=
  match statusFilter with
  | All => Nat.ltb 0 (String.length (JsString.trim cinSearch))
  | Only _ => true
  end.

End InvoicesPage.

(* ================================================================== *)
(** ** A sample environment *)

Module Sample.

(** The value of an integral finite float. *)
Definition integerOf (x : float) : Z :=
  match Prim2SF x with
  | S754_finite s m e =>
      let v := if (0 <=? e)%Z then (Z.pos m * 2 ^ e)%Z else (Z.pos m / 2 ^ (- e))%Z in
      if s then (- v)%Z else v
  | _ => 0%Z
  end.

(** [Number::toString] on the integers the samples use. *)
Definition integerToString (x : float) : string :=
  if PrimFloat.is_nan x then "NaN"
  else if PrimFloat.is_infinity x then (if get_sign x then "-Infinity" else "Infinity")
  else
    let n := integerOf x in
    if (n <? 0)%Z then "-" ++ JsNumber.digits (- n) else JsNumber.digits n.

Definition digitOf (c : ascii) : option Z :=
  let n := nat_of_ascii c in
  if Nat.leb 48 n && Nat.leb n 57 then Some (Z.of_nat (n - 48)) else None.

Fixpoint parseDigits (acc : Z) (s : string) : option Z :=
  match s with
  | EmptyString => Some acc
  | String c r =>
      match digitOf c with
      | Some d => parseDigits (10 * acc + d) r
      | None => None
      end
  end.

(** [StringToNumber] on decimal integer literals. *)
Definition parseInteger (s : string) : float :=
  match parseDigits 0 (JsString.trim s) with
  | Some n => of_uint63 (Uint63.of_Z n)
  | None => nan
  end.

(** The calendar date (UTC) of a day count since 1970-01-01, as
    [month/day/year]. *)
Definition civilDate (days : Z) : string :=
  let z := (days + 719468)%Z in
  let era := (z / 146097)%Z in
  let doe := (z - era * 146097)%Z in
  let yoe := ((doe - doe / 1460 + doe / 36524 - doe / 146096) / 365)%Z in
  let doy := (doe - (365 * yoe + yoe / 4 - yoe / 100))%Z in
  let mp := ((5 * doy + 2) / 153)%Z in
  let d := (doy - (153 * mp + 2) / 5 + 1)%Z in
  let m := if (mp <? 10)%Z then (mp + 3)%Z else (mp - 9)%Z in
  let y := (yoe + era * 400 + (if (m <=? 2)%Z then 1 else 0))%Z in
  JsNumber.digits m ++ "/" ++ JsNumber.digits d ++ "/" ++ JsNumber.digits y.

Definition usDate (t : float) : string :=
  civilDate (integerOf t / 86400000).

Definition dateOfNumber (v : JsVal) : float :=
  match v with
  | VNum x => x
  | _ => nan
  end.

(** A catalog with one referenced product, one product without a
    reference, one missing record and one failing lookup. *)
Definition catalog (id : string) : DocOutcome :=
  if String.eqb id "P1" then DocFound (Some "REF-P1") "P1"
  else if String.eqb id "P2" then DocFound None "P2"
  else if String.eqb id "P3" then DocMissing
  else DocError.

(** A browser on 2 November 2026 whose logo request answers 404, with
    [stored] under the key ["companyProfile"] and [parse] for [JSON.parse]. *)
Definition withStorage (stored : Result (option string)) (parse : string -> Result JsVal)
    : Platform := {|
  hasWindow := true;
  numberToString := integerToString;
  stringToNumber := parseInteger;
  dateToString := usDate;
  newDate := dateOfNumber;
  now := 1793577600000;
  toLocaleDateString := usDate;
  jsonParse := parse;
  localStorage_getItem := fun key => if String.eqb key "companyProfile" then stored else Ok None;
  fetch := fun _ => Some {| response_ok := false; response_blob := None |};
  readAsDataURL := fun b => Some b;
  loadImage := fun _ => None;
  importFirestore := true;
  getDoc := catalog;
  pageWidth := 210.0015555555555;
  pageHeight := 297.0000833333333;
  splitTextToSize := fun _ text _ => [text];
  addImageAccepts := fun _ => true;
  lastAutoTable_finalY := fun startY rows => Some (startY + 10 * JsNumber.of_nat (S (length rows)))%float;
  numberOfPages := fun _ _ => 1%nat;
|}.

(** That browser with no stored company profile. *)
Definition platform : Platform := withStorage (Ok None) (fun _ => Throw SyntaxError).

(** Line items: one with an inline reference, one resolved by the
    catalog, one whose lookup fails, and one with no identifier at all. *)
Definition itemInline : JsVal :=
  VObj [("id", VStr "i1"); ("productId", VStr "P1"); ("reference", VStr " R1 ");
        ("description", VStr "Cable"); ("quantity", VNum 1); ("unitPrice", VNum 5);
        ("totalPrice", VNum 5)].

Definition itemCatalog : JsVal :=
  VObj [("id", VStr "i2"); ("productId", VStr "P1");
        ("description", VStr "Widget"); ("quantity", VNum 3); ("unitPrice", VNum 10)].

Definition itemUnknown : JsVal :=
  VObj [("id", VStr "P9"); ("description", VStr "Gadget");
        ("quantity", VNum 2); ("unitPrice", VNum 4); ("totalPrice", VNum 8)].

Definition itemBare : JsVal :=
  VObj [("description", VStr "Service"); ("quantity", VNum 1); ("unitPrice", VNum 7)].

Definition items : list JsVal := [itemInline; itemCatalog; itemUnknown; itemBare].


(** A legacy call: a client, and an order whose one item has quantity 3,
    unit price 10 and no total price. *)
Definition client : JsVal :=
  VObj [("id", VStr "c1"); ("cin", VStr "01234567"); ("name", VStr "Bob");
        ("email", VStr "bob@example.com"); ("phone", VStr "555"); ("location", VStr "Tunis")].

Definition order : JsVal :=
  VObj [("id", VStr "o1"); ("orderNumber", VStr "ORD-7"); ("createdAt", VDate 0);
        ("items", VArr [itemCatalog]);
        ("subtotal", VNum 30); ("taxRate", VNum 0); ("taxAmount", VNum 0);
        ("totalAmount", VNum 30)].

(** A unified record with the same item, and an options object. *)
Definition invoice : JsVal :=
  VObj [("invoiceNumber", VStr "INV/2024#07");
        ("clientCIN", VStr "01234567");
        ("client", VObj [("name", VStr "Bob"); ("email", VStr "bob@example.com");
                         ("phone", VStr "555"); ("location", VStr "Tunis")]);
        ("items", VArr [itemCatalog]);
        ("subtotal", VNum 30); ("taxAmount", VNum 0); ("totalAmount", VNum 30)].

Definition options : JsVal := VObj [("logoUrl", VStr "/logo.png")].


(** Stored company profiles: [{"name":" Acme "}], [{"name":"  "}], the
    literal [null], and text that is not JSON. *)
Definition quote : string := String (ascii_of_nat 34) EmptyString.




(** A company given in the options, with a blank phone number. *)
Definition company : JsVal :=
  VObj [("name", VStr " Acme "); ("phoneNumbers", VArr [VStr "1"; VStr " "; VStr "2"])].

Definition brandedOptions : JsVal := VObj [("company", company)].


(** The words of a text, and the browser above with a page so narrow
    that text of size 9.5 and more takes a line per word, on which a
    document has one page more than its table has rows. *)
Fixpoint wordsFrom (word : string) (s : string) : list string :=
  match s with
  | EmptyString => [word]
  | String c r =>
      if Ascii.eqb c " " then word :: wordsFrom EmptyString r
      else wordsFrom (word ++ String c EmptyString) r
  end.

Definition narrow : Platform := {|
  hasWindow := hasWindow platform;
  numberToString := numberToString platform;
  stringToNumber := stringToNumber platform;
  dateToString := dateToString platform;
  newDate := newDate platform;
  now := now platform;
  toLocaleDateString := toLocaleDateString platform;
  jsonParse := jsonParse platform;
  localStorage_getItem := localStorage_getItem platform;
  fetch := fetch platform;
  readAsDataURL := readAsDataURL platform;
  loadImage := loadImage platform;
  importFirestore := importFirestore platform;
  getDoc := getDoc platform;
  pageWidth := pageWidth platform;
  pageHeight := pageHeight platform;
  splitTextToSize := fun font text _ =>
    if (9.5 <=? font_size font)%float then wordsFrom EmptyString text else [text];
  addImageAccepts := addImageAccepts platform;
  lastAutoTable_finalY := lastAutoTable_finalY platform;
  numberOfPages := fun _ rows => S (length rows);
|}.

Definition longCompany : JsVal :=
  VObj [("name", VStr "Acme Tools Of Tunis");
        ("addresses", VArr [VStr "1 Main Street"; VStr "Sfax"])].

(** An invoice with a status and a client name of two words each. *)
Definition statusInvoice : JsVal :=
  VObj [("invoiceNumber", VStr "INV-8"); ("issueDate", VDate 0);
        ("status", VStr "partially paid");
        ("client", VObj [("name", VStr "Bob Smith")]);
        ("items", VArr [itemCatalog]);
        ("subtotal", VStr "30"); ("taxAmount", VNull); ("totalAmount", VStr "30")].


(** An invoice whose number is the number 7, and one with a missing item. *)
Definition numberedInvoice : JsVal :=
  VObj [("invoiceNumber", VNum 7); ("items", VArr [itemCatalog])].

Definition holedInvoice : JsVal :=
  VObj [("invoiceNumber", VStr "INV-9"); ("items", VArr [itemCatalog; VNull])].


(** A legacy order whose items carry an inline reference, a product
    without a catalog reference, and no identifier at all. *)
Definition legacyOrder : JsVal :=
  VObj [("orderNumber", VStr "ORD-8"); ("createdAt", VDate 0);
        ("dueDate", VDate 86400000); ("status", VStr "paid");
        ("items", VArr [itemInline;
                        VObj [("productId", VStr "P2"); ("description", VStr "Bolt");
                              ("quantity", VStr "2"); ("unitPrice", VNum 4);
                              ("totalPrice", VNum 8)];
                        itemBare]);
        ("totalAmount", VNum 20)].


(** [JSON.stringify] on the values the settings page saves (strings
    without characters to escape, booleans, arrays and objects), a form,
    and a browser whose [JSON.parse] reads the profile of that form. *)
Fixpoint toJson (v : JsVal) : string :=
  match v with
  | VStr s => quote ++ s ++ quote
  | VBool true => "true"
  | VBool false => "false"
  | VNum x => integerToString x
  | VArr l => "[" ++ JsString.join "," (map toJson l) ++ "]"
  | VObj fields =>
      "{" ++ JsString.join ","
               (map (fun '(k, x) => quote ++ k ++ quote ++ ":" ++ toJson x) fields)
      ++ "}"
  | VUndef | VNull | VDate _ => "null"
  end.

Definition form : Settings.Form :=
  {| Settings.companyName := " Acme ";
     Settings.companyEmail := "";
     Settings.phoneNumbers := [" 71000000 "; "  "];
     Settings.addresses := [""];
     Settings.companyDescription := "Tools";
     Settings.isLocked := false |}.

Definition parseSaved (raw : string) : Result JsVal :=
  if String.eqb raw (toJson (Settings.profileOf form)) then Ok (Settings.profileOf form)
  else Throw SyntaxError.

Definition jsonBrowser : Platform := withStorage (Ok None) parseSaved.


(** A form whose phone numbers were typed into the page, and one whose
    phone number was loaded with blanks around it. *)
Definition typedForm : Settings.Form :=
  {| Settings.companyName := "Acme";
     Settings.companyEmail := "";
     Settings.phoneNumbers := [Settings.digitsOnly "+216 71 000 000"; ""];
     Settings.addresses := [""];
     Settings.companyDescription := "";
     Settings.isLocked := false |}.

Definition paddedForm : Settings.Form :=
  {| Settings.companyName := "Acme";
     Settings.companyEmail := "";
     Settings.phoneNumbers := ["  1234  "];
     Settings.addresses := [""];
     Settings.companyDescription := "";
     Settings.isLocked := false |}.


(** The first browser with a logo of 300 by 100 pixels behind every URL. *)
Definition withLogo : Platform := {|
  hasWindow := hasWindow platform;
  numberToString := numberToString platform;
  stringToNumber := stringToNumber platform;
  dateToString := dateToString platform;
  newDate := newDate platform;
  now := now platform;
  toLocaleDateString := toLocaleDateString platform;
  jsonParse := jsonParse platform;
  localStorage_getItem := localStorage_getItem platform;
  fetch := fun url => Some {| response_ok := true; response_blob := Some ("data:" ++ url) |};
  readAsDataURL := readAsDataURL platform;
  loadImage := fun _ =>
    Some {| naturalWidth := 300; width := 0; naturalHeight := 100; height := 0 |};
  importFirestore := importFirestore platform;
  getDoc := getDoc platform;
  pageWidth := pageWidth platform;
  pageHeight := pageHeight platform;
  splitTextToSize := splitTextToSize platform;
  addImageAccepts := addImageAccepts platform;
  lastAutoTable_finalY := lastAutoTable_finalY platform;
  numberOfPages := numberOfPages platform;
|}.


(** Three invoices of the invoices page. *)
Definition pageInvoice (id cin : string) (status : InvoicesPage.Status) : InvoicesPage.Invoice :=
  {| InvoicesPage.id := id; InvoicesPage.clientCIN := cin; InvoicesPage.status := status;
     InvoicesPage.totalAmount := 30; InvoicesPage.updatedAt := 0;
     InvoicesPage.others := invoice |}.

Definition pageInvoices : list InvoicesPage.Invoice :=
  [pageInvoice "a" "AB123456" InvoicesPage.Paid;
   pageInvoice "b" "07654321" InvoicesPage.Pending;
   pageInvoice "c" "ab999999" InvoicesPage.Overdue].


(** The sample invoice with notes, a tax rate and an order id. *)
Definition annotatedInvoice : JsVal :=
  VObj [("notes", VStr "Pay within 30 days"); ("taxRate", VNum 19);
        ("orderId", VStr "o1");
        ("invoiceNumber", VStr "INV/2024#07");
        ("clientCIN", VStr "01234567");
        ("client", VObj [("name", VStr "Bob"); ("email", VStr "bob@example.com");
                         ("phone", VStr "555"); ("location", VStr "Tunis")]);
        ("items", VArr [itemCatalog]);
        ("subtotal", VNum 30); ("taxAmount", VNum 0); ("totalAmount", VNum 30)].


(** The first browser when the catalog module cannot be loaded, and a line
    item whose product identifier names a member of [Object.prototype]. *)
Definition offline : Platform := {|
  hasWindow := hasWindow platform;
  numberToString := numberToString platform;
  stringToNumber := stringToNumber platform;
  dateToString := dateToString platform;
  newDate := newDate platform;
  now := now platform;
  toLocaleDateString := toLocaleDateString platform;
  jsonParse := jsonParse platform;
  localStorage_getItem := localStorage_getItem platform;
  fetch := fetch platform;
  readAsDataURL := readAsDataURL platform;
  loadImage := loadImage platform;
  importFirestore := false;
  getDoc := getDoc platform;
  pageWidth := pageWidth platform;
  pageHeight := pageHeight platform;
  splitTextToSize := splitTextToSize platform;
  addImageAccepts := addImageAccepts platform;
  lastAutoTable_finalY := lastAutoTable_finalY platform;
  numberOfPages := numberOfPages platform;
|}.

Definition itemConstructor : JsVal :=
  VObj [("id", VStr "i5"); ("productId", VStr "constructor");
        ("description", VStr "Kit"); ("quantity", VNum 1); ("unitPrice", VNum 2);
        ("totalPrice", VNum 2)].

Definition offlineOrder : JsVal :=
  VObj [("orderNumber", VStr "ORD-9"); ("items", VArr [itemConstructor; itemCatalog])].


End Sample.

(* ================================================================== *)
(** * Properties *)

(** ** The error monad and its list traversals *)

Lemma bind_Ok {A B} (a : A) (f : A -> Result B) : (Ok a ≫= f) = f a.
Proof. reflexivity. Qed.

Lemma getProp_object (v : JsVal) (p : string) :
  isNullish v = false -> getProp v p = Ok (prop v p).
Proof. intros H. unfold getProp. by rewrite H. Qed.

Lemma nullish_absent (a b : JsVal) : isNullish a = true -> nullish a b = b.
Proof. intros H. unfold nullish. by rewrite H. Qed.

Lemma mapR_pure {A B} (f : A -> Result B) (g : A -> B) (l : list A) :
  Forall (fun x => f x = Ok (g x)) l -> mapR f l = Ok (map g l).
Proof.
  induction 1 as [|x l Hx _ IH]; [reflexivity|].
  cbn [mapR map]. by rewrite Hx, bind_Ok, IH, bind_Ok.
Qed.

Lemma filterR_pure {A} (f : A -> Result bool) (g : A -> bool) (l : list A) :
  Forall (fun x => f x = Ok (g x)) l -> filterR f l = Ok (List.filter g l).
Proof.
  induction 1 as [|x l Hx _ IH]; [reflexivity|].
  cbn [filterR List.filter]. rewrite Hx, bind_Ok, IH, bind_Ok. by destruct (g x).
Qed.

(** ** De-duplication and the reference table *)

Lemma elem_of_uniqueFrom (seen l : list string) (x : string) :
  x ∈ uniqueFrom seen l <-> x ∈ l ∧ x ∉ seen.
Proof.
  revert seen. induction l as [|y l IH]; intros seen; cbn [uniqueFrom].
  - split; [intros H; inversion H | intros [H _]; inversion H].
  - case_bool_decide as Hy.
    + rewrite IH, elem_of_cons. split; [tauto|].
      intros [[->|H] Hn]; [contradiction | tauto].
    + rewrite !elem_of_cons, IH, elem_of_cons. split.
      * intros [->|[H Hn]]; [tauto|]. split; [tauto|]. intros Hs. apply Hn. by right.
      * intros [[->|H] Hn]; [by left|].
        destruct (decide (x = y)) as [->|Hne]; [by left|]. right. split; [done|].
        intros [?|?]; contradiction.
Qed.

Lemma NoDup_uniqueFrom (seen l : list string) : NoDup (uniqueFrom seen l).
Proof.
  revert seen. induction l as [|y l IH]; intros seen; cbn [uniqueFrom].
  - constructor.
  - case_bool_decide as Hy; [apply IH|].
    constructor; [|apply IH].
    rewrite elem_of_uniqueFrom, elem_of_cons. intros [_ Hn]. apply Hn. by left.
Qed.

Lemma elem_of_unique (l : list string) (x : string) : x ∈ unique l <-> x ∈ l.
Proof.
  unfold unique. rewrite elem_of_uniqueFrom. split; [tauto|].
  intros H. split; [done|]. intros Hn. inversion Hn.
Qed.

Lemma elem_of_filter_nonEmpty (l : list string) (x : string) :
  x ∈ List.filter nonEmpty l <-> x ∈ l ∧ nonEmpty x = true.
Proof. rewrite !list_elem_of_In. apply filter_In. Qed.

Lemma foldl_insert_lookup (f : string -> string) (l : list string)
    (m : gmap string string) (k : string) :
  foldl (fun m kv => <[kv.1 := kv.2]> m) m (map (fun id => (id, f id)) l) !! k
  = if bool_decide (k ∈ l) then Some (f k) else m !! k.
Proof.
  revert m. induction l as [|y l IH]; intros m; cbn [map foldl].
  - case_bool_decide as H; [inversion H | reflexivity].
  - rewrite IH. cbn [fst snd].
    case_bool_decide as Hl; case_bool_decide as Hyl; try reflexivity.
    + exfalso. apply Hyl. by right.
    + apply elem_of_cons in Hyl as [->|?]; [|contradiction].
      apply lookup_insert_eq.
    + apply lookup_insert_ne. intros ->. apply Hyl. by left.
Qed.

Lemma lookupEntry_catalog (P : Platform) (id : string) :
  lookupEntry P id = (id, catalogReference P id).
Proof.
  unfold lookupEntry, catalogReference.
  destruct (getDoc P id) as [| |[r|] sid]; reflexivity.
Qed.

(** The table the resolver returns holds, for exactly the ids it looked
    up, the catalog's display reference. *)
Lemma references_lookup (P : Platform) (productIds : list string) (k : string) :
  references (loadProductReferenceMap P productIds) !! k
  = if bool_decide (k ∈ lookups (loadProductReferenceMap P productIds))
    then Some (catalogReference P k) else None.
Proof.
  unfold loadProductReferenceMap.
  destruct (hasWindow P); cbn [negb].
  2: { cbn. case_bool_decide as H; [inversion H | apply lookup_empty]. }
  destruct (unique (List.filter nonEmpty productIds)) as [|u us] eqn:Hu.
  { cbn. case_bool_decide as H; [inversion H | apply lookup_empty]. }
  destruct (importFirestore P); cbn [negb].
  2: { cbn. case_bool_decide as H; [inversion H | apply lookup_empty]. }
  cbn [references lookups]. unfold fromEntries.
  rewrite (map_ext _ (fun id => (id, catalogReference P id)))
    by (intros; apply lookupEntry_catalog).
  rewrite foldl_insert_lookup. case_bool_decide; [reflexivity | apply lookup_empty].
Qed.

Lemma lookups_requested (P : Platform) (productIds : list string) (id : string) :
  id ∈ lookups (loadProductReferenceMap P productIds) ->
  id ∈ productIds ∧ nonEmpty id = true.
Proof.
  unfold loadProductReferenceMap.
  destruct (hasWindow P); cbn [negb]; [|intros H; inversion H].
  destruct (unique (List.filter nonEmpty productIds)) as [|u us] eqn:Hu;
    [intros H; inversion H|].
  destruct (importFirestore P); cbn [negb lookups]; [|intros H; inversion H].
  rewrite <- Hu, elem_of_unique, elem_of_filter_nonEmpty. tauto.
Qed.

Lemma lookups_issued (P : Platform) (productIds : list string) (id : string) :
  hasWindow P = true -> importFirestore P = true ->
  id ∈ productIds -> nonEmpty id = true ->
  id ∈ lookups (loadProductReferenceMap P productIds).
Proof.
  intros Hw Hi Hin Hne. unfold loadProductReferenceMap. rewrite Hw, Hi. cbn [negb].
  assert (Hu : id ∈ unique (List.filter nonEmpty productIds))
    by (rewrite elem_of_unique, elem_of_filter_nonEmpty; tauto).
  destruct (unique (List.filter nonEmpty productIds)); [inversion Hu | exact Hu].
Qed.

Lemma lookups_NoDup (P : Platform) (productIds : list string) :
  NoDup (lookups (loadProductReferenceMap P productIds)).
Proof.
  unfold loadProductReferenceMap.
  destruct (hasWindow P); cbn [negb]; [|constructor].
  destruct (unique (List.filter nonEmpty productIds)) as [|u us] eqn:Hu; [constructor|].
  destruct (importFirestore P); cbn [negb lookups]; [|constructor].
  rewrite <- Hu. apply NoDup_uniqueFrom.
Qed.

(** C7 -- The reference resolver: with no non-empty id it issues no lookup
    and returns the empty table; it looks every requested id up once, and
    no other id; every looked-up id has an entry, which is the id itself
    when the record is missing or the lookup fails; and the resolution as a
    whole always returns a table. *)
Theorem C7_reference_resolver (P : Platform) (productIds : list string) :
  let r := loadProductReferenceMap P productIds in
  (List.filter nonEmpty productIds = [] -> lookups r = [] ∧ references r = ∅)
  ∧ NoDup (lookups r)
  ∧ (∀ id, id ∈ lookups r -> id ∈ productIds ∧ nonEmpty id = true)
  ∧ (hasWindow P = true -> importFirestore P = true ->
     ∀ id, id ∈ productIds -> nonEmpty id = true -> id ∈ lookups r)
  ∧ (∀ id, id ∈ lookups r -> references r !! id = Some (catalogReference P id))
  ∧ (∀ id, id ∈ lookups r ->
       getDoc P id = DocMissing ∨ getDoc P id = DocError ->
       references r !! id = Some id)
  ∧ (∀ id, id ∉ lookups r -> references r !! id = None).
Proof.
  intros r. subst r.
  split; [|split; [|split; [|split; [|split; [|split]]]]].
  - intros Hnone. unfold loadProductReferenceMap. rewrite Hnone.
    by destruct (hasWindow P).
  - apply lookups_NoDup.
  - intros id. apply lookups_requested.
  - intros Hw Hi id Hin Hne. by apply lookups_issued.
  - intros id Hin. rewrite references_lookup. by rewrite bool_decide_eq_true_2.
  - intros id Hin Hdoc. rewrite references_lookup, bool_decide_eq_true_2 by done.
    unfold catalogReference. by destruct Hdoc as [-> | ->].
  - intros id Hin. rewrite references_lookup. by rewrite bool_decide_eq_false_2.
Qed.

(** C7, on the sample catalog: of the ids [P3, P1, "", P3, P9] the resolver
    looks up P3, P1 and P9 once each; the missing P3 and the failing P9
    map to themselves. *)
Lemma C7_reference_resolver_sample :
  lookups (loadProductReferenceMap Sample.platform ["P3"; "P1"; ""; "P3"; "P9"])
  = ["P3"; "P1"; "P9"]
  ∧ references (loadProductReferenceMap Sample.platform ["P3"; "P1"; ""; "P3"; "P9"]) !! "P3"
    = Some "P3"
  ∧ references (loadProductReferenceMap Sample.platform ["P3"; "P1"; ""; "P3"; "P9"]) !! "P9"
    = Some "P9"
  ∧ (lookups (loadProductReferenceMap Sample.platform [""; ""]) = []
     ∧ references (loadProductReferenceMap Sample.platform [""; ""]) = ∅).
Proof.
  pose proof (C7_reference_resolver Sample.platform ["P3"; "P1"; ""; "P3"; "P9"])
    as (_ & _ & _ & _ & _ & Hself & _).
  pose proof (C7_reference_resolver Sample.platform [""; ""]) as (Hempty & _).
  split; [reflexivity|].
  split; [apply Hself; [vm_compute; by left | left; reflexivity]|].
  split; [apply Hself; [vm_compute; right; right; by left | right; reflexivity]|].
  apply Hempty. reflexivity.
Defined.

(** ** The rows of the items table *)

Section Rows.

Context (P : Platform).

Lemma inlineReference_object (item : JsVal) :
  isNullish item = false -> inlineReference P item = Ok (inlineRefOf P item).
Proof. intros H. unfold inlineReference. by rewrite (getProp_object _ _ H). Qed.

Lemma productIdOf_object (item : JsVal) :
  isNullish item = false -> productIdOf P item = Ok (productIdentifier P item).
Proof. intros H. unfold productIdOf. by rewrite !(getProp_object _ _ H). Qed.

Lemma tableRow_object (refs : gmap string string) (item : JsVal) :
  isNullish item = false -> tableRow P refs item = Ok (rowCells P refs item).
Proof.
  intros H. unfold tableRow.
  rewrite (inlineReference_object _ H), bind_Ok, (productIdOf_object _ H), bind_Ok.
  by rewrite !(getProp_object _ _ H).
Qed.

Lemma unresolvedProductIds_objects (items : list JsVal) :
  Forall (fun item => isNullish item = false) items ->
  unresolvedProductIds P items = Ok (unresolvedOf P items).
Proof.
  intros Hobj. unfold unresolvedProductIds, unresolvedOf.
  rewrite (filterR_pure _ (fun item => JsString.isEmpty (inlineRefOf P item))).
  2: { eapply Forall_impl; [exact Hobj|]. intros item H. cbn beta.
       by rewrite (inlineReference_object _ H). }
  rewrite bind_Ok, (mapR_pure _ (productIdentifier P)); [reflexivity|].
  apply Forall_forall. intros item Hin. apply productIdOf_object.
  apply list_elem_of_In, filter_In in Hin as [Hin _].
  apply list_elem_of_In in Hin.
  by apply (proj1 (Forall_forall _ _) Hobj).
Qed.

Lemma tableBody_objects (items : list JsVal) :
  Forall (fun item => isNullish item = false) items ->
  tableBody P items
  = Ok (lookups (loadProductReferenceMap P (unresolvedOf P items)),
        map (rowCells P (references (loadProductReferenceMap P (unresolvedOf P items)))) items).
Proof.
  intros Hobj. unfold tableBody.
  rewrite (unresolvedProductIds_objects _ Hobj), bind_Ok.
  rewrite (mapR_pure _ (rowCells P (references (loadProductReferenceMap P (unresolvedOf P items))))).
  - reflexivity.
  - eapply Forall_impl; [exact Hobj|]. intros item H. by apply tableRow_object.
Qed.

Lemma elem_of_unresolvedOf (items : list JsVal) (id : string) :
  id ∈ unresolvedOf P items <->
  nonEmpty id = true
  ∧ ∃ item, item ∈ items ∧ inlineRefOf P item = "" ∧ productIdentifier P item = id.
Proof.
  unfold unresolvedOf. rewrite elem_of_filter_nonEmpty, list_elem_of_fmap.
  split.
  - intros [(item & -> & Hin) Hne]. split; [done|]. exists item.
    apply list_elem_of_In, filter_In in Hin as [Hin He].
    split; [by apply list_elem_of_In|]. split; [|done].
    by destruct (inlineRefOf P item).
  - intros (Hne & item & Hin & Hinline & <-). split; [|done].
    exists item. split; [done|]. apply list_elem_of_In, filter_In.
    split; [by apply list_elem_of_In|]. by rewrite Hinline.
Qed.

(** The reference cell follows the precedence of the specification,
    but for the members the reference table inherits. *)
Lemma referenceCell_spec (refs : gmap string string) (inlineRef productId : string) :
  refs !! "" = None ->
  referenceCell refs inlineRef productId
  = printedCell inlineRef (refs !! productId) productId.
Proof.
  intros Hempty. unfold referenceCell, printedCell, spec_reference, readTable.
  destruct inlineRef as [|a r]; cbn [nonEmpty JsString.isEmpty negb andb].
  2: { by destruct (refs !! productId). }
  destruct productId as [|c p]; cbn [nonEmpty JsString.isEmpty negb].
  - by rewrite Hempty.
  - destruct (refs !! String c p) as [r|]; [by destruct (nonEmpty r)|].
    by destruct (inheritedKey (String c p)).
Qed.

End Rows.

(** The table body of a list of items that are objects: one row per item,
    with its reference cell, and the lookups issued. *)
Lemma tableBody_references (P : Platform) (items : list JsVal) :
  Forall (fun item => isNullish item = false) items ->
  ∃ looked rows,
    tableBody P items = Ok (looked, rows)
    ∧ length rows = length items
    ∧ (∀ i item row, items !! i = Some item -> rows !! i = Some row ->
         printedReference row
         = printedCell (inlineRefOf P item)
             (if bool_decide (productIdentifier P item ∈ looked)
              then Some (catalogReference P (productIdentifier P item)) else None)
             (productIdentifier P item))
    ∧ (∀ id, id ∈ looked ->
         ∃ item, item ∈ items ∧ inlineRefOf P item = "" ∧ productIdentifier P item = id)
    ∧ (hasWindow P = true -> importFirestore P = true ->
       ∀ item, item ∈ items ->
         inlineRefOf P item = "" -> productIdentifier P item ≠ "" ->
         productIdentifier P item ∈ looked).
Proof.
  intros Hobj.
  eexists _, _. split; [apply (tableBody_objects P items Hobj)|].
  split; [by rewrite length_map|].
  split; [|split].
  - intros i item row Hitem Hrow.
    rewrite list_lookup_fmap, Hitem in Hrow. injection Hrow as <-.
    unfold printedReference, rowCells. cbn [nth].
    rewrite referenceCell_spec, references_lookup; [reflexivity|].
    rewrite references_lookup, bool_decide_eq_false_2; [reflexivity|].
    intros Hin. by apply lookups_requested in Hin as [_ Hne].
  - intros id Hin. apply lookups_requested in Hin as [Hin _].
    by apply elem_of_unresolvedOf in Hin as [_ Hitem].
  - intros Hw Hi item Hin Hinline Hpid.
    apply lookups_issued; [done | done | |].
    + apply elem_of_unresolvedOf. split; [by destruct (productIdentifier P item)|].
      by exists item.
    + by destruct (productIdentifier P item).
Qed.

(** ** Line totals *)

Lemma formatMoneyDt_zero (P : Platform) : formatMoneyDt P 0 = "0.00 Dt".
Proof. reflexivity. Qed.

Lemma formatMoneyDt_thirty (P : Platform) : formatMoneyDt P (3 * 10) = "30.00 Dt".
Proof. reflexivity. Qed.

(** On the unified record, an item without a total price prints
    quantity times unit price. *)
Lemma line_total_derived (P : Platform) (refs : gmap string string) (item : JsVal) :
  isNullish item = false ->
  isNullish (prop item "totalPrice") = true ->
  ∃ row, tableRow P refs item = Ok row
         ∧ printedTotal row
           = formatMoneyDt P (ToNumber P (nullish (prop item "quantity") (VNum 0))
                              * ToNumber P (nullish (prop item "unitPrice") (VNum 0))).
Proof.
  intros Hobj Habsent. eexists. split; [by apply tableRow_object|].
  unfold printedTotal, rowCells. cbn [nth].
  by rewrite (nullish_absent (prop item "totalPrice")).
Qed.

(** C2 -- On the legacy entry the derivation is lost: the normalization
    stores the total price [Number(item.totalPrice ?? 0)], so an item
    without a total price reaches the table with the total 0 and prints
    "0.00 Dt", whatever its quantity and unit price. *)
Theorem C2_legacy_line_total_is_zero (P : Platform) (refs : gmap string string)
    (item normalized : JsVal) :
  normalizeItem P item = Ok normalized ->
  isNullish (prop item "totalPrice") = true ->
  ∃ row, tableRow P refs normalized = Ok row ∧ printedTotal row = "0.00 Dt".
Proof.
  intros Hnorm Habsent. unfold normalizeItem in Hnorm.
  destruct (isNullish item) eqn:Hobj.
  - unfold getProp in Hnorm. rewrite Hobj in Hnorm. discriminate Hnorm.
  - rewrite !(getProp_object _ _ Hobj), !bind_Ok in Hnorm.
    injection Hnorm as <-.
    eexists. split; [by apply tableRow_object|].
    unfold printedTotal, rowCells. cbn [nth].
    rewrite (nullish_absent (prop item "totalPrice")) by done. reflexivity.
Qed.

(** C2, at quantity 3 and unit price 10: the legacy call prints the line
    total "0.00 Dt" where the unified record prints "30.00 Dt". *)
Lemma C2_legacy_line_total_sample :
  (∃ row, tableRow Sample.platform ∅
            (VObj [("id", VStr "i2"); ("productId", VStr "P1"); ("description", VStr "Widget");
                   ("quantity", VNum 3); ("unitPrice", VNum 10); ("totalPrice", VNum 0)])
          = Ok row
          ∧ printedTotal row = "0.00 Dt")
  ∧ (∃ doc, generateInvoicePDF Sample.platform Sample.client Sample.order VUndef
            = Ok (Some doc)
            ∧ tableRowsOf doc = [textRow ["REF-P1"; "Widget"; "3"; "10.00 Dt"; "0.00 Dt"]])
  ∧ (∃ doc, generateInvoicePDF Sample.platform Sample.invoice VUndef VUndef
            = Ok (Some doc)
            ∧ tableRowsOf doc = [textRow ["REF-P1"; "Widget"; "3"; "10.00 Dt"; "30.00 Dt"]]).
Proof.
  split; [|split; (eexists; split; [vm_compute; reflexivity | reflexivity])].
  apply (C2_legacy_line_total_is_zero Sample.platform ∅ Sample.itemCatalog);
    reflexivity.
Defined.

(** ** The two call shapes *)

Lemma isTruthyObject_spec (v : JsVal) :
  isTruthyObject v = true
  <-> (∃ t, v = VDate t) ∨ (∃ l, v = VArr l) ∨ (∃ fields, v = VObj fields).
Proof.
  split.
  - intros H. unfold isTruthyObject in H.
    destruct v; cbn in H; rewrite ?andb_false_r in H; try discriminate H; eauto.
  - intros [[t ->]|[[l ->]|[fields ->]]]; reflexivity.
Qed.

Lemma generateInvoicePDF_dispatch (P : Platform) (arg1 arg2 arg3 : JsVal) :
  generateInvoicePDF P arg1 arg2 arg3
  = if isTruthyObject arg2 then clientOrderCall P arg1 arg2 arg3
    else invoiceCall P arg1 arg2.
Proof.
  unfold generateInvoicePDF, clientOrderCall, invoiceCall.
  destruct (hasWindow P); cbn [negb]; [|by destruct (isTruthyObject arg2)].
  destruct (isTruthyObject arg2) eqn:Hobj; [reflexivity|].
  by rewrite bind_Ok.
Qed.


(** The legacy normalization does not carry an order item's [reference]:
    the normalized item has no inline reference. *)
Lemma normalizeItem_no_inline_reference (P : Platform) (item normalized : JsVal) :
  normalizeItem P item = Ok normalized -> inlineRefOf P normalized = "".
Proof.
  unfold normalizeItem, getProp. destruct (isNullish item); [discriminate|].
  rewrite !bind_Ok. by intros [= <-].
Qed.

(** C3 -- A legacy [(client, order)] call and the call with the unified
    record the normalization maps the pair to give the same result in the
    same environment: the same document, call for call, saved under the
    same name (or the same exception).  The options argument, when one is
    given, is not an object. *)
Theorem C3_legacy_call_equals_normalized_call (P : Platform)
    (client order invoice options arg3 : JsVal) :
  isTruthyObject order = true ->
  isTruthyObject options = false ->
  normalizeClientOrder P client order = Ok invoice ->
  generateInvoicePDF P client order options
  = generateInvoicePDF P invoice options arg3.
Proof.
  intros Horder Hoptions Hnorm.
  rewrite !generateInvoicePDF_dispatch, Horder, Hoptions.
  unfold clientOrderCall, invoiceCall. by rewrite Hnorm, bind_Ok.
Qed.

(** C3, on the sample client and order: the pair and the record it is
    normalized to produce the same document, saved as "ord-7.pdf". *)
Lemma C3_legacy_call_equals_normalized_call_sample :
  ∃ invoice doc,
    normalizeClientOrder Sample.platform Sample.client Sample.order = Ok invoice
    ∧ generateInvoicePDF Sample.platform Sample.client Sample.order VUndef = Ok (Some doc)
    ∧ generateInvoicePDF Sample.platform invoice VUndef VUndef = Ok (Some doc)
    ∧ savedAs doc = Some "ord-7.pdf".
Proof.
  eexists _, _. split; [vm_compute; reflexivity|].
  split; [vm_compute; reflexivity|].
  split; [|reflexivity].
  rewrite <- (C3_legacy_call_equals_normalized_call Sample.platform
                Sample.client Sample.order _ VUndef VUndef); [|reflexivity..].
  vm_compute. reflexivity.
Defined.

(** C10 -- The call shape is decided by the second argument alone: when
    it is a truthy object (an object, an array or a date; not [null]) the
    call is run as [generateInvoicePDF(client, order, options)], whatever
    the first argument is, and otherwise as
    [generateInvoicePDF(invoice, options)].  So a unified record passed
    with an options object is read as a client with an order. *)
Theorem C10_call_shape_by_second_argument (P : Platform) (arg1 arg2 arg3 : JsVal) :
  (isTruthyObject arg2 = true
   <-> (∃ t, arg2 = VDate t) ∨ (∃ l, arg2 = VArr l) ∨ (∃ fields, arg2 = VObj fields))
  ∧ generateInvoicePDF P arg1 arg2 arg3
    = (if isTruthyObject arg2 then clientOrderCall P arg1 arg2 arg3
       else invoiceCall P arg1 arg2)
  ∧ (∀ invoice options,
       generateInvoicePDF P (VObj invoice) (VObj options) arg3
       = clientOrderCall P (VObj invoice) (VObj options) arg3).
Proof.
  split; [apply isTruthyObject_spec|].
  split; [apply generateInvoicePDF_dispatch|].
  intros invoice options. by rewrite generateInvoicePDF_dispatch.
Qed.

(** C10, on the sample record and options: passed together they are run as
    a client and an order, so the document has no line item and is saved
    as "invoice.pdf"; the record alone is saved as "inv-2024-07.pdf" with
    its line item. *)
Lemma C10_call_shape_sample :
  (∃ doc, generateInvoicePDF Sample.platform Sample.invoice Sample.options VUndef
          = Ok (Some doc)
          ∧ clientOrderCall Sample.platform Sample.invoice Sample.options VUndef
            = Ok (Some doc)
          ∧ tableRowsOf doc = []
          ∧ savedAs doc = Some "invoice.pdf")
  ∧ (∃ doc, generateInvoicePDF Sample.platform Sample.invoice VUndef VUndef
            = Ok (Some doc)
            ∧ tableRowsOf doc = [textRow ["REF-P1"; "Widget"; "3"; "10.00 Dt"; "30.00 Dt"]]
            ∧ savedAs doc = Some "inv-2024-07.pdf").
Proof.
  split.
  - eexists. split; [|split; [|split]].
    + pose proof (C10_call_shape_by_second_argument Sample.platform
                    Sample.invoice Sample.options VUndef) as (_ & -> & _).
      vm_compute. reflexivity.
    + vm_compute. reflexivity.
    + reflexivity.
    + reflexivity.
  - eexists. split; [vm_compute; reflexivity|]. split; reflexivity.
Defined.

(** ** The name of the saved file *)

Lemma Ok_inj {A} (a b : A) : Ok a = Ok b -> a = b.
Proof. congruence. Qed.

Lemma bind_Ok_inv {A B} (m : Result A) (f : A -> Result B) (b : B) :
  (m ≫= f) = Ok b -> ∃ a, m = Ok a ∧ f a = Ok b.
Proof. destruct m as [a|e]; [eauto | discriminate]. Qed.

(** [inv_bind H as x Hx]: from [H : (x ← m; k x) = Ok b], the value [x]
    with [Hx : m = Ok x], leaving [H : k x = Ok b]. *)
Tactic Notation "inv_bind" hyp(H) "as" simple_intropattern(x) simple_intropattern(Hx) :=
  apply bind_Ok_inv in H as (x & Hx & H).

Lemma replaceUnsafeRuns_runs (s : string) :
  replaceUnsafeRuns false s
  = fold_right (fun r acc => (replacement r ++ acc)%string) EmptyString (runs s)
  ∧ replaceUnsafeRuns true s
    = fold_right (fun r acc => (replacement r ++ acc)%string) EmptyString
        (match runs s with
         | (false, _) :: rest => rest
         | rs => rs
         end).
Proof.
  induction s as [|c s [IHf IHt]]; [split; reflexivity|].
  cbn [replaceUnsafeRuns runs].
  destruct (isSafeChar c) eqn:Hc.
  - rewrite IHf.
    destruct (runs s) as [|[[] run] rest]; cbn; split; reflexivity.
  - rewrite IHt.
    destruct (runs s) as [|[[] run] rest]; cbn; split; reflexivity.
Qed.

(** The regular-expression replacement is the replacement of the maximal
    runs. *)
Lemma safeFile_spec (s : string) : safeFile s = spec_safeFile s.
Proof.
  unfold safeFile, spec_safeFile. f_equal. apply replaceUnsafeRuns_runs.
Qed.

Lemma lowerChar_safe (c : ascii) :
  isSafeChar c = true -> isFileChar (JsString.lowerChar c) = true.
Proof.
  destruct c as [[] [] [] [] [] [] [] []]; vm_compute; intros H;
    first [reflexivity | discriminate H].
Qed.

Lemma safeFile_chars (s : string) : allChars isFileChar (safeFile s) = true.
Proof.
  unfold safeFile. generalize false.
  induction s as [|c s IH]; intros inRun; [reflexivity|].
  cbn [replaceUnsafeRuns]. destruct (isSafeChar c) eqn:Hc.
  - cbn [JsString.toLowerCase allChars]. by rewrite lowerChar_safe, IH.
  - destruct inRun; [apply IH|].
    cbn [JsString.toLowerCase allChars]. by rewrite IH.
Qed.

Lemma fileName_spec (invoice : JsVal) (file : string) :
  fileName invoice = Ok file -> file = (safeFile (nameSource invoice) ++ ".pdf")%string.
Proof.
  unfold fileName, nameSource, nullish, orVal.
  destruct (prop invoice "invoiceNumber") as [| |[]|x|[|c s]|t|l|fields];
    cbn; try (intros H; by injection H as <-); try discriminate.
  destruct (JsNumber.truthy x); cbn; [discriminate | intros H; by injection H as <-].
Qed.

Lemma renderInvoice_saves (P : Platform) (options invoice : JsVal) (doc : Doc) :
  renderInvoice P options invoice = Ok doc ->
  ∃ file, fileName invoice = Ok file ∧ savedAs doc = Some file.
Proof.
  unfold renderInvoice. intros H.
  inv_bind H as header _.
  inv_bind H as _ _.
  inv_bind H as items _.
  inv_bind H as body _.
  cbv zeta in H.
  inv_bind H as file Hfile.
  injection H as <-. exists file. split; [exact Hfile|].
  unfold savedAs, emit. by rewrite last_snoc.
Qed.

(** C6 -- The saved file.  Whenever a document is produced it is saved
    last, under the name made from the invoice number (from "invoice" when
    the number is absent or empty) by replacing every maximal run of
    characters other than ASCII letters, digits, hyphen and underscore
    with one hyphen and lowercasing the result, followed by ".pdf"; the
    name before the extension holds only lowercase letters, digits,
    hyphens and underscores. *)
Theorem C6_saved_file_name (P : Platform) (options invoice : JsVal) (doc : Doc) :
  renderInvoice P options invoice = Ok doc ->
  savedAs doc = Some (spec_safeFile (nameSource invoice) ++ ".pdf")%string
  ∧ allChars isFileChar (spec_safeFile (nameSource invoice)) = true
  ∧ (isNullish (prop invoice "invoiceNumber") = true
     ∨ prop invoice "invoiceNumber" = VStr "" ->
     savedAs doc = Some "invoice.pdf").
Proof.
  intros Hdoc. apply renderInvoice_saves in Hdoc as (file & Hfile & ->).
  apply fileName_spec in Hfile as ->.
  rewrite <- safeFile_spec. split; [reflexivity|]. split; [apply safeFile_chars|].
  unfold nameSource. intros [Habsent| ->]; [|reflexivity].
  by destruct (prop invoice "invoiceNumber").
Qed.

(** C6, on the samples: "INV/2024#07" is saved as "inv-2024-07.pdf", and a
    record without an invoice number as "invoice.pdf". *)
Lemma C6_saved_file_name_sample :
  spec_safeFile "INV/2024#07" = "inv-2024-07"
  ∧ (∃ doc, renderInvoice Sample.platform VUndef Sample.invoice = Ok doc
            ∧ savedAs doc = Some "inv-2024-07.pdf")
  ∧ (∃ doc, renderInvoice Sample.platform VUndef (VObj [("totalAmount", VNum 0)]) = Ok doc
            ∧ savedAs doc = Some "invoice.pdf")
  ∧ (∃ doc, renderInvoice Sample.platform VUndef
              (VObj [("invoiceNumber", VStr ""); ("totalAmount", VNum 0)]) = Ok doc
            ∧ savedAs doc = Some "invoice.pdf").
Proof.
  split; [reflexivity|].
  split; [|split]; (eexists; split; [vm_compute; reflexivity|]).
  - refine (eq_trans (proj1 (C6_saved_file_name Sample.platform VUndef Sample.invoice _ _)) _);
      [vm_compute; reflexivity | reflexivity].
  - reflexivity.
  - reflexivity.
Defined.

(** ** The company profile *)

Section Company.

Context (P : Platform).

Lemma hasLength_trimmedEntries (l : list JsVal) :
  hasLength (Some (trimmedEntries P l)) = existsb (fun p => nonEmpty (trimmed P p)) l.
Proof.
  unfold trimmedEntries. induction l as [|v l IH]; [reflexivity|].
  cbn [map List.filter existsb]. destruct (nonEmpty (trimmed P v)); [reflexivity|].
  exact IH.
Qed.

Lemma hasLength_guard (l : option (list string)) :
  hasLength (if hasLength l then l else None) = hasLength l.
Proof. by destruct l as [[|x r]|]. Qed.

Lemma hasText_text (v : JsVal) :
  hasText match v with VStr s => Some (JsString.trim s) | _ => None end = isText v.
Proof. by destruct v. Qed.

Lemma entries_guard (v : JsVal) :
  (if hasLength match v with VArr l => Some (trimmedEntries P l) | _ => None end
   then match v with VArr l => Some (trimmedEntries P l) | _ => None end
   else None)
  = match v with
    | VArr l => match trimmedEntries P l with
                | [] => None
                | x :: r => Some (x :: r)
                end
    | _ => None
    end.
Proof. destruct v; try reflexivity. by destruct (trimmedEntries P items). Qed.

Lemma hasLength_entries (v : JsVal) :
  hasLength match v with
            | VArr l => match trimmedEntries P l with
                        | [] => None
                        | x :: r => Some (x :: r)
                        end
            | _ => None
            end
  = hasEntries P v.
Proof.
  destruct v; try reflexivity. cbn [hasEntries].
  rewrite <- hasLength_trimmedEntries. by destruct (trimmedEntries P items).
Qed.

(** The loader, case by case. *)
Lemma loadCompanyProfileFromStorage_cases :
  loadCompanyProfileFromStorage P
  = if hasWindow P then
      match localStorage_getItem P "companyProfile" with
      | Ok (Some raw) =>
          if JsString.isEmpty raw then None
          else
            match jsonParse P raw with
            | Ok parsed =>
                if isNullish parsed then None
                else if profileHasContent P parsed then Some (companyFromParsed P parsed)
                else None
            | Throw _ => None
            end
      | _ => None
      end
    else None.
Proof.
  unfold loadCompanyProfileFromStorage, loadCompanyProfile_body.
  destruct (hasWindow P); [cbn [negb]|reflexivity].
  destruct (localStorage_getItem P "companyProfile") as [[raw|]|e]; try reflexivity.
  rewrite bind_Ok. destruct (JsString.isEmpty raw); [reflexivity|].
  destruct (jsonParse P raw) as [parsed|e]; [|reflexivity].
  rewrite bind_Ok. destruct (isNullish parsed) eqn:Hnull.
  { unfold getProp. by rewrite Hnull. }
  rewrite !(getProp_object _ _ Hnull), !bind_Ok.
  cbv zeta. cbn [company_name company_email company_phoneNumbers company_addresses].
  rewrite !entries_guard, !hasText_text, !hasLength_entries.
  unfold profileHasContent, companyFromParsed.
  destruct (isText (prop parsed "name")), (isText (prop parsed "email")),
    (hasEntries P (prop parsed "phoneNumbers")), (hasEntries P (prop parsed "addresses"));
    reflexivity.
Qed.




End Company.

(** ** The issue date *)

Lemma toDateSafe_absent (P : Platform) (v : JsVal) :
  isNullish v = true -> toDateSafe P v = None.
Proof. by destruct v. Qed.

(** C8 (as stated) fails: a record without an issue date but with the
    creation date 1 January 1970 prints "1/1/1970" as its issue date on
    2 November 2026, in the row and in the document. *)
Lemma C8_issue_date_not_the_current_time :
  isNullish (prop (VObj [("createdAt", VDate 0); ("totalAmount", VNum 0)]) "issueDate") = true
  ∧ leftRows Sample.platform (VObj [("createdAt", VDate 0); ("totalAmount", VNum 0)]) !! 1%nat
    = Some ("Issue :", VStr "1/1/1970")
  ∧ toLocaleDateString Sample.platform (now Sample.platform) = "11/2/2026"
  ∧ leftRows Sample.platform (VObj [("createdAt", VDate 0); ("totalAmount", VNum 0)]) !! 1%nat
    ≠ Some ("Issue :", VStr (toLocaleDateString Sample.platform (now Sample.platform)))
  ∧ ∃ doc, generateInvoicePDF Sample.platform
             (VObj [("createdAt", VDate 0); ("totalAmount", VNum 0)]) VUndef VUndef
           = Ok (Some doc)
           ∧ printed "1/1/1970" doc = true
           ∧ printed "11/2/2026" doc = false.
Proof.
  split; [reflexivity|]. split; [reflexivity|]. split; [reflexivity|].
  split; [vm_compute; discriminate|].
  eexists. split; [vm_compute; reflexivity|].
  split; vm_compute; reflexivity.
Qed.

(** C8 (amended) -- When the issue date is absent, the issue date printed
    in the Invoice Details box is the record's creation date when that is
    a valid date, and the current time at render otherwise. *)
Theorem C8_issue_date_fallback (P : Platform) (invoice : JsVal) :
  isNullish (prop invoice "issueDate") = true ->
  leftRows P invoice !! 1%nat
  = Some ("Issue :",
          VStr (toLocaleDateString P
                  match toDateSafe P (prop invoice "createdAt") with
                  | Some created => created
                  | None => now P
                  end)).
Proof.
  intros Habsent. unfold leftRows, issueDateOf.
  by rewrite (toDateSafe_absent _ _ Habsent).
Qed.

(** C8 (amended), on the samples: with the creation date 1 January 1970
    the row prints "1/1/1970"; with no creation date it prints the day of
    the render, "11/2/2026". *)
Lemma C8_issue_date_fallback_sample :
  leftRows Sample.platform (VObj [("createdAt", VDate 0); ("totalAmount", VNum 0)]) !! 1%nat
  = Some ("Issue :", VStr "1/1/1970")
  ∧ leftRows Sample.platform Sample.invoice !! 1%nat = Some ("Issue :", VStr "11/2/2026").
Proof.
  split.
  - rewrite (C8_issue_date_fallback Sample.platform
               (VObj [("createdAt", VDate 0); ("totalAmount", VNum 0)]) eq_refl).
    reflexivity.
  - rewrite (C8_issue_date_fallback Sample.platform Sample.invoice eq_refl).
    reflexivity.
Defined.

(** ** What each stage adds to the document *)

Lemma emit_emit (doc : Doc) (a b : list DocOp) : emit (emit doc a) b = emit doc (a ++ b).
Proof. unfold emit. by rewrite app_assoc. Qed.

Lemma emit_nil (doc : Doc) : emit doc [] = doc.
Proof. unfold emit. apply app_nil_r. Qed.

Lemma plain_imap {A} (g : nat -> A -> DocOp) (l : list A) :
  (∀ i a, plain (g i a) = true) -> forallb plain (imap g l) = true.
Proof.
  revert g. induction l as [|a l IH]; intros g Hg; [reflexivity|].
  cbn [imap forallb]. rewrite Hg. apply IH. intros i b. apply Hg.
Qed.

Lemma plain_flat_map {A} (g : A -> list DocOp) (l : list A) :
  (∀ a, forallb plain (g a) = true) -> forallb plain (flat_map g l) = true.
Proof.
  intros Hg. induction l as [|a l IH]; [reflexivity|].
  cbn [flat_map]. by rewrite forallb_app, Hg, IH.
Qed.

(** A loop whose every step only adds plain calls only adds plain calls. *)
Lemma foldl_plain {A S} (step : Doc * S -> A -> Doc * S) (l : list A) :
  (∀ d s a, ∃ ops, (step (d, s) a).1 = emit d ops ∧ forallb plain ops = true) ->
  ∀ d s, ∃ ops, (foldl step (d, s) l).1 = emit d ops ∧ forallb plain ops = true.
Proof.
  intros Hstep. induction l as [|a l IH]; intros d s; cbn [foldl].
  - exists []. by rewrite emit_nil.
  - destruct (Hstep d s a) as (ops & Hops & Hplain).
    destruct (step (d, s) a) as [d' s']. cbn [fst] in Hops. subst d'.
    destruct (IH (emit d ops) s') as (ops' & -> & Hplain').
    exists (ops ++ ops')%list. by rewrite emit_emit, forallb_app, Hplain, Hplain'.
Qed.

Section Stages.

Context (P : Platform).

Lemma drawSectionBox_plain (doc : Doc) (x y w : float) (title : string)
    (rows : list KeyValueRow) :
  ∃ ops, (drawSectionBox P doc x y w title rows).2 = emit doc ops
         ∧ forallb plain ops = true.
Proof.
  unfold drawSectionBox. cbv zeta. cbn [snd].
  match goal with
  | |- context [foldl ?step (?d0, ?c0) ?l] =>
      assert (Hstep : ∀ d s a, ∃ ops, (step (d, s) a).1 = emit d ops
                                      ∧ forallb plain ops = true);
      [|destruct (foldl_plain step l Hstep d0 c0) as (ops & -> & Hplain)]
  end.
  - intros d s [label lines]. eexists. split; [cbn [fst snd]; apply emit_emit|].
    rewrite forallb_app. cbn [forallb plain setTextColor andb].
    by apply plain_imap.
  - eexists. split; [by rewrite !emit_emit|].
    by rewrite !forallb_app, Hplain.
Qed.

Lemma drawCompanyLines_plain (textX lineGap : float) (st : Doc * float)
    (lines : list string) :
  ∃ ops, (drawCompanyLines textX lineGap st lines).1 = emit st.1 ops
         ∧ forallb plain ops = true.
Proof.
  unfold drawCompanyLines. destruct st as [d y].
  apply foldl_plain. intros d' s a. by eexists.
Qed.

Lemma drawCompany_plain (doc doc' : Doc) (margin : float) (company : JsVal) :
  drawCompany P doc margin company = Ok doc' ->
  ∃ ops, doc' = emit doc ops ∧ forallb plain ops = true.
Proof.
  unfold drawCompany. destruct (companyPresent P company); cbn [negb].
  2: { intros [= <-]. exists []. by rewrite emit_nil. }
  intros H.
  inv_bind H as phones _.
  inv_bind H as addresses _.
  cbv zeta in H. injection H as <-.
  repeat match goal with
         | |- context [if ?b then _ else _] => destruct b
         | |- context [match trimmedEntries P ?l with _ => _ end] =>
             destruct (trimmedEntries P l)
         | |- context [drawCompanyLines ?x ?g ?st ?lines] =>
             let ops := fresh "ops" in
             let Hops := fresh "Hops" in
             let Hplain := fresh "Hplain" in
             destruct (drawCompanyLines_plain x g st lines) as (ops & Hops & Hplain);
             destruct (drawCompanyLines x g st lines) as [? ?];
             cbn [fst snd] in Hops |- *; subst
         end;
    cbn [fst snd]; rewrite ?emit_emit; eexists; (split; [reflexivity|]);
    rewrite ?forallb_app; cbn [forallb plain andb];
    repeat match goal with H : forallb plain _ = true |- _ => rewrite H; clear H end;
    reflexivity.
Qed.

End Stages.

(** ** The structure of the document *)

Lemma plain_observations (ops : list DocOp) :
  forallb plain ops = true ->
  tableStartsOf ops = [] ∧ tableRowsOf ops = [] ∧ noLogo ops = true.
Proof.
  induction ops as [|op ops IH]; [done|].
  cbn [forallb]. intros [Hop Hops]%andb_true_iff.
  destruct (IH Hops) as (IH1 & IH2 & IH3).
  unfold tableStartsOf, tableRowsOf, noLogo in *. cbn [flat_map forallb].
  rewrite IH1, IH2, IH3. by destruct op.
Qed.

Section Structure.

Context (P : Platform).

Lemma drawLogo_cases (doc : Doc) (margin : float) (logo : option string) :
  drawLogo P doc margin logo = doc
  ∨ ∃ data x y w h, logo = Some data
                    ∧ drawLogo P doc margin logo = emit doc [AddImage data "PNG" x y w h].
Proof.
  unfold drawLogo. destruct logo as [data|]; [|by left].
  destruct (JsString.isEmpty data); [by left|].
  destruct (addImageAccepts P data); [|by destruct (getImageAspectRatio P data) as [r|];
    [destruct (JsNumber.truthy r); [destruct (PrimFloat.ltb _ _)|]|]; left].
  right. exists data.
  destruct (getImageAspectRatio P data) as [r|];
    [destruct (JsNumber.truthy r); [destruct (PrimFloat.ltb _ _)|]|]; by eexists _, _, _, _.
Qed.

(** The header is the band, the logo if there is one, and plain calls. *)
Lemma drawHeader_structure (options : JsVal) (header : Doc) :
  drawHeader P options = Ok header ->
  ∃ ops,
    header
    = emit (drawLogo P (emit [] [setFillColor BRAND_GRAY_DARK;
                                 Rect 0 0 (pageWidth P) headerBandH "F"])
              marginX (loadImageAsDataUrl P (logoUrlOf P options))) ops
    ∧ forallb plain ops = true.
Proof.
  unfold drawHeader. cbv zeta. intros H.
  inv_bind H as doc Hcompany. injection H as <-.
  apply drawCompany_plain in Hcompany as (ops & -> & Hplain).
  eexists. split; [by rewrite emit_emit|].
  by rewrite forallb_app, Hplain.
Qed.

Lemma drawHeader_no_table (options : JsVal) (header : Doc) :
  drawHeader P options = Ok header -> tableStartsOf header = [] ∧ tableRowsOf header = [].
Proof.
  intros (ops & -> & Hplain)%drawHeader_structure.
  apply plain_observations in Hplain as (Hs & Hr & _).
  destruct (drawLogo_cases (emit [] [setFillColor BRAND_GRAY_DARK;
                                     Rect 0 0 (pageWidth P) headerBandH "F"])
              marginX (loadImageAsDataUrl P (logoUrlOf P options)))
    as [->|(data & x & y & w & h & _ & ->)];
    unfold tableStartsOf, tableRowsOf, emit in *;
    by rewrite !flat_map_app, Hs, Hr.
Qed.


Lemma drawBoxes_plain (doc : Doc) (invoice : JsVal) :
  ∃ ops, (drawBoxes P doc invoice).2 = emit doc ops ∧ forallb plain ops = true.
Proof.
  unfold drawBoxes. cbv zeta. cbn [snd].
  match goal with
  | |- context [drawSectionBox P doc ?x ?y ?w ?t ?rows] =>
      destruct (drawSectionBox_plain P doc x y w t rows) as (ops1 & Hops1 & Hplain1);
      destruct (drawSectionBox P doc x y w t rows) as [h1 d1]
  end.
  cbn [fst snd] in *. subst d1.
  match goal with
  | |- context [drawSectionBox P ?d ?x ?y ?w ?t ?rows] =>
      destruct (drawSectionBox_plain P d x y w t rows) as (ops2 & -> & Hplain2)
  end.
  eexists. split; [apply emit_emit|]. by rewrite forallb_app, Hplain1, Hplain2.
Qed.

Lemma drawTableAndTotals_structure (doc : Doc) (startY : float)
    (rows : list (list Cell)) (invoice : JsVal) :
  ∃ ops,
    drawTableAndTotals P doc startY rows invoice
    = emit doc (AutoTable startY
                  [["Reference"; "Description"; "Qty"; "Unit Price"; "Total"]]
                  rows marginX marginX :: ops)
    ∧ forallb plain ops = true.
Proof.
  unfold drawTableAndTotals. cbv zeta. rewrite !emit_emit.
  eexists. split; [reflexivity|]. reflexivity.
Qed.

Lemma footer_plain (totalPages : nat) : forallb plain (footer P totalPages) = true.
Proof. unfold footer. by apply plain_flat_map. Qed.

(** A rendered document is the header, plain calls, the one items table,
    plain calls, and the save. *)
Lemma renderInvoice_structure (options invoice : JsVal) (doc : Doc) :
  renderInvoice P options invoice = Ok doc ->
  ∃ header before items looked rows after file,
    drawHeader P options = Ok header
    ∧ asArray (nullish (prop invoice "items") (VArr [])) = Ok items
    ∧ tableBody P items = Ok (looked, rows)
    ∧ fileName invoice = Ok file
    ∧ forallb plain before = true
    ∧ forallb plain after = true
    ∧ doc = (header ++ before
             ++ AutoTable (tableStartY (drawBoxes P header invoice).1.1
                                       (drawBoxes P header invoice).1.2)
                  [["Reference"; "Description"; "Qty"; "Unit Price"; "Total"]]
                  rows marginX marginX
                :: after ++ [Save file])%list.
Proof.
  unfold renderInvoice. intros H.
  inv_bind H as header Hheader.
  inv_bind H as _ _.
  inv_bind H as items Hitems.
  inv_bind H as [looked rows] Hbody.
  cbv zeta in H. change ((looked, rows).2) with rows in H.
  inv_bind H as file Hfile. apply Ok_inj in H as <-.
  destruct (drawBoxes_plain header invoice) as (before & Hboxes & Hbefore).
  rewrite Hboxes.
  destruct (drawTableAndTotals_structure (emit header before)
              (tableStartY (drawBoxes P header invoice).1.1 (drawBoxes P header invoice).1.2)
              rows invoice) as (totals & -> & Htotals).
  exists header, before, items, looked, rows,
    (totals ++ footer P (numberOfPages P
                           (tableStartY (drawBoxes P header invoice).1.1
                                        (drawBoxes P header invoice).1.2) rows))%list,
    file.
  repeat (split; [assumption|]).
  split; [by rewrite forallb_app, Htotals, footer_plain|].
  unfold emit. by rewrite <- !app_assoc.
Qed.

End Structure.

(** ** The references printed in a rendered document *)

Lemma mapR_Ok_inv {A B} (f : A -> Result B) (l : list A) (ys : list B) :
  mapR f l = Ok ys -> Forall (fun x => ∃ y, f x = Ok y) l.
Proof.
  revert ys. induction l as [|x l IH]; intros ys H; [constructor|].
  cbn [mapR] in H.
  inv_bind H as y Hy.
  apply bind_Ok_inv in H as (ys' & Hys & _).
  constructor; [by exists y | by apply (IH ys')].
Qed.

Lemma tableRow_Ok_object (P : Platform) (refs : gmap string string) (item : JsVal)
    (row : list Cell) :
  tableRow P refs item = Ok row -> isNullish item = false.
Proof.
  unfold tableRow, inlineReference, getProp.
  by destruct (isNullish item).
Qed.

Lemma tableBody_Ok_objects (P : Platform) (items : list JsVal)
    (body : list string * list (list Cell)) :
  tableBody P items = Ok body -> Forall (fun item => isNullish item = false) items.
Proof.
  unfold tableBody. intros H.
  inv_bind H as unresolved _. cbv zeta in H.
  apply bind_Ok_inv in H as (rows & Hrows & _).
  apply mapR_Ok_inv in Hrows.
  eapply Forall_impl; [exact Hrows|].
  intros item [row Hrow]. by apply tableRow_Ok_object in Hrow.
Qed.

Lemma renderInvoice_rows (P : Platform) (options invoice : JsVal) (doc : Doc) :
  renderInvoice P options invoice = Ok doc ->
  ∃ items looked,
    asArray (nullish (prop invoice "items") (VArr [])) = Ok items
    ∧ tableBody P items = Ok (looked, tableRowsOf doc).
Proof.
  intros (header & before & items & looked & rows & after & file & Hheader & Hitems & Hbody
          & _ & Hbefore & Hafter & ->)%renderInvoice_structure.
  exists items, looked. split; [exact Hitems|].
  apply drawHeader_no_table in Hheader as [_ Hheader].
  apply plain_observations in Hbefore as (_ & Hbefore & _).
  apply plain_observations in Hafter as (_ & Hafter & _).
  unfold tableRowsOf in *. rewrite !flat_map_app. cbn [flat_map].
  by rewrite flat_map_app, Hheader, Hbefore, Hafter, app_nil_r.
Qed.

(** C1 -- The precedence the claim states is not what the code does on
    two inputs.  On the legacy entry, the first item of the sample order has
    the inline reference "R1" and the product P1, whose catalog reference
    is "REF-P1": the claim prints "R1" and looks nothing up for it; the
    code prints "REF-P1", after a catalog lookup of P1, since the
    normalization of the order's items leaves their [reference] out.  On
    the unified record, when the catalog module cannot be loaded, an item
    without an inline reference whose product identifier is "constructor"
    should print that identifier; the code prints the member [constructor]
    that the empty reference table inherits. *)
Theorem C1_reference_precedence_fails :
  (∃ doc items,
     generateInvoicePDF Sample.platform Sample.client Sample.legacyOrder VUndef
     = Ok (Some doc)
     ∧ asArray (nullish (prop Sample.legacyOrder "items") (VArr [])) = Ok items
     ∧ items !! 0%nat = Some Sample.itemInline
     ∧ inlineRefOf Sample.platform Sample.itemInline = "R1"
     ∧ productIdentifier Sample.platform Sample.itemInline = "P1"
     ∧ spec_reference "R1" (Some (catalogReference Sample.platform "P1")) "P1" = "R1"
     ∧ map printedReference (tableRowsOf doc) = textRow ["REF-P1"; "P2"; "-"]
     ∧ tableBody Sample.platform (map (normalizedItem Sample.platform) items)
       = Ok (["P1"; "P2"], tableRowsOf doc))
  ∧ (∃ doc,
       renderInvoice Sample.offline VUndef (VObj [("items", VArr [Sample.itemConstructor])])
       = Ok doc
       ∧ inlineRefOf Sample.offline Sample.itemConstructor = ""
       ∧ productIdentifier Sample.offline Sample.itemConstructor = "constructor"
       ∧ spec_reference "" None "constructor" = "constructor"
       ∧ map printedReference (tableRowsOf doc) = [CellMember "constructor"]
       ∧ CellMember "constructor" ≠ CellText "constructor").
Proof.
  split.
  - eexists _, _. split; [vm_compute; reflexivity|]. split; [vm_compute; reflexivity|].
    split; [reflexivity|]. split; [vm_compute; reflexivity|].
    split; [vm_compute; reflexivity|]. split; [vm_compute; reflexivity|].
    split; vm_compute; reflexivity.
  - eexists. split; [vm_compute; reflexivity|]. split; [vm_compute; reflexivity|].
    split; [vm_compute; reflexivity|]. split; [vm_compute; reflexivity|].
    split; [vm_compute; reflexivity | discriminate].
Qed.

(** ** Completion on well-formed arguments *)

Section Completion.

Context (P : Platform).











End Completion.





(** ** Box heights and the start of the table *)

Lemma float_neq (a b : float) : Prim2SF a ≠ Prim2SF b -> a ≠ b.
Proof. intros H ->. by apply H. Qed.

Lemma drawSectionBox_height (P : Platform) (doc : Doc) (x y w : float) (title : string)
    (rows : list KeyValueRow) :
  (drawSectionBox P doc x y w title rows).1
  = spec_boxHeight (lineCounts P (currentFont doc) w rows).
Proof.
  unfold drawSectionBox, spec_boxHeight, lineCounts. cbv zeta. cbn [fst].
  by rewrite !foldl_fmap.
Qed.

Lemma renderInvoice_table_start (P : Platform) (options invoice : JsVal) (doc : Doc) :
  renderInvoice P options invoice = Ok doc ->
  ∃ header,
    drawHeader P options = Ok header
    ∧ tableStartsOf doc
      = [tableStartY (drawBoxes P header invoice).1.1 (drawBoxes P header invoice).1.2].
Proof.
  intros (header & before & items & looked & rows & after & file & Hheader & _ & _ & _
          & Hbefore & Hafter & ->)%renderInvoice_structure.
  exists header. split; [exact Hheader|].
  apply drawHeader_no_table in Hheader as [Hheader _].
  apply plain_observations in Hbefore as (Hbefore & _).
  apply plain_observations in Hafter as (Hafter & _).
  unfold tableStartsOf in *. rewrite !flat_map_app. cbn [flat_map].
  by rewrite flat_map_app, Hheader, Hbefore, Hafter.
Qed.

(** C5 (as stated) fails: the sample invoice has 2 rows in the left box and
    5 in the right one, of heights 30.6 and 45; the table starts at 93,
    which is [contentTop + max(30.6, 45) + 12], and not at 81, which is
    [contentTop + max(30.6, 45)]. *)
Lemma C5_table_start_is_not_the_box_bottom :
  ∃ header doc,
    drawHeader Sample.platform VUndef = Ok header
    ∧ renderInvoice Sample.platform VUndef Sample.invoice = Ok doc
    ∧ length (leftRows Sample.platform Sample.invoice) = 2%nat
    ∧ length (rightRows Sample.invoice) = 5%nat
    ∧ (drawBoxes Sample.platform header Sample.invoice).1.1 = 30.6%float
    ∧ (drawBoxes Sample.platform header Sample.invoice).1.2 = 45%float
    ∧ tableStartsOf doc = [93%float]
    ∧ (contentTop + JsNumber.max 30.6 45)%float = 81%float
    ∧ 93%float ≠ (contentTop + JsNumber.max 30.6 45)%float.
Proof.
  eexists _, _. split; [vm_compute; reflexivity|]. split; [vm_compute; reflexivity|].
  split; [reflexivity|]. split; [reflexivity|].
  split; [vm_compute; reflexivity|]. split; [vm_compute; reflexivity|].
  split; [vm_compute; reflexivity|]. split; [vm_compute; reflexivity|].
  apply float_neq. vm_compute. discriminate.
Qed.

(** C5 (amended) -- Every section box reports the height made of the
    header band, the paddings and the fixed line height per wrapped line
    of its rows; a box of 5 one-line rows is strictly taller than a box of
    2 one-line rows of the same width; and the items table of a rendered
    document starts at [contentTop + max(leftHeight, rightHeight) + 12],
    the two heights being those the boxes reported. *)
Theorem C5_box_heights_and_table_start (P : Platform) :
  (∀ doc x y w title rows,
     (drawSectionBox P doc x y w title rows).1
     = spec_boxHeight (lineCounts P (currentFont doc) w rows))
  ∧ (∀ docL docR xL xR yL yR w titleL titleR rowsL rowsR,
       lineCounts P (currentFont docL) w rowsL = [1; 1]%nat ->
       lineCounts P (currentFont docR) w rowsR = [1; 1; 1; 1; 1]%nat ->
       (drawSectionBox P docL xL yL w titleL rowsL).1 = 30.6%float
       ∧ (drawSectionBox P docR xR yR w titleR rowsR).1 = 45%float
       ∧ ((drawSectionBox P docL xL yL w titleL rowsL).1
          <? (drawSectionBox P docR xR yR w titleR rowsR).1)%float = true)
  ∧ (∀ leftH rightH,
       tableStartY leftH rightH = (contentTop + JsNumber.max leftH rightH + 12)%float)
  ∧ (∀ header invoice,
       ∃ leftDoc,
         (drawBoxes P header invoice).1.1
         = (drawSectionBox P header marginX contentTop
              ((pageWidth P - marginX * 2 - 8) / 2)%float
              "Invoice Details" (leftRows P invoice)).1
         ∧ (drawBoxes P header invoice).1.2
           = (drawSectionBox P leftDoc (marginX + (pageWidth P - marginX * 2 - 8) / 2 + 8)%float
                contentTop ((pageWidth P - marginX * 2 - 8) / 2)%float
                "Bill To" (rightRows invoice)).1)
  ∧ (∀ options invoice doc,
       renderInvoice P options invoice = Ok doc ->
       ∃ header,
         drawHeader P options = Ok header
         ∧ tableStartsOf doc
           = [tableStartY (drawBoxes P header invoice).1.1
                          (drawBoxes P header invoice).1.2]).
Proof.
  split; [|split; [|split; [|split]]].
  - intros. apply drawSectionBox_height.
  - intros docL docR xL xR yL yR w titleL titleR rowsL rowsR HL HR.
    rewrite !drawSectionBox_height, HL, HR. by vm_compute.
  - reflexivity.
  - intros header invoice. by eexists.
  - intros options invoice doc. apply renderInvoice_table_start.
Qed.

(** C5 (amended), on the sample invoice: the left box has 2 rows and the
    height 30.6, the right box 5 rows and the height 45, and the table
    starts at 36 + 45 + 12 = 93. *)
Lemma C5_box_heights_sample :
  ∃ header doc,
    drawHeader Sample.platform VUndef = Ok header
    ∧ renderInvoice Sample.platform VUndef Sample.invoice = Ok doc
    ∧ (drawBoxes Sample.platform header Sample.invoice).1.1 = 30.6%float
    ∧ (drawBoxes Sample.platform header Sample.invoice).1.2 = 45%float
    ∧ tableStartsOf doc = [93%float].
Proof.
  pose proof (C5_box_heights_and_table_start Sample.platform) as (_ & _ & _ & _ & Hstart).
  assert (Hdoc : ∃ doc, renderInvoice Sample.platform VUndef Sample.invoice = Ok doc)
    by (eexists; vm_compute; reflexivity).
  destruct Hdoc as (doc & Hdoc).
  destruct (Hstart VUndef Sample.invoice doc Hdoc) as (header & Hheader & Hstarts).
  exists header, doc. split; [exact Hheader|]. split; [exact Hdoc|].
  rewrite Hstarts. clear Hstarts Hdoc.
  vm_compute in Hheader. apply Ok_inj in Hheader. subst header.
  split; [vm_compute; reflexivity|]. split; vm_compute; reflexivity.
Defined.

(* ================================================================== *)
(** * Further properties of the generator *)

(** ** Calls, texts and fonts of the drawing stages *)

Lemma forallb_imap {A B} (p : B -> bool) (g : nat -> A -> B) (l : list A) :
  (∀ i a, p (g i a) = true) -> forallb p (imap g l) = true.
Proof.
  revert g. induction l as [|a l IH]; intros g Hg; [reflexivity|].
  cbn [imap forallb]. rewrite Hg. apply IH. intros i b. apply Hg.
Qed.

Lemma textsOf_emit (doc : Doc) (ops : list DocOp) :
  textsOf (emit doc ops) = (textsOf doc ++ textsOf ops)%list.
Proof. unfold textsOf, emit. apply flat_map_app. Qed.

Lemma textsOf_imap_Text (g : nat -> float * float) (lines : list string) :
  textsOf (imap (fun i line => Text line (g i).1 (g i).2 None) lines) = lines.
Proof.
  revert g. induction lines as [|line lines IH]; intros g; [reflexivity|].
  cbn [imap]. unfold textsOf in *. cbn [flat_map app]. f_equal.
  apply (IH (fun i => g (S i))).
Qed.

Lemma currentFont_emit (doc : Doc) (ops : list DocOp) :
  currentFont (emit doc ops) = foldl applyFont (currentFont doc) ops.
Proof. unfold currentFont, emit. apply foldl_app. Qed.

Lemma keepsFont_foldl (ops : list DocOp) (f : Font) :
  forallb keepsFont ops = true -> foldl applyFont f ops = f.
Proof.
  revert f. induction ops as [|op ops IH]; intros f; [reflexivity|].
  cbn [forallb foldl]. intros [Hop Hops]%andb_true_iff.
  rewrite IH by exact Hops. by destruct op.
Qed.

Lemma iter_shift {A} (phi : A -> A) (n : nat) (a : A) :
  Nat.iter n phi (phi a) = phi (Nat.iter n phi a).
Proof.
  induction n as [|n IH]; [reflexivity|].
  change (phi (Nat.iter n phi (phi a)) = phi (phi (Nat.iter n phi a))).
  by rewrite IH.
Qed.

(** A loop on the document: when every step adds basic calls, with known
    texts and a known effect [phi] on the font, so does the loop. *)
Lemma foldl_steps {A S} (step : Doc * S -> A -> Doc * S) (texts : A -> list string)
    (phi : Font -> Font) (l : list A) :
  (∀ d s a, ∃ ops, (step (d, s) a).1 = emit d ops
                   ∧ forallb basic ops = true
                   ∧ textsOf ops = texts a
                   ∧ ∀ f, foldl applyFont f ops = phi f) ->
  ∀ d s, ∃ ops, (foldl step (d, s) l).1 = emit d ops
                ∧ forallb basic ops = true
                ∧ textsOf ops = flat_map texts l
                ∧ ∀ f, foldl applyFont f ops = Nat.iter (length l) phi f.
Proof.
  intros Hstep. induction l as [|a l IH]; intros d s; cbn [foldl].
  - exists []. by rewrite emit_nil.
  - destruct (Hstep d s a) as (ops & Hops & Hbasic & Htexts & Hfont).
    destruct (step (d, s) a) as [d' s']. cbn [fst] in Hops. subst d'.
    destruct (IH (emit d ops) s') as (ops' & -> & Hbasic' & Htexts' & Hfont').
    exists (ops ++ ops')%list. rewrite emit_emit, forallb_app, Hbasic, Hbasic'.
    split; [reflexivity|]. split; [reflexivity|]. split.
    + unfold textsOf in *. by rewrite flat_map_app, Htexts, Htexts'.
    + intros f. rewrite foldl_app, Hfont, Hfont', iter_shift. reflexivity.
Qed.

Lemma flat_map_fmap {A B C} (g : A -> B) (h : B -> list C) (l : list A) :
  flat_map h (map g l) = flat_map (fun a => h (g a)) l.
Proof. induction l as [|a l IH]; [reflexivity|]. cbn. by rewrite IH. Qed.

Lemma iter_const {A} (c : A) (n : nat) (a : A) :
  n ≠ 0%nat -> Nat.iter n (fun _ => c) a = c.
Proof. by destruct n. Qed.

Section Drawing.

Context (P : Platform).

(** What [drawSectionBox] adds to the document. *)
Lemma drawSectionBox_emits (doc : Doc) (x y w : float) (title : string)
    (rows : list KeyValueRow) :
  ∃ ops,
    (drawSectionBox P doc x y w title rows).2 = emit doc ops
    ∧ forallb basic ops = true
    ∧ textsOf ops = boxTexts P (currentFont doc) w title rows
    ∧ (rows ≠ [] -> ∀ f, foldl applyFont f ops = timesNormal 9.2).
Proof.
  unfold drawSectionBox. cbv zeta. cbn [snd].
  match goal with
  | |- context [foldl ?step (?d0, ?c0) ?l] =>
      assert (Hstep : ∀ d s a, ∃ ops,
                 (step (d, s) a).1 = emit d ops
                 ∧ forallb basic ops = true
                 ∧ textsOf ops = (fun r : string * list string => r.1 :: r.2) a
                 ∧ ∀ f, foldl applyFont f ops = (fun _ => timesNormal 9.2) f);
      [|destruct (foldl_steps step _ _ l Hstep d0 c0)
          as (ops & -> & Hbasic & Htexts & Hfont)]
  end.
  - intros d s [label lines]. eexists. split; [cbn [fst snd]; apply emit_emit|].
    split; [|split].
    + rewrite forallb_app. cbn [forallb basic setTextColor andb].
      by apply forallb_imap.
    + unfold textsOf. rewrite flat_map_app. cbn [flat_map app fst snd]. f_equal.
      apply (textsOf_imap_Text (fun i => (_, _))).
    + intros f. rewrite foldl_app. cbn [foldl applyFont setTextColor font_family
                                        font_style font_size].
      apply keepsFont_foldl. by apply forallb_imap.
  - eexists. split; [by rewrite !emit_emit|].
    split; [by rewrite !forallb_app, Hbasic|]. split.
    + unfold textsOf in *. rewrite !flat_map_app, Htexts, flat_map_fmap.
      cbn [flat_map app]. unfold boxTexts, displayValue. by rewrite app_nil_r.
    + intros Hrows f. rewrite !foldl_app, Hfont, length_map, iter_const; [reflexivity|].
      by destruct rows.
Qed.

Lemma flat_map_singleton {A} (l : list A) : flat_map (fun a => [a]) l = l.
Proof. induction l as [|a l IH]; [reflexivity|]. cbn. by rewrite IH. Qed.

Lemma iter_id {A} (n : nat) (a : A) : Nat.iter n (fun x => x) a = a.
Proof. induction n as [|n IH]; [reflexivity|]. exact IH. Qed.

(** What [lines.slice(0, 2).forEach(...)] adds to the document. *)
Lemma drawCompanyLines_emits (textX lineGap : float) (st : Doc * float)
    (lines : list string) :
  ∃ ops, (drawCompanyLines textX lineGap st lines).1 = emit st.1 ops
         ∧ forallb basic ops = true
         ∧ textsOf ops = take 2 lines
         ∧ ∀ f, foldl applyFont f ops = f.
Proof.
  unfold drawCompanyLines. destruct st as [d y].
  match goal with
  | |- context [foldl ?step _ ?l] =>
      destruct (foldl_steps step (fun line => [line]) (fun f => f) l) with (d := d) (s := y)
        as (ops & Hops & Hbasic & Htexts & Hfont)
  end.
  - intros d' s a. by eexists.
  - exists ops. rewrite Hops, Htexts, flat_map_singleton.
    repeat split; try done. intros f. by rewrite Hfont, iter_id.
Qed.

Lemma length_take_two {A} (l : list A) : (length (take 2 l) <= 2)%nat.
Proof. rewrite length_take. lia. Qed.

Lemma textsOf_app (ops ops' : list DocOp) :
  textsOf (ops ++ ops')%list = (textsOf ops ++ textsOf ops')%list.
Proof. unfold textsOf. apply flat_map_app. Qed.

(** What the company block adds to the document: nothing without a
    company to show, else basic calls whose texts are [companyTexts]. *)
Lemma drawCompany_emits (doc doc' : Doc) (margin : float) (company : JsVal) :
  drawCompany P doc margin company = Ok doc' ->
  (companyPresent P company = false ∧ doc' = doc)
  ∨ ∃ phoneNumbers addrs ops,
      companyPresent P company = true
      ∧ asArray (nullish (prop company "phoneNumbers") (VArr [])) = Ok phoneNumbers
      ∧ asArray (nullish (prop company "addresses") (VArr [])) = Ok addrs
      ∧ doc' = emit doc ops
      ∧ forallb basic ops = true
      ∧ textsOf ops
        = companyTexts P margin company
            (trimmedEntries P phoneNumbers) (trimmedEntries P addrs).
Proof.
  unfold drawCompany. destruct (companyPresent P company); cbn [negb].
  2: { intros H. apply Ok_inj in H as <-. by left. }
  intros H. right.
  inv_bind H as phones Hphones.
  inv_bind H as addresses Haddresses.
  cbv zeta in H. apply Ok_inj in H as <-.
  exists phones, addresses.
  match goal with
  | |- ∃ ops, _ ∧ _ ∧ _ ∧ ?d = _ ∧ ?b ∧ ?t =>
      cut (∃ ops, d = emit doc ops ∧ forallb basic ops = true
                  ∧ textsOf ops
                    = companyTexts P margin company
                        (trimmedEntries P phones) (trimmedEntries P addresses));
      [intros (ops & Hops & Hbasic & Htexts); by exists ops|]
  end.
  unfold companyTexts. cbv zeta.
  repeat match goal with
         | |- context [if ?b then _ else _] => destruct b
         | |- context [match trimmedEntries P ?l with _ => _ end] =>
             destruct (trimmedEntries P l)
         end.
  all: cbn [fst snd].
  all: repeat match goal with
         | |- context [(drawCompanyLines ?x ?g ?st ?lines).1] =>
             let ops := fresh "ops" in
             let Hops := fresh "Hops" in
             let Hbasic := fresh "Hbasic" in
             let Htexts := fresh "Htexts" in
             let Hfont := fresh "Hfont" in
             destruct (drawCompanyLines_emits x g st lines)
               as (ops & Hops & Hbasic & Htexts & Hfont);
             cbn [fst snd] in Hops; rewrite Hops in *; clear Hops
         end.
  all: cbn [fst snd]; rewrite ?emit_emit; eexists; (split; [reflexivity|]).
  all: rewrite ?forallb_app, ?textsOf_app; cbn [forallb basic andb].
  all: cbn [fst snd] in *.
  all: repeat match goal with
              | H : textsOf _ = take 2 _ |- _ => rewrite !currentFont_emit in H
              end.
  all: repeat match goal with
              | Hf : ∀ f, foldl applyFont f ?o = f,
                H : context [foldl applyFont _ ?o] |- _ => rewrite Hf in H
              end.
  all: cbn [foldl applyFont font_family font_style font_size] in *.
  all: repeat match goal with
              | H : forallb basic _ = true |- _ => rewrite H; clear H
              | H : textsOf _ = take 2 _ |- _ => rewrite H; clear H
              end.
  all: split; [reflexivity|].
  all: cbn [textsOf flat_map app]; rewrite ?app_nil_r; reflexivity.
Qed.

Lemma companyTexts_length (margin : float) (company : JsVal)
    (phones addresses : list string) :
  (length (companyTexts P margin company phones addresses) <= 8)%nat.
Proof.
  unfold companyTexts. cbv zeta. rewrite !length_app.
  repeat match goal with
         | |- context [if ?b then _ else _] => destruct b
         | |- context [match ?l with [] => _ | _ :: _ => _ end] => destruct l
         end;
    repeat match goal with
           | |- context [length (take 2 ?l)] =>
               pose proof (length_take_two l); generalize dependent (length (take 2 l));
               intros
           end;
    cbn [length]; lia.
Qed.

Lemma companyLinesOf_length (company : JsVal) :
  (length (companyLinesOf P company) <= 8)%nat.
Proof.
  unfold companyLinesOf.
  destruct (companyPresent P company); [|cbn; lia].
  destruct (asArray _); [|cbn; lia]. destruct (asArray _); [|cbn; lia].
  apply companyTexts_length.
Qed.

(** The header: the band, the logo if it could be loaded and drawn, the
    company block and the title, which leaves the font at Times 10. *)
Lemma drawHeader_emits (options : JsVal) (header : Doc) :
  drawHeader P options = Ok header ->
  ∃ logoOps companyOps,
    header = (bandOps P ++ logoOps ++ companyOps ++ titleOps P)%list
    ∧ (logoOps = []
       ∨ ∃ data x w h,
           loadImageAsDataUrl P (logoUrlOf P options) = Some data
           ∧ logoOps = [AddImage data "PNG" x 5 w h])
    ∧ forallb basic companyOps = true
    ∧ textsOf companyOps = companyLinesOf P (companyOf P options).
Proof.
  unfold drawHeader. cbv zeta. intros H.
  inv_bind H as doc Hcompany. apply Ok_inj in H as <-.
  assert (Hlogo : ∃ logoOps,
             drawLogo P (emit [] (bandOps P)) marginX
               (loadImageAsDataUrl P (logoUrlOf P options))
             = (bandOps P ++ logoOps)%list
             ∧ (logoOps = []
                ∨ ∃ data x w h,
                    loadImageAsDataUrl P (logoUrlOf P options) = Some data
                    ∧ logoOps = [AddImage data "PNG" x 5 w h])).
  { unfold drawLogo. destruct (loadImageAsDataUrl P _) as [data|];
      [|exists []; split; [by rewrite app_nil_r | by left]].
    destruct (JsString.isEmpty data);
      [exists []; split; [by rewrite app_nil_r | by left]|].
    cbv zeta.
    destruct (getImageAspectRatio P data) as [r|];
      [destruct (JsNumber.truthy r); [destruct (PrimFloat.ltb _ _)|]|];
      (destruct (addImageAccepts P data);
       [eexists; split; [reflexivity|]; right; by eexists _, _, _, _
       |exists []; split; [by rewrite app_nil_r | by left]]). }
  destruct Hlogo as (logoOps & Hlogo & Hcases).
  change (emit [] [setFillColor BRAND_GRAY_DARK; Rect 0 0 (pageWidth P) headerBandH "F"])
    with (emit [] (bandOps P)) in Hcompany.
  rewrite Hlogo in Hcompany.
  apply drawCompany_emits in Hcompany
    as [[Hpresent ->]|(phones & addrs & ops & Hpresent & Hphones & Haddrs & -> & Hbasic & Htexts)].
  - exists logoOps, []. unfold emit. rewrite <- app_assoc. split; [reflexivity|].
    split; [exact Hcases|]. split; [reflexivity|].
    unfold companyLinesOf. by rewrite Hpresent.
  - exists logoOps, ops. unfold emit. rewrite <- !app_assoc. split; [reflexivity|].
    split; [exact Hcases|]. split; [exact Hbasic|].
    unfold companyLinesOf. by rewrite Hpresent, Hphones, Haddrs.
Qed.

Lemma currentFont_header (options : JsVal) (header : Doc) :
  drawHeader P options = Ok header -> currentFont header = timesNormal 10.
Proof.
  unfold drawHeader. cbv zeta. intros H.
  inv_bind H as doc Hcompany. apply Ok_inj in H as <-.
  by rewrite currentFont_emit.
Qed.

Lemma leftRows_nonempty (invoice : JsVal) : leftRows P invoice ≠ [].
Proof. unfold leftRows. cbv zeta. discriminate. Qed.

Lemma rightRows_nonempty (invoice : JsVal) : rightRows invoice ≠ [].
Proof. unfold rightRows. cbv zeta. discriminate. Qed.

(** The two section boxes after a header: their calls, their texts, and
    their heights, with the font each one wraps its values in. *)
Lemma drawBoxes_emits (header : Doc) (invoice : JsVal) :
  currentFont header = timesNormal 10 ->
  ∃ ops,
    (drawBoxes P header invoice).2 = emit header ops
    ∧ forallb basic ops = true
    ∧ textsOf ops
      = (boxTexts P (timesNormal 10) (halfWidth P) "Invoice Details" (leftRows P invoice)
         ++ boxTexts P (timesNormal 9.2) (halfWidth P) "Bill To" (rightRows invoice))%list
    ∧ (drawBoxes P header invoice).1.1
      = spec_boxHeight (lineCounts P (timesNormal 10) (halfWidth P) (leftRows P invoice))
    ∧ (drawBoxes P header invoice).1.2
      = spec_boxHeight (lineCounts P (timesNormal 9.2) (halfWidth P) (rightRows invoice)).
Proof.
  intros Hfont. unfold drawBoxes. cbv zeta. cbn [fst snd].
  rewrite !drawSectionBox_height.
  match goal with
  | |- context [drawSectionBox P header ?x ?y ?w ?t ?rows] =>
      destruct (drawSectionBox_emits header x y w t rows)
        as (ops1 & Hops1 & Hbasic1 & Htexts1 & Hfont1)
  end.
  rewrite Hops1.
  match goal with
  | |- context [drawSectionBox P (emit header ops1) ?x ?y ?w ?t ?rows] =>
      destruct (drawSectionBox_emits (emit header ops1) x y w t rows)
        as (ops2 & Hops2 & Hbasic2 & Htexts2 & _)
  end.
  rewrite Hops2.
  rewrite currentFont_emit, (Hfont1 (leftRows_nonempty invoice)) in Htexts2 |- *.
  rewrite Hfont in Htexts1 |- *.
  exists (ops1 ++ ops2)%list. rewrite emit_emit, forallb_app, textsOf_app.
  rewrite Hbasic1, Hbasic2, Htexts1, Htexts2. by repeat split.
Qed.

Lemma drawTableAndTotals_emits (doc : Doc) (startY : float)
    (rows : list (list Cell)) (invoice : JsVal) :
  ∃ ops,
    drawTableAndTotals P doc startY rows invoice
    = emit doc (AutoTable startY
                  [["Reference"; "Description"; "Qty"; "Unit Price"; "Total"]]
                  rows marginX marginX :: ops)
    ∧ forallb basic ops = true
    ∧ textsOf ops = totalsTexts P invoice.
Proof.
  unfold drawTableAndTotals. cbv zeta. rewrite !emit_emit.
  eexists. split; [reflexivity|]. split; reflexivity.
Qed.

Lemma footer_pages (totalPages : nat) :
  pagesOf (footer P totalPages) = seq 1 totalPages
  ∧ textsOf (footer P totalPages) = replicate totalPages FOOTER_TEXT
  ∧ imagesOf (footer P totalPages) = []
  ∧ savesOf (footer P totalPages) = []
  ∧ tableStartsOf (footer P totalPages) = []
  ∧ tableRowsOf (footer P totalPages) = [].
Proof.
  unfold footer. cbv zeta. generalize 1%nat.
  induction totalPages as [|n IH]; intros start; [done|].
  cbn [seq flat_map replicate].
  destruct (IH (S start)) as (IH1 & IH2 & IH3 & IH4 & IH5 & IH6).
  unfold pagesOf, textsOf, imagesOf, savesOf, tableStartsOf, tableRowsOf in *.
  rewrite !flat_map_app, IH1, IH2, IH3, IH4, IH5, IH6. done.
Qed.

Lemma basic_observations (ops : list DocOp) :
  forallb basic ops = true ->
  pagesOf ops = [] ∧ imagesOf ops = [] ∧ savesOf ops = [] ∧ tableStartsOf ops = []
  ∧ tableRowsOf ops = [].
Proof.
  induction ops as [|op ops IH]; [done|].
  cbn [forallb]. intros [Hop Hops]%andb_true_iff.
  destruct (IH Hops) as (IH1 & IH2 & IH3 & IH4 & IH5).
  unfold pagesOf, imagesOf, savesOf, tableStartsOf, tableRowsOf in *. cbn [flat_map].
  rewrite IH1, IH2, IH3, IH4, IH5. by destruct op.
Qed.

(** The calls of a rendered document, stage by stage. *)
Lemma renderInvoice_anatomy (options invoice : JsVal) (doc : Doc) :
  renderInvoice P options invoice = Ok doc ->
  ∃ logoOps companyOps boxOps totalOps items looked rows file,
    (logoOps = []
     ∨ ∃ data x w h,
         loadImageAsDataUrl P (logoUrlOf P options) = Some data
         ∧ logoOps = [AddImage data "PNG" x 5 w h])
    ∧ forallb basic companyOps = true
    ∧ textsOf companyOps = companyLinesOf P (companyOf P options)
    ∧ forallb basic boxOps = true
    ∧ textsOf boxOps
      = (boxTexts P (timesNormal 10) (halfWidth P) "Invoice Details" (leftRows P invoice)
         ++ boxTexts P (timesNormal 9.2) (halfWidth P) "Bill To" (rightRows invoice))%list
    ∧ forallb basic totalOps = true
    ∧ textsOf totalOps = totalsTexts P invoice
    ∧ asArray (nullish (prop invoice "items") (VArr [])) = Ok items
    ∧ tableBody P items = Ok (looked, rows)
    ∧ fileName invoice = Ok file
    ∧ doc = ((bandOps P ++ logoOps ++ companyOps ++ titleOps P ++ boxOps
              ++ AutoTable (tableStartOf P invoice) tableHead rows marginX marginX
                 :: totalOps)
             ++ footer P (numberOfPages P (tableStartOf P invoice) rows)
             ++ [Save file])%list.
Proof.
  unfold renderInvoice. intros H.
  inv_bind H as header Hheader.
  inv_bind H as _ _.
  inv_bind H as items Hitems.
  inv_bind H as [looked rows] Hbody.
  cbv zeta in H. change ((looked, rows).2) with rows in H.
  inv_bind H as file Hfile. apply Ok_inj in H as <-.
  pose proof (currentFont_header _ _ Hheader) as Hfont.
  destruct (drawBoxes_emits header invoice Hfont)
    as (boxOps & -> & Hbasic & Htexts & -> & ->).
  fold (tableStartOf P invoice).
  destruct (drawTableAndTotals_emits (emit header boxOps) (tableStartOf P invoice)
              rows invoice) as (totalOps & -> & Hbasic' & Htexts').
  apply drawHeader_emits in Hheader
    as (logoOps & companyOps & -> & Hlogo & Hcompany & Hlines).
  exists logoOps, companyOps, boxOps, totalOps, items, looked, rows, file.
  repeat (split; [assumption|]).
  unfold emit, tableHead. by rewrite <- !app_assoc.
Qed.

End Drawing.

(** ** The texts of a rendered document *)

Lemma logo_observations (logoOps : list DocOp) :
  logoOps = [] ∨ (∃ data x w h, logoOps = [AddImage data "PNG" x 5 w h]) ->
  textsOf logoOps = [] ∧ pagesOf logoOps = [] ∧ savesOf logoOps = []
  ∧ tableStartsOf logoOps = [] ∧ tableRowsOf logoOps = []
  ∧ (length (imagesOf logoOps) <= 1)%nat.
Proof.
  intros [->|(data & x & w & h & ->)]; cbn; repeat split; lia.
Qed.

(** What can be observed on a document of the shape [renderInvoice]
    produces. *)
Lemma shape_observations (P : Platform) (logoOps companyOps boxOps totalOps : list DocOp)
    (startY : float) (rows : list (list Cell)) (n : nat) (file : string) :
  logoOps = [] ∨ (∃ data x w h, logoOps = [AddImage data "PNG" x 5 w h]) ->
  forallb basic companyOps = true ->
  forallb basic boxOps = true ->
  forallb basic totalOps = true ->
  let content := (bandOps P ++ logoOps ++ companyOps ++ titleOps P ++ boxOps
                  ++ AutoTable startY tableHead rows marginX marginX :: totalOps)%list in
  let doc := (content ++ footer P n ++ [Save file])%list in
  textsOf doc = (textsOf companyOps ++ ["INVOICE"] ++ textsOf boxOps ++ textsOf totalOps
                 ++ replicate n FOOTER_TEXT)%list
  ∧ pagesOf content = [] ∧ savesOf content = []
  ∧ pagesOf doc = seq 1 n
  ∧ savesOf doc = [file]
  ∧ tableStartsOf doc = [startY]
  ∧ tableRowsOf doc = rows
  ∧ imagesOf doc = imagesOf logoOps.
Proof.
  intros Hlogo Hcompany Hboxes Htotals content doc. subst doc content.
  apply logo_observations in Hlogo as (Hl1 & Hl2 & Hl3 & Hl4 & Hl5 & _).
  apply basic_observations in Hcompany as (Hc1 & Hc2 & Hc3 & Hc4 & Hc5).
  apply basic_observations in Hboxes as (Hb1 & Hb2 & Hb3 & Hb4 & Hb5).
  apply basic_observations in Htotals as (Ht1 & Ht2 & Ht3 & Ht4 & Ht5).
  destruct (footer_pages P n) as (Hf1 & Hf2 & Hf3 & Hf4 & Hf5 & Hf6).
  unfold textsOf, pagesOf, savesOf, tableStartsOf, tableRowsOf, imagesOf in *.
  rewrite !flat_map_app. cbn [flat_map]. rewrite ?flat_map_app.
  rewrite Hl1, Hl2, Hl3, Hl4, Hl5, Hc1, Hc2, Hc3, Hc4, Hc5, Hb1, Hb2, Hb3, Hb4, Hb5,
    Ht1, Ht2, Ht3, Ht4, Ht5, Hf1, Hf2, Hf3, Hf4, Hf5, Hf6.
  cbn [bandOps titleOps flat_map app setFillColor]. rewrite ?app_nil_r.
  repeat split. rewrite <- !app_assoc. cbn [app]. by rewrite <- !app_assoc.
Qed.

Lemma logo_cases_weaken (P : Platform) (url : string) (logoOps : list DocOp) :
  logoOps = []
  ∨ (∃ data x w h,
       loadImageAsDataUrl P url = Some data ∧ logoOps = [AddImage data "PNG" x 5 w h]) ->
  logoOps = [] ∨ (∃ data x w h, logoOps = [AddImage data "PNG" x 5 w h]).
Proof.
  intros [->|(data & x & w & h & _ & ->)]; [by left | right; by eexists _, _, _, _].
Qed.

(** X1 -- The texts of a rendered document, in the order they are written:
    the lines of the company block (at most eight), the title, the texts of
    the box "Invoice Details" with its values wrapped in Times 10, those of
    the box "Bill To" with its values wrapped in Times 9.2, the three labels
    and amounts of the totals area, and the footer sentence once per page. *)
Theorem rendered_texts (P : Platform) (options invoice : JsVal) (doc : Doc) :
  renderInvoice P options invoice = Ok doc ->
  textsOf doc
  = (companyLinesOf P (companyOf P options)
     ++ ["INVOICE"]
     ++ boxTexts P (timesNormal 10) (halfWidth P) "Invoice Details" (leftRows P invoice)
     ++ boxTexts P (timesNormal 9.2) (halfWidth P) "Bill To" (rightRows invoice)
     ++ totalsTexts P invoice
     ++ replicate (numberOfPages P (tableStartOf P invoice) (tableRowsOf doc))
          FOOTER_TEXT)%list
  ∧ (length (companyLinesOf P (companyOf P options)) <= 8)%nat.
Proof.
  intros (logoOps & companyOps & boxOps & totalOps & items & looked & rows & file
          & Hlogo & Hcompany & Hlines & Hboxes & Htexts & Htotals & Htexts'
          & _ & _ & _ & ->)%renderInvoice_anatomy.
  apply logo_cases_weaken in Hlogo.
  destruct (shape_observations P logoOps companyOps boxOps totalOps
              (tableStartOf P invoice) rows
              (numberOfPages P (tableStartOf P invoice) rows) file
              Hlogo Hcompany Hboxes Htotals)
    as (Hdoc & _ & _ & _ & _ & _ & Hrows & _).
  cbv zeta in Hdoc, Hrows.
  split; [|apply companyLinesOf_length].
  rewrite Hrows, Hdoc, Hlines, Htexts, Htexts'. by rewrite <- !app_assoc.
Qed.

(** X1, on the sample invoice with a company given in the options. *)
Lemma rendered_texts_sample :
  ∃ doc,
    renderInvoice Sample.platform Sample.brandedOptions Sample.invoice = Ok doc
    ∧ textsOf doc
      = ["Acme"; "1 / 2"; "INVOICE";
         "Invoice Details"; "Invoice :"; "INV/2024#07"; "Issue :"; "11/2/2026";
         "Bill To"; "Name :"; "Bob"; "CIN :"; "01234567"; "Email :"; "bob@example.com";
         "Phone :"; "555"; "Addr :"; "Tunis";
         "Subtotal :"; "30.00 Dt"; "Tax :"; "0.00 Dt"; "Total :"; "30.00 Dt";
         "Thank you for your business!"].
Proof.
  assert (Hdoc : ∃ doc, renderInvoice Sample.platform Sample.brandedOptions Sample.invoice
                        = Ok doc)
    by (eexists; vm_compute; reflexivity).
  destruct Hdoc as (doc & Hdoc). exists doc. split; [exact Hdoc|].
  rewrite (proj1 (rendered_texts Sample.platform Sample.brandedOptions Sample.invoice
                    doc Hdoc)).
  vm_compute. reflexivity.
Defined.

(** ** Pages, images and the save *)

(** X2 -- A rendered document ends with the footer pass and the save: all
    the content comes first, with no page switch and no save in it; then
    the pages 1, 2, ..., n are visited in this order, n being the page count
    after the items table; the last call saves the file, and it is the only
    save.  There is one items table, and at most one image. *)
Theorem footer_pass_and_save (P : Platform) (options invoice : JsVal) (doc : Doc) :
  renderInvoice P options invoice = Ok doc ->
  ∃ content file,
    fileName invoice = Ok file
    ∧ doc = (content
             ++ footer P (numberOfPages P (tableStartOf P invoice) (tableRowsOf doc))
             ++ [Save file])%list
    ∧ pagesOf content = []
    ∧ savesOf content = []
    ∧ pagesOf doc = seq 1 (numberOfPages P (tableStartOf P invoice) (tableRowsOf doc))
    ∧ savesOf doc = [file]
    ∧ length (tableStartsOf doc) = 1%nat
    ∧ (length (imagesOf doc) <= 1)%nat.
Proof.
  intros (logoOps & companyOps & boxOps & totalOps & items & looked & rows & file
          & Hlogo & Hcompany & _ & Hboxes & _ & Htotals & _
          & _ & _ & Hfile & ->)%renderInvoice_anatomy.
  apply logo_cases_weaken in Hlogo.
  destruct (shape_observations P logoOps companyOps boxOps totalOps
              (tableStartOf P invoice) rows
              (numberOfPages P (tableStartOf P invoice) rows) file
              Hlogo Hcompany Hboxes Htotals)
    as (_ & Hpages & Hsaves & Hpages' & Hsaves' & Hstarts & Hrows & Himages).
  cbv zeta in Hpages, Hsaves, Hpages', Hsaves', Hstarts, Hrows, Himages.
  exists (bandOps P ++ logoOps ++ companyOps ++ titleOps P ++ boxOps
          ++ AutoTable (tableStartOf P invoice) tableHead rows marginX marginX
             :: totalOps)%list, file.
  rewrite Hrows, Hpages', Hsaves', Hstarts, Himages.
  split; [exact Hfile|]. split; [reflexivity|].
  split; [exact Hpages|]. split; [exact Hsaves|].
  split; [reflexivity|]. split; [reflexivity|]. split; [reflexivity|].
  by apply logo_observations in Hlogo as (_ & _ & _ & _ & _ & Hlen).
Qed.

(** X2, on the sample invoice in a browser where the document has two
    pages. *)
Lemma footer_pass_and_save_sample :
  ∃ doc,
    renderInvoice Sample.narrow VUndef Sample.invoice = Ok doc
    ∧ pagesOf doc = [1; 2]%nat
    ∧ savesOf doc = ["inv-2024-07.pdf"]
    ∧ last doc = Some (Save "inv-2024-07.pdf").
Proof.
  assert (Hdoc : ∃ doc, renderInvoice Sample.narrow VUndef Sample.invoice = Ok doc)
    by (eexists; vm_compute; reflexivity).
  destruct Hdoc as (doc & Hdoc). exists doc. split; [exact Hdoc|].
  destruct (footer_pass_and_save Sample.narrow VUndef Sample.invoice doc Hdoc)
    as (content & file & Hfile & Heq & _ & _ & Hpages & Hsaves & _).
  vm_compute in Hfile. apply Ok_inj in Hfile. subst file.
  rewrite Hpages, Hsaves.
  split; [|split; [reflexivity|]].
  - clear Heq Hpages Hsaves. vm_compute in Hdoc. apply Ok_inj in Hdoc. subst doc.
    vm_compute. reflexivity.
  - rewrite Heq, app_assoc. apply last_snoc.
Defined.

(** ** The start of the items table *)

(** X3 -- The items table of a rendered document starts 12 below the
    higher of the two section boxes, where the values of the left box are
    wrapped as Times 10 text and those of the right box as Times 9.2 text
    (the font each box finds when it starts measuring); the logo and the
    company of the options never move it. *)
Theorem table_start_closed_form (P : Platform) (options invoice : JsVal) (doc : Doc) :
  renderInvoice P options invoice = Ok doc ->
  tableStartsOf doc
  = [(contentTop
      + JsNumber.max
          (spec_boxHeight
             (lineCounts P (timesNormal 10) (halfWidth P) (leftRows P invoice)))
          (spec_boxHeight
             (lineCounts P (timesNormal 9.2) (halfWidth P) (rightRows invoice)))
      + 12)%float]
  ∧ ∀ options' doc',
      renderInvoice P options' invoice = Ok doc' -> tableStartsOf doc' = tableStartsOf doc.
Proof.
  assert (Hstart : ∀ options doc,
             renderInvoice P options invoice = Ok doc ->
             tableStartsOf doc = [tableStartOf P invoice]).
  { clear options doc. intros options doc.
    intros (logoOps & companyOps & boxOps & totalOps & items & looked & rows & file
            & Hlogo & Hcompany & _ & Hboxes & _ & Htotals & _
            & _ & _ & _ & ->)%renderInvoice_anatomy.
    apply logo_cases_weaken in Hlogo.
    by destruct (shape_observations P logoOps companyOps boxOps totalOps
                   (tableStartOf P invoice) rows
                   (numberOfPages P (tableStartOf P invoice) rows) file
                   Hlogo Hcompany Hboxes Htotals)
      as (_ & _ & _ & _ & _ & Hstarts & _). }
  intros Hdoc. split; [exact (Hstart options doc Hdoc)|].
  intros options' doc' Hdoc'. by rewrite (Hstart options doc Hdoc), (Hstart options' doc' Hdoc').
Qed.

(** X3, on an invoice whose status and client name have two words, on a
    page where Times 10 text takes a line per word and Times 9.2 text does
    not: the status fills two lines of the left box, the name one line of
    the right box, and the table starts at 36 + 40.2 + 12. *)
Lemma table_start_closed_form_sample :
  ∃ doc,
    renderInvoice Sample.narrow VUndef Sample.statusInvoice = Ok doc
    ∧ lineCounts Sample.narrow (timesNormal 10) (halfWidth Sample.narrow)
        (leftRows Sample.narrow Sample.statusInvoice) = [1; 1; 2]%nat
    ∧ lineCounts Sample.narrow (timesNormal 9.2) (halfWidth Sample.narrow)
        (rightRows Sample.statusInvoice) = [1]%nat
    ∧ tableStartsOf doc = [88.2%float].
Proof.
  assert (Hdoc : ∃ doc, renderInvoice Sample.narrow VUndef Sample.statusInvoice = Ok doc)
    by (eexists; vm_compute; reflexivity).
  destruct Hdoc as (doc & Hdoc). exists doc. split; [exact Hdoc|].
  split; [vm_compute; reflexivity|]. split; [vm_compute; reflexivity|].
  rewrite (proj1 (table_start_closed_form Sample.narrow VUndef Sample.statusInvoice
                    doc Hdoc)).
  vm_compute. reflexivity.
Defined.

(** ** Section boxes and the company block *)

(** X4 -- A section box adds only calls that set a colour, a line width or
    a font or draw a shape or a text.  Its texts are the title, then for
    every row the label followed by the lines of [String(value ?? "").trim()
    || "-"], wrapped to the width of the box less the two paddings of 4 and
    the label width 24, in the font that was in force before the box; a box
    with a row leaves the font at Times 9.2. *)
Theorem section_box_calls (P : Platform) (doc : Doc) (x y w : float) (title : string)
    (rows : list KeyValueRow) :
  ∃ ops,
    (drawSectionBox P doc x y w title rows).2 = emit doc ops
    ∧ forallb basic ops = true
    ∧ textsOf ops
      = title :: flat_map (fun r : KeyValueRow =>
                             r.1 :: splitTextToSize P (currentFont doc)
                                      (displayValue P r.2) (w - 4 * 2 - 24)%float) rows
    ∧ (rows ≠ [] ->
       currentFont (drawSectionBox P doc x y w title rows).2 = timesNormal 9.2).
Proof.
  destruct (drawSectionBox_emits P doc x y w title rows)
    as (ops & Hops & Hbasic & Htexts & Hfont).
  exists ops. split; [exact Hops|]. split; [exact Hbasic|]. split.
  - exact Htexts.
  - intros Hrows. rewrite Hops, currentFont_emit. by apply Hfont.
Qed.

(** X5 -- The company block adds only basic calls, and nothing at all when
    the company has no name, e-mail address, phone number or address.  Of
    each of these four fields it writes the first two lines and drops the
    rest, so it never writes more than eight lines: the name wrapped as
    Helvetica bold 9.6 text, the e-mail address, the phone numbers joined
    by " / " and the addresses joined by a middle dot as Helvetica 8.2
    text, blank phone numbers and addresses left out. *)
Theorem company_block_lines (P : Platform) (doc doc' : Doc) (margin : float)
    (company : JsVal) :
  drawCompany P doc margin company = Ok doc' ->
  ∃ ops,
    doc' = emit doc ops
    ∧ forallb basic ops = true
    ∧ (length (textsOf ops) <= 8)%nat
    ∧ (companyPresent P company = false -> ops = [])
    ∧ (companyPresent P company = true ->
       ∃ phoneNumbers addrs,
         asArray (nullish (prop company "phoneNumbers") (VArr [])) = Ok phoneNumbers
         ∧ asArray (nullish (prop company "addresses") (VArr [])) = Ok addrs
         ∧ textsOf ops
           = companyTexts P margin company
               (trimmedEntries P phoneNumbers) (trimmedEntries P addrs)).
Proof.
  intros [[Hpresent ->]|(phones & addrs & ops & Hpresent & Hphones & Haddrs & -> & Hbasic
                         & Htexts)]%drawCompany_emits.
  - exists []. rewrite emit_nil, Hpresent. repeat split; [cbn; lia | discriminate].
  - exists ops. rewrite Hpresent, Htexts.
    split; [reflexivity|]. split; [exact Hbasic|].
    split; [apply companyTexts_length|]. split; [discriminate|].
    intros _. by exists phones, addrs.
Qed.

(** X5, for a company whose name takes four lines: two are written. *)
Lemma company_block_lines_sample :
  ∃ doc' ops,
    drawCompany Sample.narrow [] marginX Sample.longCompany = Ok doc'
    ∧ doc' = emit [] ops
    ∧ splitTextToSize Sample.narrow
        {| font_family := "helvetica"; font_style := "bold"; font_size := 9.6 |}
        "Acme Tools Of Tunis" 70
      = ["Acme"; "Tools"; "Of"; "Tunis"]
    ∧ textsOf ops
      = ["Acme"; "Tools"; JsString.join middleDotSep ["1 Main Street"; "Sfax"]].
Proof.
  assert (Hdoc : ∃ doc', drawCompany Sample.narrow [] marginX Sample.longCompany = Ok doc')
    by (eexists; vm_compute; reflexivity).
  destruct Hdoc as (doc' & Hdoc).
  destruct (company_block_lines Sample.narrow [] doc' marginX Sample.longCompany Hdoc)
    as (ops & Hops & _ & _ & _ & Htexts).
  exists doc', ops. split; [exact Hdoc|]. split; [exact Hops|].
  split; [vm_compute; reflexivity|].
  destruct Htexts as (phones & addrs & Hphones & Haddrs & ->); [vm_compute; reflexivity|].
  vm_compute in Hphones, Haddrs. apply Ok_inj in Hphones, Haddrs. subst phones addrs.
  vm_compute. reflexivity.
Defined.

(** ** The totals area *)

(** X6 -- The totals area follows the items table with basic calls and six
    texts: the three labels, each followed by its amount.  A subtotal or a
    tax amount that is not a number prints as "0.00 Dt", also when it is a
    numeric string, whereas the total amount is converted with [Number]: a
    numeric string prints as its value, and a missing one as "0.00 Dt". *)
Theorem totals_area (P : Platform) (doc : Doc) (startY : float)
    (rows : list (list Cell)) (invoice : JsVal) :
  ∃ ops sub tax total,
    drawTableAndTotals P doc startY rows invoice
    = emit doc (AutoTable startY tableHead rows marginX marginX :: ops)
    ∧ forallb basic ops = true
    ∧ textsOf ops = ["Subtotal :"; sub; "Tax :"; tax; "Total :"; total]
    ∧ (∀ x, prop invoice "subtotal" = VNum x -> sub = formatMoneyDt P x)
    ∧ (typeof (prop invoice "subtotal") ≠ "number" -> sub = "0.00 Dt")
    ∧ (∀ x, prop invoice "taxAmount" = VNum x -> tax = formatMoneyDt P x)
    ∧ (typeof (prop invoice "taxAmount") ≠ "number" -> tax = "0.00 Dt")
    ∧ (∀ s, prop invoice "totalAmount" = VStr s ->
            total = formatMoneyDt P (stringToNumber P s))
    ∧ (isNullish (prop invoice "totalAmount") = true -> total = "0.00 Dt").
Proof.
  destruct (drawTableAndTotals_emits P doc startY rows invoice)
    as (ops & Hops & Hbasic & Htexts).
  exists ops. eexists _, _, _. split; [exact Hops|]. split; [exact Hbasic|].
  split; [exact Htexts|].
  split; [by intros x ->|]. split; [by destruct (prop invoice "subtotal")|].
  split; [by intros x ->|]. split; [by destruct (prop invoice "taxAmount")|].
  split; [by intros s ->|].
  intros Hnull. by rewrite (nullish_absent (prop invoice "totalAmount")).
Qed.

(** X6, on an invoice whose subtotal and total amount are the string "30"
    and whose tax amount is [null]. *)
Lemma totals_area_sample :
  ∃ ops,
    drawTableAndTotals Sample.platform [] 93 [] Sample.statusInvoice
    = emit [] (AutoTable 93 tableHead [] marginX marginX :: ops)
    ∧ textsOf ops = ["Subtotal :"; "0.00 Dt"; "Tax :"; "0.00 Dt"; "Total :"; "30.00 Dt"].
Proof.
  destruct (totals_area Sample.platform [] 93 [] Sample.statusInvoice)
    as (ops & sub & tax & total & Hops & _ & Htexts & _ & Hsub & _ & Htax & Htotal & _).
  exists ops. split; [exact Hops|].
  rewrite Htexts, Hsub, Htax, (Htotal "30"); [|reflexivity|by vm_compute|by vm_compute].
  vm_compute. reflexivity.
Defined.

(** ** Records the generator rejects *)

Lemma renderInvoice_rejects (P : Platform) (options invoice : JsVal) :
  isNullish invoice = true
  ∨ (∃ items item,
       prop invoice "items" = VArr items ∧ item ∈ items ∧ isNullish item = true)
  ∨ (isNullish (prop invoice "items") = false ∧ ∀ l, prop invoice "items" ≠ VArr l)
  ∨ (ToBoolean (prop invoice "invoiceNumber") = true
     ∧ typeof (prop invoice "invoiceNumber") ≠ "string") ->
  ∃ e, renderInvoice P options invoice = Throw e.
Proof.
  intros Hbad.
  destruct (renderInvoice P options invoice) as [doc|e] eqn:H; [exfalso|by exists e].
  destruct Hbad as [Hnull|[(items & item & Hitems & Hin & Hnull)|[[Hsome Hnot]|[Htrue Htype]]]].
  - unfold renderInvoice in H. inv_bind H as header _.
    unfold getProp in H. rewrite Hnull in H. discriminate H.
  - apply renderInvoice_anatomy
      in H as (_ & _ & _ & _ & items' & looked & rows & _ & _ & _ & _ & _ & _ & _ & _
               & Harray & Hbody & _).
    rewrite Hitems in Harray. apply Ok_inj in Harray as <-.
    apply tableBody_Ok_objects in Hbody.
    rewrite Forall_forall in Hbody. specialize (Hbody item Hin). congruence.
  - apply renderInvoice_anatomy
      in H as (_ & _ & _ & _ & items' & _ & _ & _ & _ & _ & _ & _ & _ & _ & _
               & Harray & _).
    unfold nullish in Harray. rewrite Hsome in Harray.
    destruct (prop invoice "items"); try discriminate Harray. by eapply Hnot.
  - apply renderInvoice_anatomy
      in H as (_ & _ & _ & _ & _ & _ & _ & file & _ & _ & _ & _ & _ & _ & _
               & _ & _ & Hfile & _).
    unfold fileName, orVal, nullish in Hfile.
    destruct (prop invoice "invoiceNumber"); try discriminate Htrue;
      cbn [isNullish] in Hfile; rewrite ?Htrue in Hfile; try discriminate Hfile.
    by apply Htype.
Qed.

(** X7 -- In a browser, the call [generateInvoicePDF(invoice, options?)]
    throws, and so saves no file, when the invoice is [null] or
    [undefined], when one of its items is [null] or [undefined], when its
    [items] is neither missing nor an array, and when its invoice number
    is a truthy value that is not a string, such as the number 7. *)
Theorem generator_rejects (P : Platform) (arg1 arg2 arg3 : JsVal) :
  hasWindow P = true ->
  isTruthyObject arg2 = false ->
  isNullish arg1 = true
  ∨ (∃ items item,
       prop arg1 "items" = VArr items ∧ item ∈ items ∧ isNullish item = true)
  ∨ (isNullish (prop arg1 "items") = false ∧ ∀ l, prop arg1 "items" ≠ VArr l)
  ∨ (ToBoolean (prop arg1 "invoiceNumber") = true
     ∧ typeof (prop arg1 "invoiceNumber") ≠ "string") ->
  ∃ e, generateInvoicePDF P arg1 arg2 arg3 = Throw e.
Proof.
  intros Hwindow Hshape Hbad. unfold generateInvoicePDF.
  rewrite Hwindow, Hshape. cbn [negb].
  destruct (renderInvoice_rejects P (resolveOptions arg2) arg1 Hbad) as (e & He).
  exists e. change (Ok arg1 ≫= _) with
    (renderInvoice P (resolveOptions arg2) arg1 ≫= fun doc => Ok (Some doc)).
  by rewrite He.
Qed.

(** X7, on an invoice numbered with the number 7 and on one whose second
    item is [null]. *)
Lemma generator_rejects_sample :
  generateInvoicePDF Sample.platform Sample.numberedInvoice VUndef VUndef = Throw TypeError
  ∧ generateInvoicePDF Sample.platform Sample.holedInvoice VUndef VUndef = Throw TypeError.
Proof.
  split.
  - destruct (generator_rejects Sample.platform Sample.numberedInvoice VUndef VUndef)
      as (e & He); [reflexivity|reflexivity| |].
    + right. right. right. split; [by vm_compute|]. vm_compute. discriminate.
    + rewrite He. vm_compute in He. symmetry. exact He.
  - destruct (generator_rejects Sample.platform Sample.holedInvoice VUndef VUndef)
      as (e & He); [reflexivity|reflexivity| |].
    + right. left. exists [Sample.itemCatalog; VNull], VNull.
      split; [reflexivity|]. split; [|reflexivity].
      apply elem_of_cons. right. apply elem_of_cons. by left.
    + rewrite He. vm_compute in He. symmetry. exact He.
Defined.

(** ** The legacy call *)

Lemma getProp_Ok_inv (v x : JsVal) (p : string) :
  getProp v p = Ok x -> isNullish v = false ∧ x = prop v p.
Proof. unfold getProp. destruct (isNullish v); [discriminate|]. by intros [= <-]. Qed.

Lemma normalizeItem_Ok_inv (P : Platform) (item normalized : JsVal) :
  normalizeItem P item = Ok normalized ->
  isNullish item = false ∧ normalized = normalizedItem P item.
Proof.
  unfold normalizeItem, getProp. destruct (isNullish item); [discriminate|].
  rewrite !bind_Ok. by intros [= <-].
Qed.

Lemma mapR_normalizeItem (P : Platform) (items normalized : list JsVal) :
  mapR (normalizeItem P) items = Ok normalized ->
  Forall (fun item => isNullish item = false) items
  ∧ normalized = map (normalizedItem P) items.
Proof.
  revert normalized. induction items as [|item items IH]; intros normalized H.
  - cbn in H. apply Ok_inj in H as <-. by split.
  - cbn [mapR] in H. inv_bind H as n Hn. inv_bind H as ns Hns.
    apply Ok_inj in H as <-.
    apply normalizeItem_Ok_inv in Hn as [Hobj ->].
    destruct (IH ns Hns) as [Hall ->]. split; [by constructor | reflexivity].
Qed.

Lemma normalizeClientOrder_Ok_inv (P : Platform) (client order invoice : JsVal) :
  normalizeClientOrder P client order = Ok invoice ->
  ∃ items,
    asArray (nullish (prop order "items") (VArr [])) = Ok items
    ∧ Forall (fun item => isNullish item = false) items
    ∧ invoice = normalizedInvoice P client order items.
Proof.
  unfold normalizeClientOrder. intros H.
  inv_bind H as orderNumber HorderNumber.
  apply getProp_Ok_inv in HorderNumber as [Horder ->].
  inv_bind H as createdAt HcreatedAt. apply getProp_Ok_inv in HcreatedAt as [_ ->].
  inv_bind H as cin Hcin. apply getProp_Ok_inv in Hcin as [Hclient ->]. cbv beta in H.
  rewrite !(getProp_object _ _ Hclient), !(getProp_object _ _ Horder), !bind_Ok in H.
  inv_bind H as itemList Hitems.
  inv_bind H as normalized Hnormalized. cbv beta in H.
  rewrite !bind_Ok in H.
  apply Ok_inj in H as <-.
  apply mapR_normalizeItem in Hnormalized as [Hall ->].
  by exists itemList.
Qed.

Lemma legacy_rowCells (P : Platform) (items : list JsVal) (item : JsVal) :
  hasWindow P = true ->
  item ∈ items ->
  rowCells P
    (references (loadProductReferenceMap P
                   (unresolvedOf P (map (normalizedItem P) items))))
    (normalizedItem P item)
  = legacyRow P item.
Proof.
  intros Hwindow Hin. unfold rowCells, legacyRow. cbv zeta. f_equal.
  change (inlineRefOf P (normalizedItem P item)) with (JsString.trim "").
  change (productIdentifier P (normalizedItem P item)) with (productIdentifier P item).
  unfold referenceCell, legacyReference. cbv zeta.
  change (nonEmpty (JsString.trim "")) with false. cbv iota.
  destruct (nonEmpty (productIdentifier P item)) eqn:Hid; [|reflexivity].
  unfold readTable. rewrite references_lookup.
  destruct (importFirestore P) eqn:Hstore.
  - rewrite bool_decide_eq_true_2; [reflexivity|].
    apply lookups_issued; [exact Hwindow | exact Hstore | | exact Hid].
    apply elem_of_unresolvedOf. split; [exact Hid|].
    exists (normalizedItem P item). split; [|by split].
    apply list_elem_of_fmap. by exists item.
  - rewrite bool_decide_eq_false_2.
    + by destruct (inheritedKey (productIdentifier P item)).
    + unfold loadProductReferenceMap. rewrite Hwindow, Hstore. cbn [negb].
      destruct (unique _); cbn [lookups]; apply not_elem_of_nil.
Qed.

(** X8 -- The items table of a legacy [(client, order)] call has one row
    per order item, made of the item's own fields, in order.  The reference
    is never the item's [reference] field.  When the catalog can be
    reached it is the catalog's reference for the item's [productId] (or
    [id]), or that identifier when the catalog's reference is empty.  When
    the catalog module cannot be loaded it is that identifier, unless the
    identifier names a member of [Object.prototype] (such as
    "constructor"): the reference table is then the empty object, and the
    cell is the inherited member.  An item with no identifier gets the
    dash.  Then come the description, the quantity, the unit price and
    [Number(totalPrice ?? 0)] as the line total. *)
Theorem legacy_rows (P : Platform) (client order arg3 : JsVal) (doc : Doc) :
  isTruthyObject order = true ->
  generateInvoicePDF P client order arg3 = Ok (Some doc) ->
  ∃ items,
    asArray (nullish (prop order "items") (VArr [])) = Ok items
    ∧ tableRowsOf doc = map (legacyRow P) items.
Proof.
  intros Horder H. rewrite generateInvoicePDF_dispatch, Horder in H.
  unfold clientOrderCall in H.
  destruct (hasWindow P) eqn:Hwindow; cbn [negb] in H; [|discriminate H].
  inv_bind H as invoice Hnorm. inv_bind H as doc' Hdoc.
  apply Ok_inj in H. injection H as ->.
  apply normalizeClientOrder_Ok_inv in Hnorm as (items & Hitems & Hall & ->).
  exists items. split; [exact Hitems|].
  apply renderInvoice_rows in Hdoc as (items' & looked & Hitems' & Hbody).
  change (asArray (nullish (prop (normalizedInvoice P client order items) "items")
                     (VArr [])))
    with (Ok (map (normalizedItem P) items)) in Hitems'.
  apply Ok_inj in Hitems' as <-.
  rewrite tableBody_objects in Hbody.
  2: { apply Forall_forall. by intros n (item & -> & _)%list_elem_of_fmap. }
  apply Ok_inj in Hbody. injection Hbody as _ <-.
  rewrite map_map. apply map_ext_in. intros item Hin%list_elem_of_In.
  by apply legacy_rowCells.
Qed.

(** X8, on an order with three items: the inline reference "R1" of the
    first is not printed, its catalog reference is; and, when the catalog
    module cannot be loaded, on an order whose item has the product
    identifier "constructor". *)
Lemma legacy_rows_sample :
  (∃ doc,
     generateInvoicePDF Sample.platform Sample.client Sample.legacyOrder VUndef
     = Ok (Some doc)
     ∧ inlineRefOf Sample.platform Sample.itemInline = "R1"
     ∧ tableRowsOf doc
       = [textRow ["REF-P1"; "Cable"; "1"; "5.00 Dt"; "5.00 Dt"];
          textRow ["P2"; "Bolt"; "2"; "4.00 Dt"; "8.00 Dt"];
          textRow ["-"; "Service"; "1"; "7.00 Dt"; "0.00 Dt"]])
  ∧ (∃ doc,
       generateInvoicePDF Sample.offline Sample.client Sample.offlineOrder VUndef
       = Ok (Some doc)
       ∧ tableRowsOf doc
         = [[CellMember "constructor"; CellText "Kit"; CellText "1";
             CellText "2.00 Dt"; CellText "2.00 Dt"];
            textRow ["P1"; "Widget"; "3"; "10.00 Dt"; "0.00 Dt"]]).
Proof.
  split.
  - assert (Hdoc : ∃ doc, generateInvoicePDF Sample.platform Sample.client
                            Sample.legacyOrder VUndef = Ok (Some doc))
      by (eexists; vm_compute; reflexivity).
    destruct Hdoc as (doc & Hdoc). exists doc. split; [exact Hdoc|].
    split; [vm_compute; reflexivity|].
    destruct (legacy_rows Sample.platform Sample.client Sample.legacyOrder VUndef doc)
      as (items & Hitems & ->); [reflexivity | exact Hdoc |].
    vm_compute in Hitems. apply Ok_inj in Hitems. subst items.
    vm_compute. reflexivity.
  - assert (Hdoc : ∃ doc, generateInvoicePDF Sample.offline Sample.client
                            Sample.offlineOrder VUndef = Ok (Some doc))
      by (eexists; vm_compute; reflexivity).
    destruct Hdoc as (doc & Hdoc). exists doc. split; [exact Hdoc|].
    destruct (legacy_rows Sample.offline Sample.client Sample.offlineOrder VUndef doc)
      as (items & Hitems & ->); [reflexivity | exact Hdoc |].
    vm_compute in Hitems. apply Ok_inj in Hitems. subst items.
    vm_compute. reflexivity.
Defined.

(** X9 -- The section boxes of a legacy [(client, order)] call.  The box
    "Invoice Details" has exactly two rows: the order number (the dash when
    it is missing or empty) and the issue date, which is the order's
    creation date when it is a valid date and the current date otherwise;
    a due date or a status of the order is never shown.  The box "Bill To"
    shows the client's name, then the client's [cin], e-mail address, phone
    and [location], each only when it is truthy. *)
Theorem legacy_boxes (P : Platform) (client order invoice : JsVal) :
  normalizeClientOrder P client order = Ok invoice ->
  leftRows P invoice
  = [("Invoice :", orVal (nullish (prop order "orderNumber") (VStr "")) (VStr "-"));
     ("Issue :",
      VStr (toLocaleDateString P
              (default (now P) (toDateSafe P (prop order "createdAt")))))]
  ∧ rightRows invoice
    = ([("Name :", nullish (prop client "name") (VStr "-"))]
       ++ optionalRow "CIN :" (prop client "cin")
       ++ optionalRow "Email :" (prop client "email")
       ++ optionalRow "Phone :" (prop client "phone")
       ++ optionalRow "Addr :" (prop client "location"))%list.
Proof.
  intros (items & _ & _ & ->)%normalizeClientOrder_Ok_inv. split; reflexivity.
Qed.

(** X9, on an order that has a due date and a status. *)
Lemma legacy_boxes_sample :
  ∃ invoice,
    normalizeClientOrder Sample.platform Sample.client Sample.legacyOrder = Ok invoice
    ∧ ToBoolean (prop Sample.legacyOrder "status") = true
    ∧ map fst (leftRows Sample.platform invoice) = ["Invoice :"; "Issue :"]
    ∧ map fst (rightRows invoice) = ["Name :"; "CIN :"; "Email :"; "Phone :"; "Addr :"].
Proof.
  assert (Hnorm : ∃ invoice, normalizeClientOrder Sample.platform Sample.client
                               Sample.legacyOrder = Ok invoice)
    by (eexists; vm_compute; reflexivity).
  destruct Hnorm as (invoice & Hnorm). exists invoice. split; [exact Hnorm|].
  split; [reflexivity|].
  destruct (legacy_boxes Sample.platform Sample.client Sample.legacyOrder invoice Hnorm)
    as [-> ->].
  split; vm_compute; reflexivity.
Defined.

(** ** The settings page and the stored company profile *)

Lemma trimEnd_idem (s : string) : JsString.trimEnd (JsString.trimEnd s) = JsString.trimEnd s.
Proof.
  induction s as [|c r IH]; [reflexivity|]. cbn [JsString.trimEnd]. cbv zeta.
  destruct (JsString.isWhiteSpace c && JsString.isEmpty (JsString.trimEnd r)) eqn:Hc;
    [reflexivity|].
  cbn [JsString.trimEnd]. cbv zeta. by rewrite IH, Hc.
Qed.

Lemma trimStart_head (s : string) :
  JsString.trimStart s = ""
  ∨ ∃ c r, JsString.trimStart s = String c r ∧ JsString.isWhiteSpace c = false.
Proof.
  induction s as [|c r IH]; [by left|]. cbn [JsString.trimStart].
  destruct (JsString.isWhiteSpace c) eqn:Hc; [exact IH|]. right. by exists c, r.
Qed.

Lemma trim_idem (s : string) : JsString.trim (JsString.trim s) = JsString.trim s.
Proof.
  unfold JsString.trim.
  destruct (trimStart_head s) as [->|(c & r & -> & Hc)]; [reflexivity|].
  cbn [JsString.trimEnd]. cbv zeta. rewrite Hc. cbn [andb JsString.trimStart].
  rewrite Hc. cbn [JsString.trimEnd]. cbv zeta. by rewrite Hc, trimEnd_idem.
Qed.

Lemma trimmedEntries_saved (P : Platform) (l : list string) :
  trimmedEntries P (map VStr (Settings.trimmedStrings l)) = Settings.trimmedStrings l.
Proof.
  unfold trimmedEntries, Settings.trimmedStrings.
  induction l as [|s l IH]; [reflexivity|]. cbn [map List.filter].
  destruct (nonEmpty (JsString.trim s)) eqn:Hs; [|exact IH].
  cbn [map List.filter].
  change (trimmed P (VStr (JsString.trim s))) with (JsString.trim (JsString.trim s)).
  by rewrite trim_idem, Hs, IH.
Qed.

(** X10 -- What the settings page saves is what the generator loads.
    After [handleConfirmSave] has stored the profile of a form, the company
    the generator reads from local storage has the trimmed name and e-mail
    address of the form and its phone numbers and addresses, trimmed and
    without the blank ones (no list rather than an empty one); the
    description and the lock are not part of it.  A form with nothing but
    blanks gives no company at all.  [JSON.parse] is assumed to invert
    [JSON.stringify] on the saved object. *)
Theorem settings_round_trip (stringify : JsVal -> string) (P : Platform)
    (form : Settings.Form) :
  hasWindow P = true ->
  JsString.isEmpty (stringify (Settings.profileOf form)) = false ->
  jsonParse P (stringify (Settings.profileOf form)) = Ok (Settings.profileOf form) ->
  let name := JsString.trim (Settings.companyName form) in
  let email := JsString.trim (Settings.companyEmail form) in
  let phones := Settings.trimmedStrings (Settings.phoneNumbers form) in
  let addrs := Settings.trimmedStrings (Settings.addresses form) in
  loadCompanyProfileFromStorage (Settings.handleConfirmSave stringify true P form).1
  = if nonEmpty name || nonEmpty email || hasLength (Some phones) || hasLength (Some addrs)
    then Some {| company_name := Some name;
                 company_email := Some email;
                 company_phoneNumbers := if hasLength (Some phones) then Some phones else None;
                 company_addresses := if hasLength (Some addrs) then Some addrs else None |}
    else None.
Proof.
  intros Hwindow Hraw Hparse name email phones addrs.
  rewrite loadCompanyProfileFromStorage_cases.
  unfold Settings.handleConfirmSave. rewrite Hwindow. cbn [andb fst].
  cbn [hasWindow localStorage_getItem jsonParse Settings.setItem String.eqb Ascii.eqb
       Bool.eqb andb].
  rewrite Hwindow, Hraw, Hparse. cbn [isNullish Settings.profileOf].
  unfold profileHasContent, companyFromParsed. cbv zeta.
  change (prop (Settings.profileOf form) "name") with (VStr name).
  change (prop (Settings.profileOf form) "email") with (VStr email).
  change (prop (Settings.profileOf form) "phoneNumbers") with (VArr (map VStr phones)).
  change (prop (Settings.profileOf form) "addresses") with (VArr (map VStr addrs)).
  cbn [isText hasEntries].
  rewrite <- !hasLength_trimmedEntries. subst phones addrs.
  rewrite !trimmedEntries_saved. subst name email. rewrite !trim_idem.
  by destruct (Settings.trimmedStrings (Settings.phoneNumbers form)),
    (Settings.trimmedStrings (Settings.addresses form)).
Qed.

(** X10, on a form with a padded name, no e-mail address, one padded and
    one blank phone number, and one blank address. *)
Lemma settings_round_trip_sample :
  Sample.toJson (Settings.profileOf Sample.form)
  = "{" ++ Sample.quote ++ "name" ++ Sample.quote ++ ":" ++ Sample.quote ++ "Acme"
    ++ Sample.quote ++ "," ++ Sample.quote ++ "email" ++ Sample.quote ++ ":"
    ++ Sample.quote ++ Sample.quote ++ "," ++ Sample.quote ++ "phoneNumbers"
    ++ Sample.quote ++ ":[" ++ Sample.quote ++ "71000000" ++ Sample.quote ++ "],"
    ++ Sample.quote ++ "addresses" ++ Sample.quote ++ ":[]," ++ Sample.quote
    ++ "description" ++ Sample.quote ++ ":" ++ Sample.quote ++ "Tools" ++ Sample.quote
    ++ "," ++ Sample.quote ++ "locked" ++ Sample.quote ++ ":true}"
  ∧ loadCompanyProfileFromStorage
      (Settings.handleConfirmSave Sample.toJson true Sample.jsonBrowser Sample.form).1
    = Some {| company_name := Some "Acme";
              company_email := Some "";
              company_phoneNumbers := Some ["71000000"];
              company_addresses := None |}.
Proof.
  split; [vm_compute; reflexivity|].
  rewrite (settings_round_trip Sample.toJson Sample.jsonBrowser Sample.form);
    [|reflexivity | vm_compute; reflexivity | vm_compute; reflexivity].
  vm_compute. reflexivity.
Defined.

(** X11 -- After [handleReset] has removed the stored profile, the
    generator finds no company in local storage, and the header of a
    document made without a company in the options has no company line;
    the form is back to its initial state. *)
Theorem settings_reset_clears_company (P : Platform) :
  loadCompanyProfileFromStorage (Settings.handleReset true P).1 = None
  ∧ (∀ options,
       isNullish (optProp options "company") = true ->
       companyLinesOf (Settings.handleReset true P).1
         (companyOf (Settings.handleReset true P).1 options) = [])
  ∧ (Settings.handleReset true P).2 = Settings.initialForm.
Proof.
  assert (Hnone : loadCompanyProfileFromStorage (Settings.handleReset true P).1 = None).
  { rewrite loadCompanyProfileFromStorage_cases. unfold Settings.handleReset.
    destruct (hasWindow P) eqn:Hwindow; cbn [andb fst]; [|by rewrite Hwindow].
    cbn [hasWindow Settings.removeItem]. by rewrite Hwindow. }
  split; [exact Hnone|]. split; [|reflexivity].
  intros options Hcompany. unfold companyOf.
  by rewrite (nullish_absent _ _ Hcompany), Hnone.
Qed.

(** ** Phone numbers of the settings page *)

Lemma digitsOnly_digits (value : string) :
  allChars isDecimalDigit (Settings.digitsOnly value) = true.
Proof.
  induction value as [|c r IH]; [reflexivity|]. cbn [Settings.digitsOnly].
  destruct (isDecimalDigit c) eqn:Hc; [|exact IH]. cbn [allChars]. by rewrite Hc, IH.
Qed.

Lemma digitsOnly_fixed (s : string) :
  allChars isDecimalDigit s = true -> Settings.digitsOnly s = s.
Proof.
  induction s as [|c r IH]; [reflexivity|]. cbn [allChars Settings.digitsOnly].
  intros [Hc Hr]%andb_true_iff. by rewrite Hc, IH.
Qed.

Lemma digit_not_space (c : ascii) :
  isDecimalDigit c = true -> JsString.isWhiteSpace c = false.
Proof. destruct c as [[] [] [] [] [] [] [] []]; vm_compute; congruence. Qed.

Lemma trimEnd_digits (s : string) :
  allChars isDecimalDigit s = true -> JsString.trimEnd s = s.
Proof.
  induction s as [|c r IH]; [reflexivity|]. cbn [allChars JsString.trimEnd]. cbv zeta.
  intros [Hc Hr]%andb_true_iff. by rewrite (digit_not_space c Hc), (IH Hr).
Qed.

Lemma trim_digits (s : string) :
  allChars isDecimalDigit s = true -> JsString.trim s = s.
Proof.
  intros Hs. unfold JsString.trim.
  destruct s as [|c r]; [reflexivity|]. cbn [JsString.trimStart].
  pose proof Hs as [Hc _]%andb_true_iff. rewrite (digit_not_space c Hc).
  by apply trimEnd_digits.
Qed.

Lemma firstShort_None (phones : list string) :
  Settings.firstShort phones = None <-> Forall (fun p => 8 <= String.length p) phones.
Proof.
  induction phones as [|p phones IH]; [by split|]. cbn [Settings.firstShort].
  destruct (Nat.ltb_spec (String.length p) 8) as [Hshort|Hlong].
  - split; [discriminate|]. intros [Hp _]%Forall_cons. lia.
  - rewrite IH. split; [by constructor | by intros [_ H]%Forall_cons].
Qed.

(** X12 -- Phone numbers of the settings page.  The validation passes
    exactly when every phone number that is not blank has at least 8
    characters, counted before trimming.  What [updatePhoneNumber] stores,
    the digits of what was typed, has only digits and is not changed by
    storing it again; and when every phone number of a form that passes
    the validation was stored this way, the phone numbers that are saved
    are phone numbers of the form, unchanged, each of at least 8 digits. *)
Theorem phone_validation (form : Settings.Form) :
  (Settings.validatePhoneNumbers form = None
   <-> ∀ p, p ∈ Settings.phoneNumbers form ->
            nonEmpty (JsString.trim p) = true -> 8 <= String.length p)
  ∧ (∀ value, allChars isDecimalDigit (Settings.digitsOnly value) = true
              ∧ Settings.digitsOnly (Settings.digitsOnly value)
                = Settings.digitsOnly value)
  ∧ ((∀ p, p ∈ Settings.phoneNumbers form -> ∃ value, p = Settings.digitsOnly value) ->
     Settings.validatePhoneNumbers form = None ->
     ∀ p, p ∈ Settings.trimmedStrings (Settings.phoneNumbers form) ->
          p ∈ Settings.phoneNumbers form
          ∧ 8 <= String.length p
          ∧ allChars isDecimalDigit p = true).
Proof.
  assert (Hvalid : Settings.validatePhoneNumbers form = None
                   <-> ∀ p, p ∈ Settings.phoneNumbers form ->
                            nonEmpty (JsString.trim p) = true -> 8 <= String.length p).
  { unfold Settings.validatePhoneNumbers. cbv zeta.
    rewrite firstShort_None, Forall_forall. split.
    - intros H p Hin Hp. apply H. apply list_elem_of_In, filter_In.
      split; [by apply list_elem_of_In | exact Hp].
    - intros H p [Hin Hp]%list_elem_of_In%filter_In. apply H; [|exact Hp].
      by apply list_elem_of_In. }
  split; [exact Hvalid|]. split.
  - intros value. split; [apply digitsOnly_digits|].
    apply digitsOnly_fixed, digitsOnly_digits.
  - intros Hdigits Hok p Hin.
    unfold Settings.trimmedStrings in Hin.
    apply list_elem_of_In, filter_In in Hin as [Hin Hp].
    apply in_map_iff in Hin as (raw & <- & Hraw%list_elem_of_In).
    destruct (Hdigits raw Hraw) as (value & ->).
    rewrite (trim_digits _ (digitsOnly_digits value)) in Hp |- *.
    split; [exact Hraw|]. split; [|apply digitsOnly_digits].
    apply (proj1 Hvalid Hok _ Hraw).
    by rewrite (trim_digits _ (digitsOnly_digits value)).
Qed.

(** X12, on a form whose phone number was typed as "+216 71 000 000", and
    on a form with the phone number "  1234  ", which passes the validation
    and is saved as "1234". *)
Lemma phone_validation_sample :
  Settings.phoneNumbers Sample.typedForm = ["21671000000"; ""]
  ∧ Settings.validatePhoneNumbers Sample.typedForm = None
  ∧ (∀ p, p ∈ Settings.trimmedStrings (Settings.phoneNumbers Sample.typedForm) ->
          8 <= String.length p)
  ∧ Settings.validatePhoneNumbers Sample.paddedForm = None
  ∧ Settings.trimmedStrings (Settings.phoneNumbers Sample.paddedForm) = ["1234"].
Proof.
  split; [reflexivity|]. split; [reflexivity|]. split; [|split; reflexivity].
  intros p Hin.
  apply (proj2 (proj2 (phone_validation Sample.typedForm))); [|reflexivity|exact Hin].
  intros q [->|[->|Hq]%elem_of_cons]%elem_of_cons.
  - by exists "+216 71 000 000".
  - by exists "".
  - inversion Hq.
Defined.

(** ** The logo *)

Lemma positive_ratio (r : float) :
  PrimFloat.is_nan r = false ->
  (r <=? 0)%float = false ->
  (0 <? r)%float = true ∧ PrimFloat.is_zero r = false.
Proof.
  unfold PrimFloat.is_nan, PrimFloat.is_zero.
  rewrite !FloatAxioms.eqb_spec, FloatAxioms.leb_spec, FloatAxioms.ltb_spec.
  change (Prim2SF 0) with (S754_zero false). change (Prim2SF PrimFloat.zero) with (S754_zero false).
  destruct (Prim2SF r) as [s|s| |s m e]; cbn; try destruct s; try discriminate; by split.
Qed.

Lemma getImageAspectRatio_positive (P : Platform) (data : string) (r : float) :
  getImageAspectRatio P data = Some r ->
  JsNumber.truthy r = true
  ∧ (0 <? r)%float = true
  ∧ PrimFloat.is_nan r = false
  ∧ PrimFloat.is_infinity r = false.
Proof.
  unfold getImageAspectRatio.
  destruct (hasWindow P); cbn [negb]; [|discriminate].
  destruct (loadImage P data) as [img|]; [|discriminate]. cbv zeta.
  destruct (negb _ || negb _); [discriminate|].
  destruct (PrimFloat.is_nan _) eqn:Hnan; [discriminate|].
  destruct (PrimFloat.is_infinity _) eqn:Hinf; [discriminate|].
  destruct (PrimFloat.leb _ _) eqn:Hle; [discriminate|]. cbn [orb].
  intros [= <-].
  destruct (positive_ratio _ Hnan Hle) as [Hpos Hzero].
  unfold JsNumber.truthy. by rewrite Hnan, Hzero.
Qed.

(** X13 -- The logo.  An aspect ratio [getImageAspectRatio] returns is a
    positive finite number, so the generator's test of it only tells a
    missing ratio.  The logo, when it is drawn, is one PNG image placed 5
    below the top with its right edge at the right margin: a square of 20
    when no ratio can be had, else 20 high and 20 times the ratio wide,
    unless that is wider than 34, in which case it is 34 wide and 34
    divided by the ratio high.  Without a loaded logo, or when [addImage]
    throws, nothing is drawn. *)
Theorem logo_placement (P : Platform) (doc : Doc) (margin : float) (logo : option string) :
  (∀ data r,
     getImageAspectRatio P data = Some r ->
     JsNumber.truthy r = true ∧ (0 <? r)%float = true
     ∧ PrimFloat.is_nan r = false ∧ PrimFloat.is_infinity r = false)
  ∧ (drawLogo P doc margin logo = doc
     ∧ (logo = None ∨ logo = Some "" ∨ ∃ data, logo = Some data ∧ addImageAccepts P data = false)
     ∨ ∃ data w h,
         logo = Some data
         ∧ addImageAccepts P data = true
         ∧ drawLogo P doc margin logo
           = emit doc [AddImage data "PNG" (pageWidth P - margin - w)%float 5 w h]
         ∧ (w, h) = match getImageAspectRatio P data with
                    | None => (20, 20)%float
                    | Some r =>
                        if (34 <? 20 * r)%float then (34, 34 / r)%float
                        else (20 * r, 20)%float
                    end).
Proof.
  split; [intros data r; apply getImageAspectRatio_positive|].
  unfold drawLogo. destruct logo as [data|]; [|left; split; [reflexivity | by left]].
  destruct data as [|c data]; [left; split; [reflexivity | right; by left]|].
  cbn [JsString.isEmpty]. cbv zeta.
  destruct (addImageAccepts P (String c data)) eqn:Haccepts.
  - right. destruct (getImageAspectRatio P (String c data)) as [r|] eqn:Hratio.
    + destruct (getImageAspectRatio_positive _ _ _ Hratio) as (-> & _).
      exists (String c data). rewrite Hratio.
      destruct (PrimFloat.ltb 34 (20 * r)); eexists _, _;
        (split; [reflexivity|]); (split; [exact Haccepts|]); split; reflexivity.
    + exists (String c data). rewrite Hratio. eexists _, _.
      split; [reflexivity|]. split; [exact Haccepts|]. split; reflexivity.
  - left. split; [|right; right; by eexists].
    destruct (getImageAspectRatio P (String c data)) as [r|];
      [destruct (JsNumber.truthy r); [destruct (PrimFloat.ltb _ _)|]|]; reflexivity.
Qed.

(** X13, on a logo of 300 by 100 pixels: the ratio is 3, 60 is wider than
    34, and the logo is drawn 34 wide. *)
Lemma logo_placement_sample :
  ∃ data h,
    loadImageAsDataUrl Sample.withLogo DEFAULT_LOGO_URL = Some data
    ∧ getImageAspectRatio Sample.withLogo data = Some 3%float
    ∧ drawLogo Sample.withLogo [] marginX (Some data)
      = [AddImage data "PNG" (pageWidth Sample.withLogo - marginX - 34)%float 5 34 h]
    ∧ h = (34 / 3)%float.
Proof.
  assert (Hdata : ∃ data, loadImageAsDataUrl Sample.withLogo DEFAULT_LOGO_URL = Some data)
    by (eexists; vm_compute; reflexivity).
  destruct Hdata as (data & Hdata). exists data, (34 / 3)%float.
  split; [exact Hdata|].
  vm_compute in Hdata. injection Hdata as <-.
  split; [vm_compute; reflexivity|]. split; [|reflexivity].
  match goal with
  | |- drawLogo _ _ _ (Some ?data) = _ =>
      destruct (logo_placement Sample.withLogo [] marginX (Some data))
        as [_ [[_ [H|[H|(d & _ & H)]]]|(d & w & h & Hd & _ & -> & Hwh)]];
      try discriminate H
  end.
  injection Hd as <-.
  vm_compute in Hwh. injection Hwh as -> ->. reflexivity.
Defined.

(** ** The list of the invoices page *)

Lemma includes_empty (s : string) : InvoicesPage.includes s "" = true.
Proof. by destruct s. Qed.

Lemma lowerChar_idem (c : ascii) :
  JsString.lowerChar (JsString.lowerChar c) = JsString.lowerChar c.
Proof. destruct c as [[] [] [] [] [] [] [] []]; vm_compute; reflexivity. Qed.

Lemma toLowerCase_idem (s : string) :
  JsString.toLowerCase (JsString.toLowerCase s) = JsString.toLowerCase s.
Proof.
  induction s as [|c r IH]; [reflexivity|]. cbn [JsString.toLowerCase].
  by rewrite lowerChar_idem, IH.
Qed.

Lemma isEmpty_toLowerCase (s : string) :
  JsString.isEmpty (JsString.toLowerCase s) = JsString.isEmpty s.
Proof. by destruct s. Qed.

Lemma filter_sublist {A} (p : A -> bool) (l : list A) : sublist (List.filter p l) l.
Proof.
  induction l as [|x l IH]; [constructor|]. cbn [List.filter].
  destruct (p x); by constructor.
Qed.

Lemma cin_filter (cinSearch : string) (inv : InvoicesPage.Invoice) :
  InvoicesPage.includes (JsString.toLowerCase (InvoicesPage.clientCIN inv))
    (JsString.toLowerCase cinSearch)
  || JsString.isEmpty cinSearch
  = InvoicesPage.includes (JsString.toLowerCase (InvoicesPage.clientCIN inv))
      (JsString.toLowerCase cinSearch).
Proof.
  destruct cinSearch as [|c q]; [|apply orb_false_r].
  cbn [JsString.toLowerCase]. by rewrite includes_empty.
Qed.

(** X14 -- The list the invoices page shows.  An invoice is shown exactly
    when it is in the list, matches the status filter, and its CIN,
    lowercased, includes the lowercased search text; the second test of the
    source, for an empty search text, never decides anything, since every
    string includes the empty one.  The invoices shown keep their order.
    With the filter "All" and no search text all invoices are shown, and
    the case of the search text does not matter.  A search text that is
    not empty but blank can hide every invoice while the page does not
    show its "Showing n of m invoices" line. *)
Theorem filtered_invoices (statusFilter : InvoicesPage.StatusFilter) (cinSearch : string)
    (invoices : list InvoicesPage.Invoice) :
  (∀ inv,
     inv ∈ InvoicesPage.filteredInvoices statusFilter cinSearch invoices
     <-> inv ∈ invoices
         ∧ InvoicesPage.statusMatches statusFilter inv = true
         ∧ InvoicesPage.includes (JsString.toLowerCase (InvoicesPage.clientCIN inv))
             (JsString.toLowerCase cinSearch) = true)
  ∧ sublist (InvoicesPage.filteredInvoices statusFilter cinSearch invoices) invoices
  ∧ InvoicesPage.filteredInvoices InvoicesPage.All "" invoices = invoices
  ∧ InvoicesPage.filteredInvoices statusFilter (JsString.toLowerCase cinSearch) invoices
    = InvoicesPage.filteredInvoices statusFilter cinSearch invoices
  ∧ (JsString.isEmpty cinSearch = false ->
     JsString.trim cinSearch = "" ->
     (∀ inv, inv ∈ invoices ->
        InvoicesPage.includes (JsString.toLowerCase (InvoicesPage.clientCIN inv))
          (JsString.toLowerCase cinSearch) = false) ->
     InvoicesPage.filteredInvoices InvoicesPage.All cinSearch invoices = []
     ∧ InvoicesPage.showsCount InvoicesPage.All cinSearch = false).
Proof.
  unfold InvoicesPage.filteredInvoices.
  split; [|split; [|split; [|split]]].
  - intros inv. rewrite !list_elem_of_In, !filter_In, cin_filter, <- list_elem_of_In. tauto.
  - etrans; apply filter_sublist.
  - induction invoices as [|inv l IH]; [reflexivity|].
    cbn [List.filter InvoicesPage.statusMatches JsString.toLowerCase].
    rewrite includes_empty. cbn [orb]. f_equal. exact IH.
  - apply filter_ext. intros inv.
    by rewrite toLowerCase_idem, isEmpty_toLowerCase.
  - intros Hsome Hblank Hnone. split.
    + destruct cinSearch as [|c q]; [discriminate Hsome|]. cbn [JsString.isEmpty].
      induction invoices as [|inv l IH]; [reflexivity|].
      cbn [List.filter InvoicesPage.statusMatches].
      rewrite (Hnone inv) by (apply elem_of_cons; by left). cbn [orb].
      apply IH. intros inv' Hin. apply Hnone. by apply elem_of_cons; right.
    + unfold InvoicesPage.showsCount. by rewrite Hblank.
Qed.

(** X14, on three invoices: the search text "AB" finds the CINs "AB123456"
    and "ab999999"; a single space hides all three, and the count line is
    not shown. *)
Lemma filtered_invoices_sample :
  map InvoicesPage.id
    (InvoicesPage.filteredInvoices InvoicesPage.All "AB" Sample.pageInvoices) = ["a"; "c"]
  ∧ InvoicesPage.filteredInvoices InvoicesPage.All " " Sample.pageInvoices = []
  ∧ InvoicesPage.showsCount InvoicesPage.All " " = false.
Proof.
  split; [reflexivity|].
  apply (proj2 (proj2 (proj2 (proj2
           (filtered_invoices InvoicesPage.All " " Sample.pageInvoices)))));
    [reflexivity | reflexivity |].
  intros inv Hin.
  repeat (apply elem_of_cons in Hin as [->|Hin]; [reflexivity|]).
  inversion Hin.
Defined.

(** X15 -- Status updates and deletions on the list of the invoices page.
    An update keeps the invoices, their order and all their fields but two:
    every invoice with the given id gets the new status and the time of
    the update, and the others are untouched.  A deletion removes exactly
    the invoices with the given id and keeps the others in order.
    Updating after deleting the same id changes nothing, and deleting
    after updating gives the same list as deleting at once. *)
Theorem status_update_and_delete (time : float) (invoiceId : string)
    (newStatus : InvoicesPage.Status) (invoices : list InvoicesPage.Invoice) :
  let updated := InvoicesPage.handleUpdateStatus true time invoiceId newStatus invoices in
  let remaining := InvoicesPage.confirmDeleteInvoice true invoiceId invoices in
  map InvoicesPage.id updated = map InvoicesPage.id invoices
  ∧ map InvoicesPage.clientCIN updated = map InvoicesPage.clientCIN invoices
  ∧ map InvoicesPage.totalAmount updated = map InvoicesPage.totalAmount invoices
  ∧ map InvoicesPage.others updated = map InvoicesPage.others invoices
  ∧ (∀ inv, inv ∈ updated -> InvoicesPage.id inv = invoiceId ->
            InvoicesPage.status inv = newStatus ∧ InvoicesPage.updatedAt inv = time)
  ∧ (∀ inv, InvoicesPage.id inv ≠ invoiceId -> inv ∈ updated <-> inv ∈ invoices)
  ∧ (∀ inv, inv ∈ remaining <-> inv ∈ invoices ∧ InvoicesPage.id inv ≠ invoiceId)
  ∧ sublist remaining invoices
  ∧ InvoicesPage.handleUpdateStatus true time invoiceId newStatus remaining = remaining
  ∧ InvoicesPage.confirmDeleteInvoice true invoiceId updated = remaining.
Proof.
  cbv zeta. unfold InvoicesPage.handleUpdateStatus, InvoicesPage.confirmDeleteInvoice.
  split; [|split; [|split; [|split; [|split; [|split; [|split; [|split; [|split]]]]]]]].
  - rewrite map_map. apply map_ext. intros inv. by destruct (String.eqb _ _).
  - rewrite map_map. apply map_ext. intros inv. by destruct (String.eqb _ _).
  - rewrite map_map. apply map_ext. intros inv. by destruct (String.eqb _ _).
  - rewrite map_map. apply map_ext. intros inv. by destruct (String.eqb _ _).
  - intros inv (inv0 & -> & _)%list_elem_of_fmap.
    destruct (String.eqb_spec (InvoicesPage.id inv0) invoiceId) as [Heq|Hne];
      [by split | by intros Hid].
  - intros inv Hne. rewrite list_elem_of_fmap. split.
    + intros (inv0 & -> & Hin).
      destruct (String.eqb_spec (InvoicesPage.id inv0) invoiceId) as [Heq|_];
        [by exfalso; apply Hne | exact Hin].
    + intros Hin. exists inv. split; [|exact Hin].
      by destruct (String.eqb_spec (InvoicesPage.id inv) invoiceId).
  - intros inv. rewrite !list_elem_of_In, filter_In, negb_true_iff.
    by destruct (String.eqb_spec (InvoicesPage.id inv) invoiceId); intuition.
  - apply filter_sublist.
  - induction invoices as [|inv l IH]; [reflexivity|]. cbn [List.filter].
    destruct (String.eqb (InvoicesPage.id inv) invoiceId) eqn:Hid; cbn [negb]; [exact IH|].
    cbn [map]. by rewrite Hid, IH.
  - induction invoices as [|inv l IH]; [reflexivity|]. cbn [map List.filter].
    destruct (String.eqb (InvoicesPage.id inv) invoiceId) eqn:Hid;
      cbn [InvoicesPage.id]; rewrite Hid; cbn [negb]; by rewrite IH.
Qed.

(** X15, on three invoices: marking "b" as paid raises the number of paid
    invoices from 1 to 2, and deleting "b" leaves "a" and "c". *)
Lemma status_update_and_delete_sample :
  InvoicesPage.paidInvoices Sample.pageInvoices = 1%nat
  ∧ InvoicesPage.paidInvoices
      (InvoicesPage.handleUpdateStatus true 5 "b" InvoicesPage.Paid Sample.pageInvoices)
    = 2%nat
  ∧ map InvoicesPage.id
      (InvoicesPage.handleUpdateStatus true 5 "b" InvoicesPage.Paid Sample.pageInvoices)
    = ["a"; "b"; "c"]
  ∧ map InvoicesPage.id
      (InvoicesPage.confirmDeleteInvoice true "b"
         (InvoicesPage.handleUpdateStatus true 5 "b" InvoicesPage.Paid Sample.pageInvoices))
    = ["a"; "c"].
Proof.
  pose proof (status_update_and_delete 5 "b" InvoicesPage.Paid Sample.pageInvoices)
    as (Hids & _ & _ & _ & _ & _ & _ & _ & _ & Hdelete).
  cbv zeta in Hids, Hdelete. rewrite Hids, Hdelete.
  split; [reflexivity|]. split; [reflexivity|]. split; reflexivity.
Defined.

(** ** Amounts *)

Lemma allChars_app (p : ascii -> bool) (s t : string) :
  allChars p (s ++ t) = allChars p s && allChars p t.
Proof.
  induction s as [|c r IH]; [reflexivity|].
  change (String c r ++ t) with (String c (r ++ t)). cbn [allChars].
  by rewrite IH, andb_assoc.
Qed.

Lemma length_append (s t : string) :
  String.length (s ++ t) = (String.length s + String.length t)%nat.
Proof.
  induction s as [|c r IH]; [reflexivity|].
  change (String c r ++ t) with (String c (r ++ t)). cbn [String.length Nat.add].
  by rewrite IH.
Qed.

Lemma append_assoc (s t u : string) : (s ++ t) ++ u = s ++ (t ++ u).
Proof.
  induction s as [|c r IH]; [reflexivity|].
  change ((String c r ++ t) ++ u) with (String c ((r ++ t) ++ u)).
  change (String c r ++ (t ++ u)) with (String c (r ++ (t ++ u))).
  by rewrite IH.
Qed.

Lemma substring_length (s : string) (n m : nat) :
  (n + m <= String.length s)%nat -> String.length (substring n m s) = m.
Proof.
  revert n m. induction s as [|c r IH]; intros n m Hlen.
  - cbn in Hlen. assert (n = 0%nat) as -> by lia. assert (m = 0%nat) as -> by lia.
    reflexivity.
  - destruct n as [|n].
    + destruct m as [|m]; [reflexivity|]. cbn [substring String.length].
      f_equal. apply IH. cbn in Hlen. lia.
    + cbn [substring]. apply IH. cbn in Hlen. lia.
Qed.

Lemma substring_allChars (p : ascii -> bool) (s : string) (n m : nat) :
  allChars p s = true -> allChars p (substring n m s) = true.
Proof.
  revert n m. induction s as [|c r IH]; intros n m Hs.
  - by destruct n, m.
  - cbn [allChars] in Hs. apply andb_true_iff in Hs as [Hc Hr].
    destruct n as [|n]; [destruct m as [|m]; [reflexivity|]|]; cbn [substring allChars].
    + by rewrite Hc, IH.
    + by apply IH.
Qed.

Lemma string_of_uint_digits (d : Decimal.uint) :
  allChars isDecimalDigit (NilEmpty.string_of_uint d) = true.
Proof. induction d; cbn [NilEmpty.string_of_uint allChars]; by rewrite ?IHd. Qed.

Lemma digits_shape (n : Z) :
  allChars isDecimalDigit (JsNumber.digits n) = true
  ∧ (1 <= String.length (JsNumber.digits n))%nat.
Proof.
  unfold JsNumber.digits, NilZero.string_of_uint.
  destruct (N.to_uint (Z.to_N n)) as [|d|d|d|d|d|d|d|d|d|d];
    (split; [try reflexivity; apply (string_of_uint_digits (_ d))
            | cbn [NilEmpty.string_of_uint String.length]; lia]).
Qed.

Lemma zeros_shape (k : nat) :
  allChars isDecimalDigit (JsNumber.zeros k) = true
  ∧ String.length (JsNumber.zeros k) = k.
Proof.
  induction k as [|k [IH1 IH2]]; [by split|].
  cbn [JsNumber.zeros allChars String.length]. by rewrite IH1, IH2.
Qed.

(** The digits [toFixed(2)] writes: at least one, a point, and two. *)
Lemma fixedDigits_shape (n : Z) :
  ∃ whole frac,
    JsNumber.fixedDigits n 2 = whole ++ "." ++ frac
    ∧ (1 <= String.length whole)%nat
    ∧ allChars isDecimalDigit whole = true
    ∧ String.length frac = 2%nat
    ∧ allChars isDecimalDigit frac = true.
Proof.
  unfold JsNumber.fixedDigits. cbv zeta.
  destruct (digits_shape n) as [Hdigits Hlen].
  set (m := JsNumber.digits n) in *.
  set (m' := if Nat.leb (String.length m) 2
             then JsNumber.zeros (2 + 1 - String.length m) ++ m else m).
  assert (Hm' : allChars isDecimalDigit m' = true ∧ (3 <= String.length m')%nat).
  { subst m'. destruct (Nat.leb_spec (String.length m) 2) as [Hle|Hgt].
    - destruct (zeros_shape (2 + 1 - String.length m)) as [Hz Hzlen].
      rewrite allChars_app, length_append, Hz, Hzlen, Hdigits. split; [reflexivity|lia].
    - split; [exact Hdigits|lia]. }
  destruct Hm' as [Hall Hlong].
  eexists _, _. split; [reflexivity|].
  rewrite !substring_length by lia.
  rewrite !substring_allChars by exact Hall.
  repeat split; lia.
Qed.

(** X16 -- Printed amounts.  [formatMoneyDt] prints NaN and both zeros as
    "0.00 Dt", and every finite amount of magnitude below 10^21 as an
    optional minus sign, at least one digit, a point, exactly two digits,
    and " Dt". *)
Theorem money_format (P : Platform) (x : float) :
  (JsNumber.truthy x = false -> formatMoneyDt P x = "0.00 Dt")
  ∧ (belowFixedLimit x = true ->
     ∃ sign whole frac,
       formatMoneyDt P x = sign ++ whole ++ "." ++ frac ++ " Dt"
       ∧ (sign = "" ∨ sign = "-")
       ∧ (1 <= String.length whole)%nat
       ∧ allChars isDecimalDigit whole = true
       ∧ String.length frac = 2%nat
       ∧ allChars isDecimalDigit frac = true).
Proof.
  split.
  - intros Hfalsy. unfold formatMoneyDt. by rewrite Hfalsy.
  - intros Hbelow. unfold formatMoneyDt.
    destruct (JsNumber.truthy x) eqn:Htruthy.
    + unfold JsNumber.toFixed. unfold belowFixedLimit in Hbelow.
      destruct (Prim2SF x) as [s|s| |s m e]; try discriminate Hbelow.
      * destruct (fixedDigits_shape 0) as (whole & frac & -> & Hw & Hwd & Hf & Hfd).
        exists "", whole, frac. rewrite !append_assoc. by repeat split; auto.
      * cbv zeta in Hbelow |- *. apply negb_true_iff in Hbelow. rewrite Hbelow.
        match goal with
        | |- context [JsNumber.fixedDigits ?n 2] =>
            destruct (fixedDigits_shape n) as (whole & frac & -> & Hw & Hwd & Hf & Hfd)
        end.
        exists (if s then "-" else ""), whole, frac.
        rewrite !append_assoc.
        split; [reflexivity|]. split; [destruct s; auto|]. by repeat split.
    + exists "", "0", "00". by repeat split; auto.
Qed.

(** X16, on the amounts 1234.5, -0.004 and NaN. *)
Lemma money_format_sample :
  JsNumber.truthy nan = false
  ∧ formatMoneyDt Sample.platform nan = "0.00 Dt"
  ∧ belowFixedLimit 1234.5 = true
  ∧ belowFixedLimit (-0.004) = true
  ∧ formatMoneyDt Sample.platform 1234.5 = "1234.50 Dt"
  ∧ formatMoneyDt Sample.platform (-0.004) = "-0.00 Dt"
  ∧ ∃ sign whole frac,
      formatMoneyDt Sample.platform 1234.5 = sign ++ whole ++ "." ++ frac ++ " Dt"
      ∧ String.length frac = 2%nat.
Proof.
  split; [vm_compute; reflexivity|].
  split; [apply (proj1 (money_format Sample.platform nan)); vm_compute; reflexivity|].
  split; [vm_compute; reflexivity|]. split; [vm_compute; reflexivity|].
  split; [vm_compute; reflexivity|]. split; [vm_compute; reflexivity|].
  assert (Hbelow : belowFixedLimit 1234.5 = true) by (vm_compute; reflexivity).
  destruct (proj2 (money_format Sample.platform 1234.5) Hbelow)
    as (sign & whole & frac & Heq & _ & _ & _ & Hfrac & _).
  exists sign, whole, frac. split; [exact Heq | exact Hfrac].
Defined.

(** ** What the generator does not read *)

(** X17 -- The document depends on the unified record only through eleven
    of its properties: the invoice number, the three dates, the status, the
    client and its CIN, the items and the three amounts.  Two records that
    agree on them give the same document or the same exception, so the
    notes and the tax rate of an invoice never reach the document. *)
Theorem unused_fields (P : Platform) (options invoice invoice' : JsVal) :
  isNullish invoice = isNullish invoice' ->
  (∀ p, p ∈ usedFields -> prop invoice p = prop invoice' p) ->
  renderInvoice P options invoice = renderInvoice P options invoice'.
Proof.
  intros Hnull Hfields.
  assert (Hused : ∀ p, existsb (String.eqb p) usedFields = true ->
                       prop invoice p = prop invoice' p).
  { intros p (q & Hq%list_elem_of_In & ->%String.eqb_eq)%existsb_exists.
    by apply Hfields. }
  pose proof (Hused "invoiceNumber" ltac:(vm_compute; reflexivity)) as H1.
  pose proof (Hused "issueDate" ltac:(vm_compute; reflexivity)) as H2.
  pose proof (Hused "createdAt" ltac:(vm_compute; reflexivity)) as H3.
  pose proof (Hused "dueDate" ltac:(vm_compute; reflexivity)) as H4.
  pose proof (Hused "status" ltac:(vm_compute; reflexivity)) as H5.
  pose proof (Hused "client" ltac:(vm_compute; reflexivity)) as H6.
  pose proof (Hused "clientCIN" ltac:(vm_compute; reflexivity)) as H7.
  pose proof (Hused "items" ltac:(vm_compute; reflexivity)) as H8.
  pose proof (Hused "subtotal" ltac:(vm_compute; reflexivity)) as H9.
  pose proof (Hused "taxAmount" ltac:(vm_compute; reflexivity)) as H10.
  pose proof (Hused "totalAmount" ltac:(vm_compute; reflexivity)) as H11.
  unfold renderInvoice, drawBoxes, leftRows, rightRows, issueDateOf, drawTableAndTotals,
    fileName, getProp.
  rewrite Hnull, H1, H2, H3, H4, H5, H6, H7, H8, H9, H10, H11. reflexivity.
Qed.

(** X17, on the sample invoice with notes, a tax rate and an order id
    added. *)
Lemma unused_fields_sample :
  prop Sample.annotatedInvoice "notes" = VStr "Pay within 30 days"
  ∧ prop Sample.invoice "notes" = VUndef
  ∧ renderInvoice Sample.platform VUndef Sample.annotatedInvoice
    = renderInvoice Sample.platform VUndef Sample.invoice.
Proof.
  split; [reflexivity|]. split; [reflexivity|].
  apply unused_fields; [reflexivity|].
  intros p Hp. unfold usedFields in Hp.
  repeat (apply elem_of_cons in Hp as [->|Hp]; [reflexivity|]).
  inversion Hp.
Defined.

(** ** Downloads from the invoices page *)



(** ** The references printed for the unified record *)

(** X19 -- The reference cells of a rendered document.  The items table
    has one row per line item of the unified record.  The first cell of a
    row is the item's trimmed inline reference if it is not empty; else the
    catalog reference looked up for its product identifier (the item's
    [productId], or its [id] when it has none) if that is not empty; else
    that identifier; else the dash -- except that an item without inline
    reference whose identifier was not looked up and names a member of
    [Object.prototype] gets that member instead of the identifier.  A
    catalog lookup is issued only for the identifier of an item without an
    inline reference; when the catalog can be reached it is issued for
    every such identifier, and then every reference cell is the text the
    precedence gives. *)
Theorem reference_precedence_unified (P : Platform) (options invoice : JsVal) (doc : Doc) :
  renderInvoice P options invoice = Ok doc ->
  ∃ items looked,
    asArray (nullish (prop invoice "items") (VArr [])) = Ok items
    ∧ tableBody P items = Ok (looked, tableRowsOf doc)
    ∧ length (tableRowsOf doc) = length items
    ∧ (∀ i item row, items !! i = Some item -> tableRowsOf doc !! i = Some row ->
         printedReference row
         = printedCell (inlineRefOf P item)
             (if bool_decide (productIdentifier P item ∈ looked)
              then Some (catalogReference P (productIdentifier P item)) else None)
             (productIdentifier P item))
    ∧ (∀ id, id ∈ looked ->
         ∃ item, item ∈ items ∧ inlineRefOf P item = "" ∧ productIdentifier P item = id)
    ∧ (hasWindow P = true -> importFirestore P = true ->
       (∀ item, item ∈ items ->
          inlineRefOf P item = "" -> productIdentifier P item ≠ "" ->
          productIdentifier P item ∈ looked)
       ∧ (∀ i item row, items !! i = Some item -> tableRowsOf doc !! i = Some row ->
            printedReference row
            = CellText
                (spec_reference (inlineRefOf P item)
                   (if bool_decide (productIdentifier P item ∈ looked)
                    then Some (catalogReference P (productIdentifier P item)) else None)
                   (productIdentifier P item)))).
Proof.
  intros (items & looked & Hitems & Hbody)%renderInvoice_rows.
  exists items, looked. split; [exact Hitems|]. split; [exact Hbody|].
  destruct (tableBody_references P items (tableBody_Ok_objects _ _ _ Hbody))
    as (looked' & rows' & Hbody' & Hlength & Hrows & Hlooked & Hissued).
  rewrite Hbody in Hbody'. apply Ok_inj in Hbody'. injection Hbody' as <- <-.
  split; [exact Hlength|]. split; [exact Hrows|]. split; [exact Hlooked|].
  intros Hwindow Hstore. split; [exact (Hissued Hwindow Hstore)|].
  intros i item row Hitem Hrow. rewrite (Hrows i item row Hitem Hrow).
  unfold printedCell. case_bool_decide as Hin; [reflexivity|].
  destruct (JsString.isEmpty (inlineRefOf P item)) eqn:Hinline; [|reflexivity].
  destruct (inheritedKey (productIdentifier P item)) eqn:Hkey; [|reflexivity].
  exfalso. apply Hin, (Hissued Hwindow Hstore).
  - by apply list_elem_of_lookup_2 in Hitem.
  - by destruct (inlineRefOf P item).
  - intros Hempty. by rewrite Hempty in Hkey.
Qed.

(** X19, on the sample items: the inline reference R1 wins over the catalog
    entry of P1; without it P1 prints its catalog reference REF-P1; the
    item whose lookup fails prints its identifier; the item with no
    identifier prints the dash; and only P1 and P9 are looked up. *)
Lemma reference_precedence_unified_sample :
  ∃ doc looked,
    renderInvoice Sample.platform VUndef (VObj [("items", VArr Sample.items)]) = Ok doc
    ∧ tableBody Sample.platform Sample.items = Ok (looked, tableRowsOf doc)
    ∧ looked = ["P1"; "P9"]
    ∧ map printedReference (tableRowsOf doc) = textRow ["R1"; "REF-P1"; "P9"; "-"].
Proof.
  assert (Hdoc : ∃ doc, renderInvoice Sample.platform VUndef
                          (VObj [("items", VArr Sample.items)]) = Ok doc)
    by (eexists; vm_compute; reflexivity).
  destruct Hdoc as (doc & Hdoc).
  destruct (reference_precedence_unified Sample.platform VUndef _ doc Hdoc)
    as (items & looked & Hitems & Hbody & _).
  apply Ok_inj in Hitems as <-.
  exists doc, looked. split; [exact Hdoc|]. split; [exact Hbody|].
  vm_compute in Hdoc. apply Ok_inj in Hdoc as <-.
  vm_compute in Hbody. apply Ok_inj in Hbody. injection Hbody as <-.
  split; reflexivity.
Defined.
